(** * Mail-merge pipeline of [app.py]: a shallow embedding and its properties

    The program reads two sheets of an Excel workbook (customer profiles and
    goods lines), and for every customer renders every Word template with the
    customer's fields and a table of the customer's goods.

    The embedding follows [app.py] function by function and keeps its names.
    Python values, strings, data frames and the document objects of
    [docxtpl] are modelled by the inductive types below.  What the program
    takes from its libraries without defining it (the Unicode character
    database behind [unicodedata] and the [str] methods, the numeric and date
    parsers, [repr]) is a parameter: the classes [unicode_data] and
    [runtime]. *)

From Stdlib Require Import ZArith List Bool Lia String Ascii SpecFloat.
From Stdlib Require DecimalPos.
From stdpp Require Import base option list gmap.

Open Scope Z_scope.
Open Scope list_scope.

(** ** Python strings *)

(** A [str] is a sequence of Unicode code points. *)
Definition pystr := list Z.

(** String literals of the source are UTF-8 in the file; [py] decodes one
    into its code points, so that [py "Mã KH"] is the [str] the program uses. *)
Definition utf8_step (st : Z * Z * list Z) (b : Z) : Z * Z * list Z :=
  let '(pending, acc, out) := st in
  if pending =? 0 then
    if b <? 128 then (0, 0, b :: out)
    else if b <? 224 then (1, Z.land b 31, out)
    else if b <? 240 then (2, Z.land b 15, out)
    else (3, Z.land b 7, out)
  else
    let acc' := Z.lor (Z.shiftl acc 6) (Z.land b 63) in
    if pending =? 1 then (0, 0, acc' :: out) else (pending - 1, acc', out).

Fixpoint string_bytes (s : string) : list Z :=
  match s with
  | EmptyString => []
  | String a rest => Z.of_N (N_of_ascii a) :: string_bytes rest
  end.

Definition py (s : string) : pystr :=
  rev (snd (fold_left utf8_step (string_bytes s) (0, 0, []))).

Definition pystr_eqb (a b : pystr) : bool := bool_decide (a = b).

(** [needle in hay] for two strings: [needle] occurs as a contiguous run. *)
Fixpoint str_startswith (needle hay : pystr) : bool :=
  match needle, hay with
  | [], _ => true
  | _ :: _, [] => false
  | a :: needle', b :: hay' => (a =? b) && str_startswith needle' hay'
  end.

Fixpoint str_contains (needle hay : pystr) : bool :=
  str_startswith needle hay ||
  match hay with
  | [] => false
  | _ :: hay' => str_contains needle hay'
  end.

(** [sep.join(parts)] *)
Fixpoint str_join (sep : pystr) (parts : list pystr) : pystr :=
  match parts with
  | [] => []
  | [p] => p
  | p :: rest => p ++ sep ++ str_join sep rest
  end.

(** [s.replace(" ", "")]: every U+0020 is dropped. *)
Definition remove_spaces (s : pystr) : pystr :=
  List.filter (fun c => negb (c =? 32)) s.

(** [s.strip(chars)] for a set of characters given as a predicate. *)
Fixpoint dropwhile (p : Z -> bool) (s : pystr) : pystr :=
  match s with
  | [] => []
  | c :: rest => if p c then dropwhile p rest else s
  end.

Definition lstrip_by (p : Z -> bool) (s : pystr) : pystr := dropwhile p s.
Definition rstrip_by (p : Z -> bool) (s : pystr) : pystr :=
  rev (dropwhile p (rev s)).
Definition strip_by (p : Z -> bool) (s : pystr) : pystr :=
  rstrip_by p (lstrip_by p s).

(** ** The Unicode character database

    [unicodedata.normalize], [unicodedata.combining], [str.lower],
    [str.isalnum] and [str.strip] read the character database compiled into
    the interpreter.  Its columns are the fields of [unicode_data]. *)
Class unicode_data := {
  (** full canonical decomposition of one code point ([c] itself when it has
      none), Hangul syllables included *)
  uc_decomposition : Z -> list Z;
  (** [unicodedata.combining]: the canonical combining class *)
  uc_combining : Z -> Z;
  (** full lowercase mapping of one code point *)
  uc_lower : Z -> list Z;
  (** the properties Cased and Case_Ignorable *)
  uc_cased : Z -> bool;
  uc_case_ignorable : Z -> bool;
  (** [ch.isalnum()] and [ch.isspace()] for a one-character string *)
  uc_isalnum : Z -> bool;
  uc_isspace : Z -> bool;
}.

Section UnicodeStrings.
Context `{U : unicode_data}.

Definition is_starter (c : Z) : bool := uc_combining c =? 0.

(** Canonical ordering, as [unicodedata] does it: each code point in turn
    is moved left past the marks of a greater non-zero class.  [placed] is
    the part already ordered, last code point first. *)
Fixpoint insert_mark (c : Z) (placed : list Z) : list Z :=
  match placed with
  | [] => [c]
  | p :: ps =>
      if negb (is_starter c) && negb (is_starter p)
         && (uc_combining c <? uc_combining p)
      then p :: insert_mark c ps
      else c :: placed
  end.

Definition canonical_order (s : pystr) : pystr :=
  rev (fold_left (fun placed c => insert_mark c placed) s []).

(** [normalize("NFD", s)] *)
Definition normalize_NFD (s : pystr) : pystr :=
  canonical_order (flat_map uc_decomposition s).

(** [str.lower]: U+03A3 becomes U+03C2 in final position (after a cased
    letter and not before one, case-ignorable characters skipped) and
    U+03C3 elsewhere; every other code point takes its lowercase mapping.
    [before] is the text to the left, nearest code point first. *)
Definition final_sigma (before after : list Z) : bool :=
  match dropwhile uc_case_ignorable before with
  | c :: _ => uc_cased c
  | [] => false
  end
  && match dropwhile uc_case_ignorable after with
     | c :: _ => negb (uc_cased c)
     | [] => true
     end.

Definition lower_char (before : list Z) (c : Z) (after : list Z) : list Z :=
  if c =? 931 then [if final_sigma before after then 962 else 963]
  else uc_lower c.

Fixpoint lower_from (before : list Z) (s : pystr) : pystr :=
  match s with
  | [] => []
  | c :: rest => lower_char before c rest ++ lower_from (c :: before) rest
  end.

Definition str_lower (s : pystr) : pystr := lower_from [] s.

(** [s.strip()] *)
Definition str_strip (s : pystr) : pystr := strip_by uc_isspace s.

(** *** [strip_accents], [normalize_key], [safe_filename]

    The three functions are given on strings.  Their first branch, for an
    argument that is no string, is taken at the call sites: the program
    calls [normalize_key] on sheet names, on candidate literals and on the
    column labels that passed [isinstance(c, str)] (the labels [LStr]
    below), and [safe_filename] on the result of [str]. *)

Definition strip_accents (text : pystr) : pystr :=
  List.filter is_starter (normalize_NFD text).

Definition normalize_key (text : pystr) : pystr :=
  remove_spaces (str_lower (strip_accents text)).

Definition keep : pystr := py "-_.() []".

Definition safe_char (ch : Z) : Z :=
  if uc_isalnum ch || existsb (Z.eqb ch) keep then ch else 95.

Definition safe_filename (text : pystr) : pystr := map safe_char text.
End UnicodeStrings.

(** ** Python values, exceptions and numbers *)

(** A [float] is an IEEE 754 binary64 number. *)
Definition float := spec_float.
Definition float_mul : float -> float -> float := SFmul 53 1024.
(** The binary64 nearest to an integer (ties to even). *)
Definition float_of_Z (z : Z) : float := binary_normalize 53 1024 z 0 false.

Record datetime := {
  dt_year : Z; dt_month : Z; dt_day : Z;
  dt_hour : Z; dt_minute : Z; dt_second : Z; dt_microsecond : Z;
}.

(** The values a worksheet cell or a row field can hold: nothing, an integer,
    a float (NaN is how pandas marks a missing number), text, a date. *)
Inductive pyval :=
  | PNone
  | PInt (z : Z)
  | PFloat (f : float)
  | PStr (s : pystr)
  | PDatetime (d : datetime).

Inductive exn_kind := FileNotFoundError | ValueError | TypeError | OverflowError.
Record exn := Exn { exn_kind_of : exn_kind; exn_msg : pystr }.

(** A computation returns a value or raises. *)
Inductive result (A : Type) : Type :=
  | Ok (a : A)
  | Raise (e : exn).
Arguments Ok {A} a.
Arguments Raise {A} e.

#[global] Instance result_ret : MRet result := @Ok.
#[global] Instance result_bind : MBind result := fun A B f m =>
  match m with
  | Ok a => f a
  | Raise e => Raise e
  end.

(** [try: body except Exception: handler] *)
Definition try_except {A} (body handler : result A) : result A :=
  match body with
  | Ok a => Ok a
  | Raise _ => handler
  end.

(** A number as pandas holds it in a numeric column. *)
Inductive number :=
  | NInt (z : Z)
  | NFloat (f : float).

(** What the program takes from the interpreter and from pandas and does not
    define: the parsers and printers of numbers, text and dates. *)
Class runtime := {
  (** [float(s)] for a string, [None] when it raises [ValueError] *)
  float_of_str : pystr -> option float;
  (** [str(f)] for a float *)
  repr_float : float -> pystr;
  (** [repr(s)] for a string *)
  repr_str : pystr -> pystr;
  (** [str(d)] for a date *)
  str_datetime : datetime -> pystr;
  (** [d.strftime(fmt)] *)
  strftime : datetime -> pystr -> pystr;
  (** [pd.to_datetime(v, errors="coerce")] for a value that is not a date:
      [None] when it raises, [Some None] for [NaT] *)
  to_datetime : pyval -> option (option datetime);
  (** what [pd.to_numeric(..., errors="coerce")] makes of a text cell and of
      a date cell, [None] for NaN *)
  to_numeric_str : pystr -> option number;
  to_numeric_datetime : datetime -> option number;
}.

(** Decimal digits of a natural number, as code points. *)
Fixpoint uint_codes (d : Decimal.uint) : pystr :=
  match d with
  | Decimal.Nil => []
  | Decimal.D0 d => 48 :: uint_codes d
  | Decimal.D1 d => 49 :: uint_codes d
  | Decimal.D2 d => 50 :: uint_codes d
  | Decimal.D3 d => 51 :: uint_codes d
  | Decimal.D4 d => 52 :: uint_codes d
  | Decimal.D5 d => 53 :: uint_codes d
  | Decimal.D6 d => 54 :: uint_codes d
  | Decimal.D7 d => 55 :: uint_codes d
  | Decimal.D8 d => 56 :: uint_codes d
  | Decimal.D9 d => 57 :: uint_codes d
  end.

Definition decimal (n : Z) : pystr := uint_codes (N.to_uint (Z.to_N n)).

(** [str(n)] for an integer *)
Definition str_int (n : Z) : pystr :=
  if n <? 0 then 45 :: decimal (- n) else decimal n.

(** The digits of a number, last digit first, with a comma after every third
    digit that has a digit to its left. *)
Fixpoint group3 (digits : list Z) : list Z :=
  match digits with
  | a :: b :: c :: (_ :: _) as more => a :: b :: c :: 44 :: group3 more
  | _ => digits
  end.

Definition grouped (sign : bool) (n : Z) : pystr :=
  (if sign then [45] else []) ++ rev (group3 (rev (decimal n))).

(** [f"{n:,}"] for an integer *)
Definition format_int_comma (n : Z) : pystr := grouped (n <? 0) (Z.abs n).

(** The integer nearest to [m * 2^e], the even one of the two when it is
    halfway. *)
Definition round_half_even (m : positive) (e : Z) : Z :=
  if 0 <=? e then Z.pos m * 2 ^ e
  else
    let d := 2 ^ (- e) in
    let q := Z.pos m / d in
    match 2 * (Z.pos m mod d) ?= d with
    | Lt => q
    | Eq => if Z.even q then q else q + 1
    | Gt => q + 1
    end.

(** [round(f)] of a float: an [int], or an exception for NaN and the
    infinities. *)
Definition py_round (f : float) : result Z :=
  match f with
  | S754_zero _ => Ok 0
  | S754_finite s m e =>
      Ok (if s then - round_half_even m e else round_half_even m e)
  | S754_infinity _ => Raise (Exn OverflowError [])
  | S754_nan => Raise (Exn ValueError [])
  end.

(** [f"{f:,.0f}"] for a float *)
Definition format_float_comma (f : float) : pystr :=
  match f with
  | S754_nan => py "nan"
  | S754_infinity s => if s then py "-inf" else py "inf"
  | S754_zero s => grouped s 0
  | S754_finite s m e => grouped s (round_half_even m e)
  end.

(** [s.replace(",", ".")] *)
Definition comma_to_dot (s : pystr) : pystr :=
  map (fun c => if c =? 44 then 46 else c) s.

Definition is_nan (f : float) : bool :=
  match f with
  | S754_nan => true
  | _ => false
  end.

(** [pd.isna(v)] for a scalar *)
Definition isna (v : pyval) : bool :=
  match v with
  | PNone => true
  | PFloat f => is_nan f
  | _ => false
  end.

(** [v == ""] *)
Definition is_empty_str (v : pyval) : bool :=
  match v with
  | PStr [] => true
  | _ => false
  end.

Section Formatting.
Context `{R : runtime}.

(** [str(v)] *)
Definition str (v : pyval) : pystr :=
  match v with
  | PNone => py "None"
  | PInt z => str_int z
  | PFloat f => repr_float f
  | PStr s => s
  | PDatetime d => str_datetime d
  end.

(** [float(v)] *)
Definition float_of (v : pyval) : result float :=
  match v with
  | PNone => Raise (Exn TypeError [])
  | PInt z =>
      match float_of_Z z with
      | S754_infinity _ => Raise (Exn OverflowError [])
      | f => Ok f
      end
  | PFloat f => Ok f
  | PStr s =>
      match float_of_str s with
      | Some f => Ok f
      | None => Raise (Exn ValueError [])
      end
  | PDatetime _ => Raise (Exn TypeError [])
  end.

Definition format_date (value : pyval) (fmt : pystr) : result pystr :=
  if isna value then Ok []
  else
    match value with
    | PDatetime d => Ok (strftime d fmt)
    | _ =>
        try_except
          (match to_datetime value with
           | None => Raise (Exn ValueError [])
           | Some None => Ok (str value)
           | Some (Some dt) => Ok (strftime dt fmt)
           end)
          (Ok (str value))
    end.

Definition format_int (value : pyval) : result pystr :=
  if isna value || is_empty_str value then Ok []
  else
    try_except
      (f ← float_of value;
       n ← py_round f;
       Ok (comma_to_dot (format_int_comma n)))
      (Ok (str value)).

Definition format_currency (value : pyval) : result pystr :=
  if isna value || is_empty_str value then Ok []
  else
    try_except
      (f ← float_of value;
       Ok (comma_to_dot (format_float_comma f)))
      (Ok (str value)).
End Formatting.

(** ** Data frames *)

(** A column label: text, or a header cell that is not text. *)
Inductive label :=
  | LStr (s : pystr)
  | LNum (z : Z).

#[global] Instance label_eq_dec : EqDecision label.
Proof. solve_decision. Defined.

(** A [DataFrame]: the column labels and the rows, each row holding one cell
    per column. *)
Record dataframe := {
  df_columns : list label;
  df_rows : list (list pyval);
}.

(** [pd.DataFrame()] *)
Definition empty_frame : dataframe := {| df_columns := []; df_rows := [] |}.

(** [df.empty]: some axis has length 0. *)
Definition df_empty (df : dataframe) : bool :=
  match df_columns df, df_rows df with
  | _ :: _, _ :: _ => false
  | _, _ => true
  end.

(** A row as a [Series]: the labels with their cells. *)
Definition series_row := list (label * pyval).

(** [df.iterrows()]: the rows, each with the cells as they are in the frame.
    In a frame of numbers only pandas hands an integer cell over as the
    float of the same value, which [format_int] and [format_currency] print
    alike and [str] does not: what is stated of a cell printed with [str]
    is stated for text cells. *)
Definition iterrows (df : dataframe) : list series_row :=
  map (fun cells => zip (df_columns df) cells) (df_rows df).

(** [key in row] and [row[key]], for a row whose labels are distinct: under
    a label that occurs twice pandas gives no cell but a [Series], and the
    statements that a row is rendered without an error assume distinct
    labels. *)
Definition row_has (r : series_row) (key : label) : bool :=
  existsb (fun lv => bool_decide (lv.1 = key)) r.

Fixpoint row_get (r : series_row) (key : label) : option pyval :=
  match r with
  | [] => None
  | (l, v) :: rest => if decide (l = key) then Some v else row_get rest key
  end.

(** [label in df.columns] *)
Definition has_column (df : dataframe) (key : label) : bool :=
  bool_decide (key ∈ df_columns df).

Fixpoint index_of (key : label) (ls : list label) : option nat :=
  match ls with
  | [] => None
  | l :: rest => if decide (l = key) then Some O else S <$> index_of key rest
  end.

(** [df[key]]: the cells of one column, top to bottom. *)
Definition df_column (df : dataframe) (key : label) : list pyval :=
  match index_of key (df_columns df) with
  | Some i => map (fun cells => default PNone (cells !! i)) (df_rows df)
  | None => []
  end.

(** [df[key] = cells]: the column is overwritten when it exists and added
    as the last column when it does not. *)
Definition df_set_column (df : dataframe) (key : label) (cells : list pyval)
  : dataframe :=
  match index_of key (df_columns df) with
  | Some i =>
      {| df_columns := df_columns df;
         df_rows := zip_with (fun row v => <[i:=v]> row) (df_rows df) cells |}
  | None =>
      {| df_columns := df_columns df ++ [key];
         df_rows := zip_with (fun row v => row ++ [v]) (df_rows df) cells |}
  end.

(** [df[mask]]: the rows whose cell in the mask is true. *)
Definition df_filter_rows (df : dataframe) (mask : list bool) : dataframe :=
  {| df_columns := df_columns df;
     df_rows := map fst (List.filter snd (zip (df_rows df) mask)) |}.

(** *** Numeric columns *)

(** A numeric [Series] has one dtype: int64 or float64. *)
Inductive series :=
  | SInt64 (l : list Z)
  | SFloat64 (l : list float).

Definition wrap64 (z : Z) : Z := (z + 2 ^ 63) mod 2 ^ 64 - 2 ^ 63.
Definition in_int64 (z : Z) : bool := (- 2 ^ 63 <=? z) && (z <? 2 ^ 63).

Definition as_int64 (n : option number) : option Z :=
  match n with
  | Some (NInt z) => if in_int64 z then Some z else None
  | _ => None
  end.

Definition as_float64 (n : option number) : float :=
  match n with
  | Some (NInt z) => float_of_Z z
  | Some (NFloat f) => f
  | None => S754_nan
  end.

Definition series_floats (s : series) : list float :=
  match s with
  | SInt64 l => map float_of_Z l
  | SFloat64 l => l
  end.

(** [s.fillna(0)] *)
Definition fillna0 (s : series) : series :=
  match s with
  | SInt64 l => SInt64 l
  | SFloat64 l => SFloat64 (map (fun f => if is_nan f then S754_zero false else f) l)
  end.

(** [a * b], cell by cell: int64 times int64 wraps around, anything else is
    a float64 product. *)
Definition series_mul (a b : series) : series :=
  match a, b with
  | SInt64 x, SInt64 y => SInt64 (zip_with (fun p q => wrap64 (p * q)) x y)
  | _, _ => SFloat64 (zip_with float_mul (series_floats a) (series_floats b))
  end.

Definition series_cells (s : series) : list pyval :=
  match s with
  | SInt64 l => map PInt l
  | SFloat64 l => map PFloat l
  end.

Section Pandas.
Context `{R : runtime}.

(** What [pd.to_numeric] makes of one cell; [None] is NaN. *)
Definition cell_number (v : pyval) : option number :=
  match v with
  | PNone => None
  | PInt z => Some (NInt z)
  | PFloat f => if is_nan f then None else Some (NFloat f)
  | PStr s => to_numeric_str s
  | PDatetime d => to_numeric_datetime d
  end.

(** [pd.to_numeric(cells, errors="coerce")]: int64 when every cell is an
    integer of that range, float64 otherwise, with NaN for the cells that
    are no number.  Integers outside the int64 range, for which pandas has
    other columns (uint64, object), are left to the hypotheses of the
    statements. *)
Definition to_numeric_coerce (cells : list pyval) : series :=
  let ns := map cell_number cells in
  match mapM as_int64 ns with
  | Some zs => SInt64 zs
  | None => SFloat64 (map as_float64 ns)
  end.

(** [df[key].astype(str)]: [str] of every cell.  What becomes of a
    missing cell depends on the version of pandas (the text ["nan"], or
    a missing text); the statement of the rows selected for a customer
    assumes that no id is missing. *)
Definition column_as_str (df : dataframe) (key : label) : list pystr :=
  map str (df_column df key).
End Pandas.

(** ** Sheets *)

(** The dict [wanted] of [find_sheet_names], keys ["hoso"] and ["hanghoa"]. *)
Record wanted := {
  hoso : option pystr;
  hanghoa : option pystr;
}.

(** The workbook as [pd.ExcelFile] and [pd.read_excel] show it: the sheet
    names in workbook order, and the frame read for a [sheet_name] argument
    (with the ["Mã KH"] column read as text). *)
Record workbook := {
  sheet_names : list pystr;
  read_excel : option pystr -> dataframe;
}.

(** [not x] for [x] that is [None] or a string *)
Definition falsy (x : option pystr) : bool :=
  match x with
  | Some (_ :: _) => false
  | _ => true
  end.

Definition is_none {A} (x : option A) : bool :=
  match x with
  | None => true
  | Some _ => false
  end.

Section Sheets.
Context `{U : unicode_data} `{R : runtime}.

(** [repr(names)] for a list of strings *)
Definition repr_list (names : list pystr) : pystr :=
  py "[" ++ str_join (py ", ") (map repr_str names) ++ py "]".

(** One turn of the loop over the sheet names. *)
Definition scan_sheet (w : wanted) (s : pystr) : wanted :=
  let key := normalize_key s in
  let w1 :=
    if str_contains (py "hoso") key && is_none (hoso w)
    then {| hoso := Some s; hanghoa := hanghoa w |} else w in
  let w2 :=
    if (str_contains (py "hanghoa") key || str_contains (py "hanghoa") key
        || str_contains (py "hanghoá") key || str_contains (py "hanghoà") key)
       && is_none (hanghoa w1)
    then {| hoso := hoso w1; hanghoa := Some s |} else w1 in
  if str_contains (py "hang") key && str_contains (py "hoa") key
     && is_none (hanghoa w2)
  then {| hoso := hoso w2; hanghoa := Some s |} else w2.

Definition missing_sheets_message (names : list pystr) : pystr :=
  py "Không tìm thấy đủ 2 sheet trong file Excel: " ++ repr_list names.

Definition find_sheet_names (names : list pystr) : result wanted :=
  let w := fold_left scan_sheet names {| hoso := None; hanghoa := None |} in
  if falsy (hoso w) || falsy (hanghoa w)
  then Raise (Exn ValueError (missing_sheets_message names))
  else Ok w.

Definition strip_label (c : label) : label :=
  match c with
  | LStr s => LStr (str_strip s)
  | LNum z => LNum z
  end.

Definition strip_columns (df : dataframe) : dataframe :=
  {| df_columns := map strip_label (df_columns df); df_rows := df_rows df |}.

(** The pair is the dict with keys ["hoso"] and ["hanghoa"]. *)
Definition read_excel_data (wb : workbook) : result (dataframe * dataframe) :=
  sheets ← find_sheet_names (sheet_names wb);
  let df_hoso := read_excel wb (hoso sheets) in
  let df_hanghoa := read_excel wb (hanghoa sheets) in
  Ok (strip_columns df_hoso, strip_columns df_hanghoa).
End Sheets.

(** ** Paths *)

(** A [pathlib.Path] on a POSIX system: whether it starts at the root, and
    its components. *)
Record path := {
  path_absolute : bool;
  path_parts : list pystr;
}.

#[global] Instance path_eq_dec : EqDecision path.
Proof. solve_decision. Defined.

(** The pieces of a string between its slashes; [cur] is the piece being
    read, last character first. *)
Fixpoint split_slash (s cur : pystr) : list pystr :=
  match s with
  | [] => [rev cur]
  | c :: rest =>
      if c =? 47 then rev cur :: split_slash rest []
      else split_slash rest (c :: cur)
  end.

Definition is_dir_part (part : pystr) : bool :=
  negb (bool_decide (part = [])) && negb (bool_decide (part = [46])).

(** [Path(s)]: empty components and ["."] components are dropped. *)
Definition path_of_str (s : pystr) : path :=
  {| path_absolute := str_startswith [47] s;
     path_parts := List.filter is_dir_part (split_slash s []) |}.

(** [p / s] *)
Definition path_div (p : path) (s : pystr) : path :=
  let q := path_of_str s in
  if path_absolute q then q
  else {| path_absolute := path_absolute p;
          path_parts := path_parts p ++ path_parts q |}.

(** [str(p)] *)
Definition path_str (p : path) : pystr :=
  match path_absolute p, path_parts p with
  | false, [] => [46]
  | false, parts => str_join [47] parts
  | true, parts => 47 :: str_join [47] parts
  end.

(** [name.rfind(".")] *)
Fixpoint rfind_dot (s : pystr) (i : nat) : option nat :=
  match s with
  | [] => None
  | c :: rest =>
      match rfind_dot rest (S i) with
      | Some j => Some j
      | None => if c =? 46 then Some i else None
      end
  end.

(** [p.stem]: the last component without its last suffix. *)
Definition path_stem (p : path) : pystr :=
  let name := List.last (path_parts p) [] in
  match rfind_dot name O with
  | Some i =>
      if (0 <? i)%nat && (i <? length name - 1)%nat then take i name else name
  | None => name
  end.

(** The order of [sorted] on paths: component by component, strings by code
    point. *)
Fixpoint pystr_leb (a b : pystr) : bool :=
  match a, b with
  | [], _ => true
  | _ :: _, [] => false
  | x :: a', y :: b' => (x <? y) || ((x =? y) && pystr_leb a' b')
  end.

Fixpoint parts_leb (a b : list pystr) : bool :=
  match a, b with
  | [], _ => true
  | _ :: _, [] => false
  | x :: a', y :: b' =>
      if bool_decide (x = y) then parts_leb a' b' else pystr_leb x y
  end.

Definition path_tuple (p : path) : list pystr :=
  (if path_absolute p then [[47]] else []) ++ path_parts p.

Definition path_leb (p q : path) : bool :=
  parts_leb (path_tuple p) (path_tuple q).

Fixpoint insert_sorted (p : path) (l : list path) : list path :=
  match l with
  | [] => [p]
  | q :: rest => if path_leb q p then q :: insert_sorted p rest else p :: l
  end.

(** [sorted(paths)] *)
Definition sorted (l : list path) : list path :=
  fold_left (fun acc p => insert_sorted p acc) l [].

(** ** Documents *)

(** [DocxTemplate(file)]: the template document loaded from a file. *)
Record docx_template := { tpl_file : pystr }.

(** A table of a document: its style and the text of its cells, row by row. *)
Record table := {
  tbl_style : pystr;
  tbl_rows : list (list pystr);
}.

Inductive block :=
  | Paragraph (text : pystr)
  | Table (t : table).

(** A [Subdoc]: it belongs to the template it was created from and holds
    the blocks added to it. *)
Record subdoc := {
  sd_doc : docx_template;
  sd_blocks : list block;
}.

(** [doc.new_subdoc()], [sd.add_paragraph(text)] and a table added to [sd] *)
Definition new_subdoc (doc : docx_template) : subdoc :=
  {| sd_doc := doc; sd_blocks := [] |}.
Definition add_paragraph (sd : subdoc) (text : pystr) : subdoc :=
  {| sd_doc := sd_doc sd; sd_blocks := sd_blocks sd ++ [Paragraph text] |}.
Definition add_table (sd : subdoc) (t : table) : subdoc :=
  {| sd_doc := sd_doc sd; sd_blocks := sd_blocks sd ++ [Table t] |}.

(** A table of [rows] rows and [cols] columns of empty cells, and
    [table.add_row()]. *)
Definition new_table (rows cols : nat) : table :=
  {| tbl_style := []; tbl_rows := replicate rows (replicate cols []) |}.
Definition set_style (t : table) (style : pystr) : table :=
  {| tbl_style := style; tbl_rows := tbl_rows t |}.
Definition set_cell (t : table) (i j : nat) (text : pystr) : table :=
  {| tbl_style := tbl_style t;
     tbl_rows := alter (fun row => <[j:=text]> row) i (tbl_rows t) |}.
Definition add_row (t : table) (cells : list pystr) : table :=
  {| tbl_style := tbl_style t; tbl_rows := tbl_rows t ++ [cells] |}.

(** A value of the render context: a scalar or the table fragment. *)
Inductive ctxval :=
  | CVal (v : pyval)
  | CSubdoc (sd : subdoc).

(** The context dict, in the order its keys are written. *)
Definition context := list (pystr * ctxval).

(** ** The goods table *)

(** The dict [cols_map]. *)
Record cols_map := {
  ten : option pystr;
  soluong : option pystr;
  dongia : option pystr;
  thanhtien : option pystr;
}.

Definition headers : list pystr :=
  [py "Tên hàng"; py "Số lượng"; py "Đơn giá"; py "Thành tiền"].

(** [r[key] if key in r else ""], where [key] is a column name or [None];
    no label of a frame is [None]. *)
Definition row_field (r : series_row) (key : option pystr) : pyval :=
  match key with
  | Some k => if row_has r (LStr k) then default (PStr []) (row_get r (LStr k))
              else PStr []
  | None => PStr []
  end.

Section GoodsTable.
Context `{U : unicode_data} `{R : runtime}.

(** The dict [available] of [pick_col]: normalized name to column name,
    a later column replacing an earlier one of the same key. *)
Definition available_columns (columns : list label) : gmap pystr pystr :=
  fold_left
    (fun m c =>
       match c with
       | LStr s => <[normalize_key s := s]> m
       | LNum _ => m
       end)
    columns ∅.

Fixpoint first_available (available : gmap pystr pystr)
    (candidates : list pystr) : option pystr :=
  match candidates with
  | [] => None
  | cand :: rest =>
      match available !! normalize_key cand with
      | Some c => Some c
      | None => first_available available rest
      end
  end.

Definition pick_col (df : dataframe) (candidates : list pystr) : option pystr :=
  first_available (available_columns (df_columns df)) candidates.

Definition pick_columns (items_df : dataframe) : cols_map :=
  {| ten := pick_col items_df
       [py "Tên hàng"; py "Ten hang"; py "Ten hàng"; py "Tên Hàng";
        py "TênHH"; py "TenHH"];
     soluong := pick_col items_df
       [py "Số lượng"; py "So luong"; py "Số Lượng"; py "SL"; py "SoLuong"];
     dongia := pick_col items_df
       [py "Đơn giá"; py "Don gia"; py "Đơn Giá"; py "DonGia"];
     thanhtien := pick_col items_df
       [py "Thành tiền"; py "Thanh tien"; py "Thành Tiền"; py "ThanhTien"] |}.

(** [pd.to_numeric(df[key], errors="coerce").fillna(0)] *)
Definition numeric_column (df : dataframe) (key : pystr) : series :=
  fillna0 (to_numeric_coerce (df_column df (LStr key))).

(** The block under "Tính 'Thành tiền' nếu thiếu": when no total column
    was found and both the quantity and the price column were, three
    columns are added to the copy of the frame and the total is read from
    the last one.  Nothing in the block raises here, so its [try] has no
    other branch. *)
Definition derive_total (working : dataframe) (cm : cols_map)
  : dataframe * cols_map :=
  if is_none (thanhtien cm) && negb (falsy (soluong cm)) && negb (falsy (dongia cm))
  then
    let sl := numeric_column working (default [] (soluong cm)) in
    let w1 := df_set_column working (LStr (py "_SoluongNum")) (series_cells sl) in
    let dg := numeric_column w1 (default [] (dongia cm)) in
    let w2 := df_set_column w1 (LStr (py "_DongiaNum")) (series_cells dg) in
    let w3 := df_set_column w2 (LStr (py "_ThanhTien"))
                (series_cells (series_mul sl dg)) in
    (w3, {| ten := ten cm; soluong := soluong cm; dongia := dongia cm;
            thanhtien := Some (py "_ThanhTien") |})
  else (working, cm).

(** The cells of the table row of one goods line. *)
Definition goods_row (cm : cols_map) (r : series_row) : result (list pystr) :=
  let ten_val := row_field r (ten cm) in
  let sl_val := row_field r (soluong cm) in
  let dg_val := row_field r (dongia cm) in
  let tt_val := row_field r (thanhtien cm) in
  sl ← format_int sl_val;
  dg ← format_currency dg_val;
  tt ← format_currency tt_val;
  Ok (<[3%nat:=tt]> (<[2%nat:=dg]> (<[1%nat:=sl]>
       (<[0%nat:=(if isna ten_val then [] else str ten_val)]>
          (replicate (length headers) []))))).

(** The table with its header row. *)
Definition header_table : table :=
  fold_left (fun t ih => set_cell t 0 ih.1 ih.2)
    (imap (fun i h => (i, h)) headers)
    (set_style (new_table 1 (length headers)) (py "Table Grid")).

Definition build_goods_table_subdoc (doc : docx_template)
    (items_df : option dataframe) : result subdoc :=
  let sd := new_subdoc doc in
  match items_df with
  | None => Ok (add_paragraph sd (py "Không có hàng hoá."))
  | Some items =>
      if df_empty items then Ok (add_paragraph sd (py "Không có hàng hoá."))
      else
        let cm := pick_columns items in
        let '(working, cm) := derive_total items cm in
        rows ← mapM (goods_row cm) (iterrows working);
        Ok (add_table sd (fold_left add_row rows header_table))
  end.
End GoodsTable.

(** ** Rendering *)

(** What a run leaves behind: folders made, documents saved (the rendered
    template with the context it was rendered with), lines printed. *)
Inductive effect :=
  | Mkdir (dir : path)
  | Save (file : path) (doc : docx_template) (ctx : context)
  | Print (line : pystr).

(** A command takes the effects so far (oldest first), adds its own, and
    returns a value or raises. *)
Definition io (A : Type) : Type := list effect -> list effect * result A.

Definition io_ret {A} (a : A) : io A := fun w => (w, Ok a).
Definition io_raise {A} (e : exn) : io A := fun w => (w, Raise e).
Definition io_lift {A} (r : result A) : io A := fun w => (w, r).
Definition io_emit (e : effect) : io unit := fun w => (w ++ [e], Ok tt).
Definition io_bind {A B} (m : io A) (k : A -> io B) : io B := fun w =>
  match m w with
  | (w', Ok a) => k a w'
  | (w', Raise e) => (w', Raise e)
  end.

#[global] Instance io_mret : MRet io := @io_ret.
#[global] Instance io_mbind : MBind io := fun A B k m => io_bind m k.

(** [for x in l: body] *)
Fixpoint io_for {A} (l : list A) (body : A -> io unit) : io unit :=
  match l with
  | [] => io_ret tt
  | x :: rest => body x ;; io_for rest body
  end.

Definition saved_files (w : list effect) : list path :=
  w ≫= (fun e => match e with Save file _ _ => [file] | _ => [] end).

Section Render.
Context `{U : unicode_data} `{R : runtime}.

(** The lambda [val] of [build_context_for_customer]. *)
Definition val (customer_row : series_row) (col : pystr) : pyval :=
  if negb (row_has customer_row (LStr col))
     || isna (default PNone (row_get customer_row (LStr col)))
  then PStr []
  else default PNone (row_get customer_row (LStr col)).

Definition build_context_for_customer (doc : docx_template)
    (customer_row : series_row) (items_df : option dataframe) : result context :=
  let ho_ten := val customer_row (py "Họ tên") in
  ngay_sinh ← format_date (val customer_row (py "Ngày sinh")) (py "%d/%m/%Y");
  let dia_chi := val customer_row (py "Địa chỉ") in
  let so_dt := val customer_row (py "Số điện thoại") in
  let ma_kh := val customer_row (py "Mã KH") in
  bang ← build_goods_table_subdoc doc items_df;
  Ok [ (py "TênKH", CVal ho_ten);
       (py "NgàySinh", CVal (PStr ngay_sinh));
       (py "ĐịaChỉ", CVal dia_chi);
       (py "SốĐiệnThoại", CVal so_dt);
       (py "MãKH", CVal ma_kh);
       (py "BảngHàngHoá", CSubdoc bang) ].

(** [row.get(key, "")] *)
Definition row_get_default (r : series_row) (key : pystr) : pyval :=
  default (PStr []) (row_get r (LStr key)).

Definition folder_name (customer_id customer_name : pyval) : pystr :=
  strip_by (Z.eqb 95)
    (safe_filename (str customer_id) ++ py "_" ++ safe_filename (str customer_name)).

Definition out_name (tpl_path : path) (customer_id : pyval) : pystr :=
  path_stem tpl_path ++ py "__" ++ safe_filename (str customer_id) ++ py ".docx".

(** The goods lines of one customer: "Lọc hàng hoá theo Mã KH". *)
Definition filter_items (items_all : option dataframe) (customer_id : pyval)
  : dataframe :=
  match items_all with
  | Some all =>
      if has_column all (LStr (py "Mã KH")) then
        df_filter_rows all
          (map (fun s => bool_decide (s = str customer_id))
               (column_as_str all (LStr (py "Mã KH"))))
      else empty_frame
  | None => empty_frame
  end.

Definition render_templates_for_customer (templates : list path)
    (output_root : path) (customer_row : series_row)
    (items_all : option dataframe) : io unit :=
  let customer_id := row_get_default customer_row (py "Mã KH") in
  let customer_name := row_get_default customer_row (py "Họ tên") in
  let customer_out_dir :=
    path_div output_root (folder_name customer_id customer_name) in
  io_emit (Mkdir customer_out_dir) ;;
  let items_df := filter_items items_all customer_id in
  io_for templates (fun tpl_path =>
    let doc := {| tpl_file := path_str tpl_path |} in
    ctx ← io_lift (build_context_for_customer doc customer_row (Some items_df));
    let out_path := path_div customer_out_dir (out_name tpl_path customer_id) in
    io_emit (Save out_path doc ctx) ;;
    io_emit (Print (py "Đã tạo: " ++ path_str out_path))).

(** ** The driver *)

Definition EXCEL_PATH : pystr := py "/absolute/path/to/input.xlsx".
Definition TEMPLATE_DIR : pystr := py "/absolute/path/to/templates".
Definition OUTPUT_DIR : pystr := py "/absolute/path/to/output".

(** What [main] finds on disk. *)
Record environment := {
  (** [xlsx_path.exists()] and [template_dir.exists()] *)
  excel_exists : bool;
  template_dir_exists : bool;
  (** the files matching ["*.docx"] in the template folder, in the order
      [glob] yields them *)
  template_files : list path;
  (** the workbook at [EXCEL_PATH] *)
  excel : workbook;
}.

Definition required_cols : list pystr := [py "Mã KH"; py "Họ tên"].

Definition check_required (df_hoso : dataframe) : io unit :=
  io_for required_cols (fun col =>
    if negb (has_column df_hoso (LStr col))
    then io_raise (Exn ValueError (py "Sheet 'Hồ sơ' thiếu cột bắt buộc: " ++ col))
    else io_ret tt).

Definition main (env : environment) : io unit :=
  let template_dir := path_of_str TEMPLATE_DIR in
  let output_dir := path_of_str OUTPUT_DIR in
  let xlsx_path := path_of_str EXCEL_PATH in
  (if negb (excel_exists env)
   then io_raise (Exn FileNotFoundError
                    (py "Không thấy file Excel: " ++ path_str xlsx_path))
   else io_ret tt) ;;
  (if negb (template_dir_exists env)
   then io_raise (Exn FileNotFoundError
                    (py "Không thấy thư mục template: " ++ path_str template_dir))
   else io_ret tt) ;;
  io_emit (Mkdir output_dir) ;;
  let templates := sorted (template_files env) in
  (if (length templates =? 0)%nat
   then io_raise (Exn FileNotFoundError
                    (py "Không tìm thấy template .docx trong "
                     ++ path_str template_dir))
   else io_ret tt) ;;
  io_emit (Print (py "Tìm thấy " ++ str_int (Z.of_nat (length templates))
                  ++ py " template(s).")) ;;
  data ← io_lift (read_excel_data (excel env));
  let df_hoso := data.1 in
  let df_hanghoa := data.2 in
  check_required df_hoso ;;
  io_for (iterrows df_hoso) (fun row =>
    render_templates_for_customer templates output_dir row (Some df_hanghoa)) ;;
  io_emit (Print (py "Hoàn thành tất cả.")).
End Render.

(** ** A character database

    The rows of the Unicode Character Database, version 14.0.0, for the
    blocks that Vietnamese and Greek text is written in: Basic Latin to
    Latin Extended-B (U+0000 to U+024F), Combining Diacritical Marks and
    Greek and Coptic (U+0300 to U+03FF), Latin Extended Additional (U+1E00
    to U+1EFF).  In [ucd14] a code point outside these blocks is unassigned:
    it has no decomposition, class 0, no case mapping, and is neither a
    letter, a digit nor white space. *)

(** Canonical decompositions, fully expanded. *)
Definition ucd_decomposition_rows : list (Z * list Z) := [
  (192, [65; 768]); (193, [65; 769]); (194, [65; 770]); (195, [65; 771]);
  (196, [65; 776]); (197, [65; 778]); (199, [67; 807]); (200, [69; 768]);
  (201, [69; 769]); (202, [69; 770]); (203, [69; 776]); (204, [73; 768]);
  (205, [73; 769]); (206, [73; 770]); (207, [73; 776]); (209, [78; 771]);
  (210, [79; 768]); (211, [79; 769]); (212, [79; 770]); (213, [79; 771]);
  (214, [79; 776]); (217, [85; 768]); (218, [85; 769]); (219, [85; 770]);
  (220, [85; 776]); (221, [89; 769]); (224, [97; 768]); (225, [97; 769]);
  (226, [97; 770]); (227, [97; 771]); (228, [97; 776]); (229, [97; 778]);
  (231, [99; 807]); (232, [101; 768]); (233, [101; 769]); (234, [101; 770]);
  (235, [101; 776]); (236, [105; 768]); (237, [105; 769]); (238, [105; 770]);
  (239, [105; 776]); (241, [110; 771]); (242, [111; 768]); (243, [111; 769]);
  (244, [111; 770]); (245, [111; 771]); (246, [111; 776]); (249, [117; 768]);
  (250, [117; 769]); (251, [117; 770]); (252, [117; 776]); (253, [121; 769]);
  (255, [121; 776]); (256, [65; 772]); (257, [97; 772]); (258, [65; 774]);
  (259, [97; 774]); (260, [65; 808]); (261, [97; 808]); (262, [67; 769]);
  (263, [99; 769]); (264, [67; 770]); (265, [99; 770]); (266, [67; 775]);
  (267, [99; 775]); (268, [67; 780]); (269, [99; 780]); (270, [68; 780]);
  (271, [100; 780]); (274, [69; 772]); (275, [101; 772]); (276, [69; 774]);
  (277, [101; 774]); (278, [69; 775]); (279, [101; 775]); (280, [69; 808]);
  (281, [101; 808]); (282, [69; 780]); (283, [101; 780]); (284, [71; 770]);
  (285, [103; 770]); (286, [71; 774]); (287, [103; 774]); (288, [71; 775]);
  (289, [103; 775]); (290, [71; 807]); (291, [103; 807]); (292, [72; 770]);
  (293, [104; 770]); (296, [73; 771]); (297, [105; 771]); (298, [73; 772]);
  (299, [105; 772]); (300, [73; 774]); (301, [105; 774]); (302, [73; 808]);
  (303, [105; 808]); (304, [73; 775]); (308, [74; 770]); (309, [106; 770]);
  (310, [75; 807]); (311, [107; 807]); (313, [76; 769]); (314, [108; 769]);
  (315, [76; 807]); (316, [108; 807]); (317, [76; 780]); (318, [108; 780]);
  (323, [78; 769]); (324, [110; 769]); (325, [78; 807]); (326, [110; 807]);
  (327, [78; 780]); (328, [110; 780]); (332, [79; 772]); (333, [111; 772]);
  (334, [79; 774]); (335, [111; 774]); (336, [79; 779]); (337, [111; 779]);
  (340, [82; 769]); (341, [114; 769]); (342, [82; 807]); (343, [114; 807]);
  (344, [82; 780]); (345, [114; 780]); (346, [83; 769]); (347, [115; 769]);
  (348, [83; 770]); (349, [115; 770]); (350, [83; 807]); (351, [115; 807]);
  (352, [83; 780]); (353, [115; 780]); (354, [84; 807]); (355, [116; 807]);
  (356, [84; 780]); (357, [116; 780]); (360, [85; 771]); (361, [117; 771]);
  (362, [85; 772]); (363, [117; 772]); (364, [85; 774]); (365, [117; 774]);
  (366, [85; 778]); (367, [117; 778]); (368, [85; 779]); (369, [117; 779]);
  (370, [85; 808]); (371, [117; 808]); (372, [87; 770]); (373, [119; 770]);
  (374, [89; 770]); (375, [121; 770]); (376, [89; 776]); (377, [90; 769]);
  (378, [122; 769]); (379, [90; 775]); (380, [122; 775]); (381, [90; 780]);
  (382, [122; 780]); (416, [79; 795]); (417, [111; 795]); (431, [85; 795]);
  (432, [117; 795]); (461, [65; 780]); (462, [97; 780]); (463, [73; 780]);
  (464, [105; 780]); (465, [79; 780]); (466, [111; 780]); (467, [85; 780]);
  (468, [117; 780]); (469, [85; 776; 772]); (470, [117; 776; 772]); (471, [85; 776; 769]);
  (472, [117; 776; 769]); (473, [85; 776; 780]); (474, [117; 776; 780]); (475, [85; 776; 768]);
  (476, [117; 776; 768]); (478, [65; 776; 772]); (479, [97; 776; 772]); (480, [65; 775; 772]);
  (481, [97; 775; 772]); (482, [198; 772]); (483, [230; 772]); (486, [71; 780]);
  (487, [103; 780]); (488, [75; 780]); (489, [107; 780]); (490, [79; 808]);
  (491, [111; 808]); (492, [79; 808; 772]); (493, [111; 808; 772]); (494, [439; 780]);
  (495, [658; 780]); (496, [106; 780]); (500, [71; 769]); (501, [103; 769]);
  (504, [78; 768]); (505, [110; 768]); (506, [65; 778; 769]); (507, [97; 778; 769]);
  (508, [198; 769]); (509, [230; 769]); (510, [216; 769]); (511, [248; 769]);
  (512, [65; 783]); (513, [97; 783]); (514, [65; 785]); (515, [97; 785]);
  (516, [69; 783]); (517, [101; 783]); (518, [69; 785]); (519, [101; 785]);
  (520, [73; 783]); (521, [105; 783]); (522, [73; 785]); (523, [105; 785]);
  (524, [79; 783]); (525, [111; 783]); (526, [79; 785]); (527, [111; 785]);
  (528, [82; 783]); (529, [114; 783]); (530, [82; 785]); (531, [114; 785]);
  (532, [85; 783]); (533, [117; 783]); (534, [85; 785]); (535, [117; 785]);
  (536, [83; 806]); (537, [115; 806]); (538, [84; 806]); (539, [116; 806]);
  (542, [72; 780]); (543, [104; 780]); (550, [65; 775]); (551, [97; 775]);
  (552, [69; 807]); (553, [101; 807]); (554, [79; 776; 772]); (555, [111; 776; 772]);
  (556, [79; 771; 772]); (557, [111; 771; 772]); (558, [79; 775]); (559, [111; 775]);
  (560, [79; 775; 772]); (561, [111; 775; 772]); (562, [89; 772]); (563, [121; 772]);
  (832, [768]); (833, [769]); (835, [787]); (836, [776; 769]);
  (884, [697]); (894, [59]); (901, [168; 769]); (902, [913; 769]);
  (903, [183]); (904, [917; 769]); (905, [919; 769]); (906, [921; 769]);
  (908, [927; 769]); (910, [933; 769]); (911, [937; 769]); (912, [953; 776; 769]);
  (938, [921; 776]); (939, [933; 776]); (940, [945; 769]); (941, [949; 769]);
  (942, [951; 769]); (943, [953; 769]); (944, [965; 776; 769]); (970, [953; 776]);
  (971, [965; 776]); (972, [959; 769]); (973, [965; 769]); (974, [969; 769]);
  (979, [978; 769]); (980, [978; 776]); (7680, [65; 805]); (7681, [97; 805]);
  (7682, [66; 775]); (7683, [98; 775]); (7684, [66; 803]); (7685, [98; 803]);
  (7686, [66; 817]); (7687, [98; 817]); (7688, [67; 807; 769]); (7689, [99; 807; 769]);
  (7690, [68; 775]); (7691, [100; 775]); (7692, [68; 803]); (7693, [100; 803]);
  (7694, [68; 817]); (7695, [100; 817]); (7696, [68; 807]); (7697, [100; 807]);
  (7698, [68; 813]); (7699, [100; 813]); (7700, [69; 772; 768]); (7701, [101; 772; 768]);
  (7702, [69; 772; 769]); (7703, [101; 772; 769]); (7704, [69; 813]); (7705, [101; 813]);
  (7706, [69; 816]); (7707, [101; 816]); (7708, [69; 807; 774]); (7709, [101; 807; 774]);
  (7710, [70; 775]); (7711, [102; 775]); (7712, [71; 772]); (7713, [103; 772]);
  (7714, [72; 775]); (7715, [104; 775]); (7716, [72; 803]); (7717, [104; 803]);
  (7718, [72; 776]); (7719, [104; 776]); (7720, [72; 807]); (7721, [104; 807]);
  (7722, [72; 814]); (7723, [104; 814]); (7724, [73; 816]); (7725, [105; 816]);
  (7726, [73; 776; 769]); (7727, [105; 776; 769]); (7728, [75; 769]); (7729, [107; 769]);
  (7730, [75; 803]); (7731, [107; 803]); (7732, [75; 817]); (7733, [107; 817]);
  (7734, [76; 803]); (7735, [108; 803]); (7736, [76; 803; 772]); (7737, [108; 803; 772]);
  (7738, [76; 817]); (7739, [108; 817]); (7740, [76; 813]); (7741, [108; 813]);
  (7742, [77; 769]); (7743, [109; 769]); (7744, [77; 775]); (7745, [109; 775]);
  (7746, [77; 803]); (7747, [109; 803]); (7748, [78; 775]); (7749, [110; 775]);
  (7750, [78; 803]); (7751, [110; 803]); (7752, [78; 817]); (7753, [110; 817]);
  (7754, [78; 813]); (7755, [110; 813]); (7756, [79; 771; 769]); (7757, [111; 771; 769]);
  (7758, [79; 771; 776]); (7759, [111; 771; 776]); (7760, [79; 772; 768]); (7761, [111; 772; 768]);
  (7762, [79; 772; 769]); (7763, [111; 772; 769]); (7764, [80; 769]); (7765, [112; 769]);
  (7766, [80; 775]); (7767, [112; 775]); (7768, [82; 775]); (7769, [114; 775]);
  (7770, [82; 803]); (7771, [114; 803]); (7772, [82; 803; 772]); (7773, [114; 803; 772]);
  (7774, [82; 817]); (7775, [114; 817]); (7776, [83; 775]); (7777, [115; 775]);
  (7778, [83; 803]); (7779, [115; 803]); (7780, [83; 769; 775]); (7781, [115; 769; 775]);
  (7782, [83; 780; 775]); (7783, [115; 780; 775]); (7784, [83; 803; 775]); (7785, [115; 803; 775]);
  (7786, [84; 775]); (7787, [116; 775]); (7788, [84; 803]); (7789, [116; 803]);
  (7790, [84; 817]); (7791, [116; 817]); (7792, [84; 813]); (7793, [116; 813]);
  (7794, [85; 804]); (7795, [117; 804]); (7796, [85; 816]); (7797, [117; 816]);
  (7798, [85; 813]); (7799, [117; 813]); (7800, [85; 771; 769]); (7801, [117; 771; 769]);
  (7802, [85; 772; 776]); (7803, [117; 772; 776]); (7804, [86; 771]); (7805, [118; 771]);
  (7806, [86; 803]); (7807, [118; 803]); (7808, [87; 768]); (7809, [119; 768]);
  (7810, [87; 769]); (7811, [119; 769]); (7812, [87; 776]); (7813, [119; 776]);
  (7814, [87; 775]); (7815, [119; 775]); (7816, [87; 803]); (7817, [119; 803]);
  (7818, [88; 775]); (7819, [120; 775]); (7820, [88; 776]); (7821, [120; 776]);
  (7822, [89; 775]); (7823, [121; 775]); (7824, [90; 770]); (7825, [122; 770]);
  (7826, [90; 803]); (7827, [122; 803]); (7828, [90; 817]); (7829, [122; 817]);
  (7830, [104; 817]); (7831, [116; 776]); (7832, [119; 778]); (7833, [121; 778]);
  (7835, [383; 775]); (7840, [65; 803]); (7841, [97; 803]); (7842, [65; 777]);
  (7843, [97; 777]); (7844, [65; 770; 769]); (7845, [97; 770; 769]); (7846, [65; 770; 768]);
  (7847, [97; 770; 768]); (7848, [65; 770; 777]); (7849, [97; 770; 777]); (7850, [65; 770; 771]);
  (7851, [97; 770; 771]); (7852, [65; 803; 770]); (7853, [97; 803; 770]); (7854, [65; 774; 769]);
  (7855, [97; 774; 769]); (7856, [65; 774; 768]); (7857, [97; 774; 768]); (7858, [65; 774; 777]);
  (7859, [97; 774; 777]); (7860, [65; 774; 771]); (7861, [97; 774; 771]); (7862, [65; 803; 774]);
  (7863, [97; 803; 774]); (7864, [69; 803]); (7865, [101; 803]); (7866, [69; 777]);
  (7867, [101; 777]); (7868, [69; 771]); (7869, [101; 771]); (7870, [69; 770; 769]);
  (7871, [101; 770; 769]); (7872, [69; 770; 768]); (7873, [101; 770; 768]); (7874, [69; 770; 777]);
  (7875, [101; 770; 777]); (7876, [69; 770; 771]); (7877, [101; 770; 771]); (7878, [69; 803; 770]);
  (7879, [101; 803; 770]); (7880, [73; 777]); (7881, [105; 777]); (7882, [73; 803]);
  (7883, [105; 803]); (7884, [79; 803]); (7885, [111; 803]); (7886, [79; 777]);
  (7887, [111; 777]); (7888, [79; 770; 769]); (7889, [111; 770; 769]); (7890, [79; 770; 768]);
  (7891, [111; 770; 768]); (7892, [79; 770; 777]); (7893, [111; 770; 777]); (7894, [79; 770; 771]);
  (7895, [111; 770; 771]); (7896, [79; 803; 770]); (7897, [111; 803; 770]); (7898, [79; 795; 769]);
  (7899, [111; 795; 769]); (7900, [79; 795; 768]); (7901, [111; 795; 768]); (7902, [79; 795; 777]);
  (7903, [111; 795; 777]); (7904, [79; 795; 771]); (7905, [111; 795; 771]); (7906, [79; 795; 803]);
  (7907, [111; 795; 803]); (7908, [85; 803]); (7909, [117; 803]); (7910, [85; 777]);
  (7911, [117; 777]); (7912, [85; 795; 769]); (7913, [117; 795; 769]); (7914, [85; 795; 768]);
  (7915, [117; 795; 768]); (7916, [85; 795; 777]); (7917, [117; 795; 777]); (7918, [85; 795; 771]);
  (7919, [117; 795; 771]); (7920, [85; 795; 803]); (7921, [117; 795; 803]); (7922, [89; 768]);
  (7923, [121; 768]); (7924, [89; 803]); (7925, [121; 803]); (7926, [89; 777]);
  (7927, [121; 777]); (7928, [89; 771]); (7929, [121; 771])
].

Definition ucd_combining_rows : list (Z * Z * Z) := [
  (768, 788, 230); (789, 789, 232); (790, 793, 220); (794, 794, 232); (795, 795, 216);
  (796, 800, 220); (801, 802, 202); (803, 806, 220); (807, 808, 202); (809, 819, 220);
  (820, 824, 1); (825, 828, 220); (829, 836, 230); (837, 837, 240); (838, 838, 230);
  (839, 841, 220); (842, 844, 230); (845, 846, 220); (848, 850, 230); (851, 854, 220);
  (855, 855, 230); (856, 856, 232); (857, 858, 220); (859, 859, 230); (860, 860, 233);
  (861, 862, 234); (863, 863, 233); (864, 865, 234); (866, 866, 233); (867, 879, 230)
].

Definition ucd_lowercase_rows : list (Z * list Z) := [
  (65, [97]); (66, [98]); (67, [99]); (68, [100]); (69, [101]); (70, [102]);
  (71, [103]); (72, [104]); (73, [105]); (74, [106]); (75, [107]); (76, [108]);
  (77, [109]); (78, [110]); (79, [111]); (80, [112]); (81, [113]); (82, [114]);
  (83, [115]); (84, [116]); (85, [117]); (86, [118]); (87, [119]); (88, [120]);
  (89, [121]); (90, [122]); (192, [224]); (193, [225]); (194, [226]); (195, [227]);
  (196, [228]); (197, [229]); (198, [230]); (199, [231]); (200, [232]); (201, [233]);
  (202, [234]); (203, [235]); (204, [236]); (205, [237]); (206, [238]); (207, [239]);
  (208, [240]); (209, [241]); (210, [242]); (211, [243]); (212, [244]); (213, [245]);
  (214, [246]); (216, [248]); (217, [249]); (218, [250]); (219, [251]); (220, [252]);
  (221, [253]); (222, [254]); (256, [257]); (258, [259]); (260, [261]); (262, [263]);
  (264, [265]); (266, [267]); (268, [269]); (270, [271]); (272, [273]); (274, [275]);
  (276, [277]); (278, [279]); (280, [281]); (282, [283]); (284, [285]); (286, [287]);
  (288, [289]); (290, [291]); (292, [293]); (294, [295]); (296, [297]); (298, [299]);
  (300, [301]); (302, [303]); (304, [105; 775]); (306, [307]); (308, [309]); (310, [311]);
  (313, [314]); (315, [316]); (317, [318]); (319, [320]); (321, [322]); (323, [324]);
  (325, [326]); (327, [328]); (330, [331]); (332, [333]); (334, [335]); (336, [337]);
  (338, [339]); (340, [341]); (342, [343]); (344, [345]); (346, [347]); (348, [349]);
  (350, [351]); (352, [353]); (354, [355]); (356, [357]); (358, [359]); (360, [361]);
  (362, [363]); (364, [365]); (366, [367]); (368, [369]); (370, [371]); (372, [373]);
  (374, [375]); (376, [255]); (377, [378]); (379, [380]); (381, [382]); (385, [595]);
  (386, [387]); (388, [389]); (390, [596]); (391, [392]); (393, [598]); (394, [599]);
  (395, [396]); (398, [477]); (399, [601]); (400, [603]); (401, [402]); (403, [608]);
  (404, [611]); (406, [617]); (407, [616]); (408, [409]); (412, [623]); (413, [626]);
  (415, [629]); (416, [417]); (418, [419]); (420, [421]); (422, [640]); (423, [424]);
  (425, [643]); (428, [429]); (430, [648]); (431, [432]); (433, [650]); (434, [651]);
  (435, [436]); (437, [438]); (439, [658]); (440, [441]); (444, [445]); (452, [454]);
  (453, [454]); (455, [457]); (456, [457]); (458, [460]); (459, [460]); (461, [462]);
  (463, [464]); (465, [466]); (467, [468]); (469, [470]); (471, [472]); (473, [474]);
  (475, [476]); (478, [479]); (480, [481]); (482, [483]); (484, [485]); (486, [487]);
  (488, [489]); (490, [491]); (492, [493]); (494, [495]); (497, [499]); (498, [499]);
  (500, [501]); (502, [405]); (503, [447]); (504, [505]); (506, [507]); (508, [509]);
  (510, [511]); (512, [513]); (514, [515]); (516, [517]); (518, [519]); (520, [521]);
  (522, [523]); (524, [525]); (526, [527]); (528, [529]); (530, [531]); (532, [533]);
  (534, [535]); (536, [537]); (538, [539]); (540, [541]); (542, [543]); (544, [414]);
  (546, [547]); (548, [549]); (550, [551]); (552, [553]); (554, [555]); (556, [557]);
  (558, [559]); (560, [561]); (562, [563]); (570, [11365]); (571, [572]); (573, [410]);
  (574, [11366]); (577, [578]); (579, [384]); (580, [649]); (581, [652]); (582, [583]);
  (584, [585]); (586, [587]); (588, [589]); (590, [591]); (880, [881]); (882, [883]);
  (886, [887]); (895, [1011]); (902, [940]); (904, [941]); (905, [942]); (906, [943]);
  (908, [972]); (910, [973]); (911, [974]); (913, [945]); (914, [946]); (915, [947]);
  (916, [948]); (917, [949]); (918, [950]); (919, [951]); (920, [952]); (921, [953]);
  (922, [954]); (923, [955]); (924, [956]); (925, [957]); (926, [958]); (927, [959]);
  (928, [960]); (929, [961]); (931, [963]); (932, [964]); (933, [965]); (934, [966]);
  (935, [967]); (936, [968]); (937, [969]); (938, [970]); (939, [971]); (975, [983]);
  (984, [985]); (986, [987]); (988, [989]); (990, [991]); (992, [993]); (994, [995]);
  (996, [997]); (998, [999]); (1000, [1001]); (1002, [1003]); (1004, [1005]); (1006, [1007]);
  (1012, [952]); (1015, [1016]); (1017, [1010]); (1018, [1019]); (1021, [891]); (1022, [892]);
  (1023, [893]); (7680, [7681]); (7682, [7683]); (7684, [7685]); (7686, [7687]); (7688, [7689]);
  (7690, [7691]); (7692, [7693]); (7694, [7695]); (7696, [7697]); (7698, [7699]); (7700, [7701]);
  (7702, [7703]); (7704, [7705]); (7706, [7707]); (7708, [7709]); (7710, [7711]); (7712, [7713]);
  (7714, [7715]); (7716, [7717]); (7718, [7719]); (7720, [7721]); (7722, [7723]); (7724, [7725]);
  (7726, [7727]); (7728, [7729]); (7730, [7731]); (7732, [7733]); (7734, [7735]); (7736, [7737]);
  (7738, [7739]); (7740, [7741]); (7742, [7743]); (7744, [7745]); (7746, [7747]); (7748, [7749]);
  (7750, [7751]); (7752, [7753]); (7754, [7755]); (7756, [7757]); (7758, [7759]); (7760, [7761]);
  (7762, [7763]); (7764, [7765]); (7766, [7767]); (7768, [7769]); (7770, [7771]); (7772, [7773]);
  (7774, [7775]); (7776, [7777]); (7778, [7779]); (7780, [7781]); (7782, [7783]); (7784, [7785]);
  (7786, [7787]); (7788, [7789]); (7790, [7791]); (7792, [7793]); (7794, [7795]); (7796, [7797]);
  (7798, [7799]); (7800, [7801]); (7802, [7803]); (7804, [7805]); (7806, [7807]); (7808, [7809]);
  (7810, [7811]); (7812, [7813]); (7814, [7815]); (7816, [7817]); (7818, [7819]); (7820, [7821]);
  (7822, [7823]); (7824, [7825]); (7826, [7827]); (7828, [7829]); (7838, [223]); (7840, [7841]);
  (7842, [7843]); (7844, [7845]); (7846, [7847]); (7848, [7849]); (7850, [7851]); (7852, [7853]);
  (7854, [7855]); (7856, [7857]); (7858, [7859]); (7860, [7861]); (7862, [7863]); (7864, [7865]);
  (7866, [7867]); (7868, [7869]); (7870, [7871]); (7872, [7873]); (7874, [7875]); (7876, [7877]);
  (7878, [7879]); (7880, [7881]); (7882, [7883]); (7884, [7885]); (7886, [7887]); (7888, [7889]);
  (7890, [7891]); (7892, [7893]); (7894, [7895]); (7896, [7897]); (7898, [7899]); (7900, [7901]);
  (7902, [7903]); (7904, [7905]); (7906, [7907]); (7908, [7909]); (7910, [7911]); (7912, [7913]);
  (7914, [7915]); (7916, [7917]); (7918, [7919]); (7920, [7921]); (7922, [7923]); (7924, [7925]);
  (7926, [7927]); (7928, [7929]); (7930, [7931]); (7932, [7933]); (7934, [7935])
].

Definition ucd_cased_rows : list (Z * Z) := [
  (65, 90); (97, 122); (170, 170); (181, 181); (186, 186); (192, 214); (216, 246);
  (248, 442); (444, 447); (452, 591); (837, 837); (880, 883); (886, 887); (890, 893);
  (895, 895); (902, 902); (904, 906); (908, 908); (910, 929); (931, 1013); (1015, 1023);
  (7680, 7935)
].

Definition ucd_case_ignorable_rows : list (Z * Z) := [
  (39, 39); (46, 46); (58, 58); (94, 94); (96, 96); (168, 168); (173, 173);
  (175, 175); (180, 180); (183, 184); (768, 879); (884, 885); (890, 890); (900, 901);
  (903, 903)
].

Definition ucd_alnum_rows : list (Z * Z) := [
  (48, 57); (65, 90); (97, 122); (170, 170); (178, 179); (181, 181); (185, 186);
  (188, 190); (192, 214); (216, 246); (248, 591); (880, 884); (886, 887); (890, 893);
  (895, 895); (902, 902); (904, 906); (908, 908); (910, 929); (931, 1013); (1015, 1023);
  (7680, 7935)
].

Definition ucd_space_rows : list (Z * Z) := [
  (9, 13); (28, 32); (133, 133); (160, 160)
].

Fixpoint lookup_row {A} (rows : list (Z * A)) (c : Z) : option A :=
  match rows with
  | [] => None
  | (k, v) :: rest => if k =? c then Some v else lookup_row rest c
  end.

Definition in_ranges (rows : list (Z * Z)) (c : Z) : bool :=
  existsb (fun r => (r.1 <=? c) && (c <=? r.2)) rows.

Fixpoint class_in (rows : list (Z * Z * Z)) (c : Z) : Z :=
  match rows with
  | [] => 0
  | (lo, hi, k) :: rest => if (lo <=? c) && (c <=? hi) then k else class_in rest c
  end.

Definition ucd14 : unicode_data := {|
  uc_decomposition c := default [c] (lookup_row ucd_decomposition_rows c);
  uc_combining := class_in ucd_combining_rows;
  uc_lower c := default [c] (lookup_row ucd_lowercase_rows c);
  uc_cased := in_ranges ucd_cased_rows;
  uc_case_ignorable := in_ranges ucd_case_ignorable_rows;
  uc_isalnum := in_ranges ucd_alnum_rows;
  uc_isspace := in_ranges ucd_space_rows;
|}.

(** ** A runtime for examples

    [plain_runtime] reads an optionally signed run of decimal digits as a
    number and nothing else, prints a float as its nearest integer followed
    by [.0], quotes a string without escapes, and knows no date format but
    day/month/year.  The examples below use it on values for which Python
    and pandas do the same. *)

Fixpoint digits_value (s : pystr) (acc : Z) : option Z :=
  match s with
  | [] => Some acc
  | c :: rest =>
      if (48 <=? c) && (c <=? 57) then digits_value rest (10 * acc + (c - 48))
      else None
  end.

Definition parse_int (s : pystr) : option Z :=
  match s with
  | [] => None
  | [c] => digits_value [c] 0
  | c :: (_ :: _) as rest =>
      if c =? 45 then Z.opp <$> digits_value rest 0
      else if c =? 43 then digits_value rest 0
      else digits_value s 0
  end.

Definition two_digits (n : Z) : pystr :=
  if n <? 10 then 48 :: decimal n else decimal n.

Definition plain_runtime : runtime := {|
  float_of_str s := float_of_Z <$> parse_int s;
  repr_float f :=
    match f with
    | S754_nan => py "nan"
    | S754_infinity s => if s then py "-inf" else py "inf"
    | S754_zero s => if s then py "-0.0" else py "0.0"
    | S754_finite s m e =>
        (if s then [45] else []) ++ decimal (round_half_even m e) ++ py ".0"
    end;
  repr_str s := [39] ++ s ++ [39];
  str_datetime d :=
    decimal (dt_year d) ++ [45] ++ two_digits (dt_month d) ++ [45]
    ++ two_digits (dt_day d);
  strftime d fmt :=
    two_digits (dt_day d) ++ [47] ++ two_digits (dt_month d) ++ [47]
    ++ decimal (dt_year d);
  to_datetime v := Some None;
  to_numeric_str s := NInt <$> parse_int s;
  to_numeric_datetime d := None;
|}.

(** ** Definitions of the statements

    The laws of the character database, the pipeline of the specification
    that builds the table fragment once, and the values that the theorems
    below speak of. *)

(** What [normalize_key] needs of the character database.  The Unicode
    Character Database has all three properties: a full decomposition
    cannot be decomposed further, and the lowercase mapping of a code point
    that is left by [strip_accents] consists of starters without
    decomposition that are lowercase already. *)
Record normalizer_laws `{U : unicode_data} : Prop := {
  decomposition_closed : forall c d,
    In d (uc_decomposition c) -> is_starter d = true -> uc_decomposition d = [d];
  lower_closed : forall c d,
    is_starter c = true -> uc_decomposition c = [c] -> In d (uc_lower c) ->
    is_starter d = true /\ uc_decomposition d = [d] /\ uc_lower d = [d] /\ d <> 931;
  sigma_closed : forall d,
    d = 962 \/ d = 963 ->
    is_starter d = true /\ uc_decomposition d = [d] /\ uc_lower d = [d];
  space_closed :
    is_starter 32 = true /\ uc_decomposition 32 = [32] /\ uc_lower 32 = [32];
}.
Arguments normalizer_laws U : clear implicits.

(** [n] is an integer nearest to the float [f]. *)
Definition nearest_integer (f : float) (n : Z) : Prop :=
  match f with
  | S754_zero _ => n = 0
  | S754_finite s m e =>
      let a := if s then - n else n in
      if 0 <=? e then a = Z.pos m * 2 ^ e
      else Z.abs (2 * Z.pos m - 2 * a * 2 ^ (- e)) <= 2 ^ (- e)
  | _ => False
  end.

(** [f] lies exactly halfway between the integers [q] and [q + 1] in
    absolute value. *)
Definition halfway (f : float) (q : Z) : Prop :=
  match f with
  | S754_finite _ m e => e < 0 /\ 2 * Z.pos m = (2 * q + 1) * 2 ^ (- e)
  | _ => False
  end.

Definition is_digit (c : Z) : Prop := 48 <= c <= 57.

Definition no_dots (s : pystr) : pystr := List.filter (fun c => negb (c =? 46)) s.

(** binary64 numbers written as [m * 2^e] *)
Definition dyadic (m e : Z) : float := binary_normalize 53 1024 m e false.

(** [text] is the sign followed by the digits in groups of three counted
    from the right, with a dot between two groups. *)
Definition dot_grouped (sign digits text : pystr) : Prop :=
  exists first rest,
    text = sign ++ first ++ flat_map (fun g => 46 :: g) rest
    /\ (1 <= length first <= 3)%nat
    /\ Forall (fun g => length g = 3%nat) rest
    /\ first ++ concat rest = digits.

(** The tests of [find_sheet_names] on the key of a sheet name. *)
Definition matches_profile (key : pystr) : bool :=
  str_contains (py "hoso") key.

Definition matches_goods (key : pystr) : bool :=
  str_contains (py "hanghoa") key || str_contains (py "hanghoá") key
  || str_contains (py "hanghoà") key
  || (str_contains (py "hang") key && str_contains (py "hoa") key).

(** The string of a formatter call (the formatters never raise). *)
Definition text_of (r : result pystr) : pystr :=
  match r with
  | Ok s => s
  | Raise _ => []
  end.

(** What a saved document shows of its context: the scalars, and the blocks
    of the table fragment. *)
Definition shown_value (v : ctxval) : pyval + list block :=
  match v with
  | CVal x => inl x
  | CSubdoc sd => inr (sd_blocks sd)
  end.

Inductive shown :=
  | ShownMkdir (dir : path)
  | ShownSave (file : path) (doc : docx_template)
              (ctx : list (pystr * (pyval + list block)))
  | ShownPrint (line : pystr).

Definition show (e : effect) : shown :=
  match e with
  | Mkdir dir => ShownMkdir dir
  | Save file doc ctx =>
      ShownSave file doc (map (fun kv => (kv.1, shown_value kv.2)) ctx)
  | Print line => ShownPrint line
  end.

(** Every row of a frame has one cell per column. *)
Definition wf_frame (df : dataframe) : Prop :=
  Forall (fun cells => length cells = length (df_columns df)) (df_rows df).


Section Statements.
Context `{U : unicode_data} `{R : runtime}.

(** A code point that [normalize_key] leaves as it is. *)
Definition plain (d : Z) : Prop :=
  is_starter d = true /\ uc_decomposition d = [d] /\ uc_lower d = [d] /\ d <> 931.

(** The last text column whose key is [k]. *)
Fixpoint last_with_key (k : pystr) (columns : list label) : option pystr :=
  match columns with
  | [] => None
  | c :: rest =>
      match last_with_key k rest with
      | Some s => Some s
      | None =>
          match c with
          | LStr s => if decide (normalize_key s = k) then Some s else None
          | LNum _ => None
          end
      end
  end.

(** The cells of a table row, and the blocks of the fragment, as values. *)
Definition goods_row_cells (cm : cols_map) (r : series_row) : list pystr :=
  [ (if isna (row_field r (ten cm)) then [] else str (row_field r (ten cm)));
    text_of (format_int (row_field r (soluong cm)));
    text_of (format_currency (row_field r (dongia cm)));
    text_of (format_currency (row_field r (thanhtien cm))) ].

Definition goods_table (items : dataframe) : table :=
  let '(working, cm) := derive_total items (pick_columns items) in
  {| tbl_style := py "Table Grid";
     tbl_rows := headers :: map (goods_row_cells cm) (iterrows working) |}.

Definition goods_blocks (items_df : option dataframe) : list block :=
  match items_df with
  | None => [Paragraph (py "Không có hàng hoá.")]
  | Some items =>
      if df_empty items then [Paragraph (py "Không có hàng hoá.")]
      else [Table (goods_table items)]
  end.

(** The pipeline of the specification, section 4.5: the fragment is built
    once, before the templates are visited (step 4), with the fragment
    constructor of [maker]; every template then gets a context with the
    customer's fields and this one fragment (step 5). *)
Definition context_with_fragment (customer_row : series_row) (fragment : subdoc)
  : result context :=
  ngay_sinh ← format_date (val customer_row (py "Ngày sinh")) (py "%d/%m/%Y");
  Ok [ (py "TênKH", CVal (val customer_row (py "Họ tên")));
       (py "NgàySinh", CVal (PStr ngay_sinh));
       (py "ĐịaChỉ", CVal (val customer_row (py "Địa chỉ")));
       (py "SốĐiệnThoại", CVal (val customer_row (py "Số điện thoại")));
       (py "MãKH", CVal (val customer_row (py "Mã KH")));
       (py "BảngHàngHoá", CSubdoc fragment) ].

Definition render_customer_build_once (maker : docx_template)
    (templates : list path) (output_root : path) (customer_row : series_row)
    (items_all : option dataframe) : io unit :=
  let customer_id := row_get_default customer_row (py "Mã KH") in
  let customer_name := row_get_default customer_row (py "Họ tên") in
  let customer_out_dir :=
    path_div output_root (folder_name customer_id customer_name) in
  io_emit (Mkdir customer_out_dir) ;;
  let items_df := filter_items items_all customer_id in
  fragment ← io_lift (build_goods_table_subdoc maker (Some items_df));
  io_for templates (fun tpl_path =>
    let doc := {| tpl_file := path_str tpl_path |} in
    ctx ← io_lift (context_with_fragment customer_row fragment);
    let out_path := path_div customer_out_dir (out_name tpl_path customer_id) in
    io_emit (Save out_path doc ctx) ;;
    io_emit (Print (py "Đã tạo: " ++ path_str out_path))).

(** The context of one template, as a value. *)
Definition context_of (doc : docx_template) (customer_row : series_row)
    (items_df : option dataframe) : context :=
  [ (py "TênKH", CVal (val customer_row (py "Họ tên")));
    (py "NgàySinh",
     CVal (PStr (text_of (format_date (val customer_row (py "Ngày sinh"))
                                      (py "%d/%m/%Y")))));
    (py "ĐịaChỉ", CVal (val customer_row (py "Địa chỉ")));
    (py "SốĐiệnThoại", CVal (val customer_row (py "Số điện thoại")));
    (py "MãKH", CVal (val customer_row (py "Mã KH")));
    (py "BảngHàngHoá",
     CSubdoc {| sd_doc := doc; sd_blocks := goods_blocks items_df |}) ].

(** What is done for one template, the fragment belonging to [owner]. *)
Definition template_effects_owned (owner : docx_template) (output_root : path)
    (customer_row : series_row) (items_all : option dataframe)
    (tpl_path : path) : list effect :=
  let customer_id := row_get_default customer_row (py "Mã KH") in
  let customer_name := row_get_default customer_row (py "Họ tên") in
  let customer_out_dir :=
    path_div output_root (folder_name customer_id customer_name) in
  let out_path := path_div customer_out_dir (out_name tpl_path customer_id) in
  [ Save out_path {| tpl_file := path_str tpl_path |}
      (context_of owner customer_row
         (Some (filter_items items_all customer_id)));
    Print (py "Đã tạo: " ++ path_str out_path) ].

(** What [render_templates_for_customer] does for one template. *)
Definition template_effects (output_root : path) (customer_row : series_row)
    (items_all : option dataframe) (tpl_path : path) : list effect :=
  template_effects_owned {| tpl_file := path_str tpl_path |} output_root
    customer_row items_all tpl_path.


Definition int_operand (v : pyval) : option Z := as_int64 (cell_number v).

(** Every cell of the column is an integer of the int64 range. *)
Definition int_column (cells : list pyval) : bool :=
  forallb (fun v => negb (is_none (int_operand v))) cells.



End Statements.

Definition basic14 (d : Z) : bool :=
  @is_starter ucd14 d && bool_decide (@uc_decomposition ucd14 d = [d]).
Definition plain14 (d : Z) : bool :=
  basic14 d && bool_decide (@uc_lower ucd14 d = [d]) && negb (d =? 931).

(** Two goods lines, the quantity of the second unreadable. *)
Definition example_goods : dataframe :=
  {| df_columns := [LStr (py "Tên hàng"); LStr (py "SL"); LStr (py "Đơn giá")];
     df_rows := [ [PStr (py "Bút"); PInt 3; PInt 1000];
                  [PStr (py "Vở"); PStr (py "abc"); PInt 1000] ] |}.



(** A workbook whose headers are written without accents. *)
Definition unaccented_profile : dataframe :=
  {| df_columns := [LStr (py "Ma KH"); LStr (py "Ho ten")];
     df_rows := [[PStr (py "001"); PStr (py "Nguyen Van A")]] |}.

Definition unaccented_goods : dataframe :=
  {| df_columns := [LStr (py "Ma KH"); LStr (py "Ten hang"); LStr (py "SL")];
     df_rows := [[PStr (py "001"); PStr (py "But"); PInt 2]] |}.

Definition unaccented_environment : environment :=
  {| excel_exists := true;
     template_dir_exists := true;
     template_files := [path_of_str (py "/absolute/path/to/templates/T1.docx")];
     excel :=
       {| sheet_names := [py "Hồ sơ"; py "Hàng hoá"];
          read_excel name :=
            if bool_decide (name = Some (py "Hồ sơ")) then unaccented_profile
            else unaccented_goods |} |}.

(** One customer with two goods lines, one of them with a total of its own,
    a third line of another customer, and two templates. *)
Definition scenario_profile : dataframe :=
  {| df_columns := [LStr (py "Mã KH"); LStr (py "Họ tên")];
     df_rows := [[PStr (py "001"); PStr (py "Nguyễn Văn A")]] |}.

Definition scenario_goods : dataframe :=
  {| df_columns := [LStr (py "Mã KH"); LStr (py "Tên hàng"); LStr (py "Số lượng");
                    LStr (py "Đơn giá"); LStr (py "Thành tiền")];
     df_rows := [ [PStr (py "001"); PStr (py "Bút"); PInt 2; PInt 500;
                   PFloat S754_nan];
                  [PStr (py "001"); PStr (py "Vở"); PInt 1; PInt 1000;
                   PFloat (float_of_Z 1200)];
                  [PStr (py "002"); PStr (py "Tẩy"); PInt 5; PInt 100;
                   PFloat (float_of_Z 500)] ] |}.

Definition scenario : environment :=
  {| excel_exists := true;
     template_dir_exists := true;
     template_files := [path_of_str (py "/absolute/path/to/templates/T2.docx");
                        path_of_str (py "/absolute/path/to/templates/T1.docx")];
     excel :=
       {| sheet_names := [py "Hồ sơ"; py "Hàng hoá"];
          read_excel name :=
            if bool_decide (name = Some (py "Hồ sơ")) then scenario_profile
            else scenario_goods |} |}.

(** ** Definitions of the further statements *)

(** The sign of a float, [true] for a negative one. *)
Definition float_negative (f : float) : bool :=
  match f with
  | S754_zero s | S754_infinity s | S754_finite s _ _ => s
  | S754_nan => false
  end.

(** The files saved for one customer, one for every template. *)
Definition customer_files `{U : unicode_data} `{R : runtime}
    (templates : list path) (output_root : path) (customer_row : series_row)
  : list path :=
  let customer_id := row_get_default customer_row (py "Mã KH") in
  let customer_name := row_get_default customer_row (py "Họ tên") in
  map (fun tpl_path =>
         path_div (path_div output_root (folder_name customer_id customer_name))
                  (out_name tpl_path customer_id))
      templates.

(** A list of paths in ascending order. *)
Fixpoint ascending (l : list path) : Prop :=
  match l with
  | [] => True
  | p :: rest => Forall (fun q => path_leb p q = true) rest /\ ascending rest
  end.

(** No component of the path holds a slash. *)
Definition plain_parts (p : path) : Prop :=
  Forall (fun part => ~ In 47 part) (path_parts p).

(** * Properties *)

(** ** The normalizer *)

Section NormalizerFacts.
Context `{U : unicode_data}.

Lemma filter_insert_mark c placed :
  List.filter is_starter (insert_mark c placed)
  = List.filter is_starter (c :: placed).
Proof.
  induction placed as [|p ps IH]; [reflexivity|].
  cbn [insert_mark].
  destruct (negb (is_starter c) && negb (is_starter p)
            && (uc_combining c <? uc_combining p)) eqn:E; [|reflexivity].
  apply andb_prop in E as [E _]. apply andb_prop in E as [Ec Ep].
  apply negb_true_iff in Ec, Ep.
  cbn [List.filter]. rewrite Ep, IH. cbn [List.filter]. now rewrite Ec.
Qed.

Lemma filter_fold_insert_mark s placed :
  List.filter is_starter
    (rev (fold_left (fun placed c => insert_mark c placed) s placed))
  = List.filter is_starter (rev placed) ++ List.filter is_starter s.
Proof.
  revert placed; induction s as [|c s IH]; intros placed; cbn [fold_left].
  - now rewrite app_nil_r.
  - rewrite IH, !filter_rev, filter_insert_mark.
    cbn [List.filter]. destruct (is_starter c); cbn [rev].
    + now rewrite <- app_assoc.
    + reflexivity.
Qed.

(** Canonical ordering moves marks only: the starters stay as they are. *)
Lemma filter_canonical_order s :
  List.filter is_starter (canonical_order s) = List.filter is_starter s.
Proof. unfold canonical_order. now rewrite filter_fold_insert_mark. Qed.

Lemma filter_flat_map {A B} (p : B -> bool) (f : A -> list B) l :
  List.filter p (flat_map f l) = flat_map (fun a => List.filter p (f a)) l.
Proof.
  induction l as [|a l IH]; [reflexivity|].
  cbn [flat_map]. now rewrite List.filter_app, IH.
Qed.

(** [strip_accents], code point by code point. *)
Lemma strip_accents_flat_map text :
  strip_accents text
  = flat_map (fun c => List.filter is_starter (uc_decomposition c)) text.
Proof.
  unfold strip_accents, normalize_NFD.
  now rewrite filter_canonical_order, filter_flat_map.
Qed.

Lemma strip_accents_app s t :
  strip_accents (s ++ t) = strip_accents s ++ strip_accents t.
Proof. rewrite !strip_accents_flat_map. apply flat_map_app. Qed.

Lemma strip_accents_plain t : Forall plain t -> strip_accents t = t.
Proof.
  rewrite strip_accents_flat_map.
  induction 1 as [|d t (Hs & Hd & _) _ IH]; [reflexivity|].
  cbn [flat_map]. rewrite Hd, IH. cbn [List.filter]. now rewrite Hs.
Qed.

Lemma lower_from_plain before t : Forall plain t -> lower_from before t = t.
Proof.
  intros H; revert before.
  induction H as [|d t (_ & _ & Hl & Hne) _ IH]; intros before; [reflexivity|].
  cbn [lower_from]. unfold lower_char.
  apply Z.eqb_neq in Hne. now rewrite Hne, Hl, IH.
Qed.

Lemma remove_spaces_idempotent s :
  remove_spaces (remove_spaces s) = remove_spaces s.
Proof.
  unfold remove_spaces. induction s as [|c s IH]; [reflexivity|].
  cbn [List.filter]. destruct (negb (c =? 32)) eqn:E; [|exact IH].
  cbn [List.filter]. now rewrite E, IH.
Qed.

Lemma Forall_remove_spaces (P : Z -> Prop) s :
  Forall P s -> Forall P (remove_spaces s).
Proof.
  unfold remove_spaces. induction 1 as [|c s Hc _ IH]; [constructor|].
  cbn [List.filter]. destruct (negb (c =? 32)); [constructor|]; assumption.
Qed.

Context (L : normalizer_laws U).

Lemma strip_accents_basic text :
  Forall (fun d => is_starter d = true /\ uc_decomposition d = [d])
         (strip_accents text).
Proof.
  rewrite strip_accents_flat_map. apply List.Forall_forall. intros d Hd.
  apply in_flat_map in Hd as (c & _ & Hd).
  apply filter_In in Hd as [Hd Hs].
  split; [exact Hs|]. now apply (decomposition_closed L c).
Qed.

Lemma lower_char_plain before c after :
  is_starter c = true -> uc_decomposition c = [c] ->
  Forall plain (lower_char before c after).
Proof.
  intros Hs Hd. unfold lower_char. destruct (c =? 931).
  - constructor; [|constructor].
    destruct (final_sigma before after).
    + destruct (sigma_closed L 962) as (? & ? & ?); [now left|].
      repeat split; try assumption. discriminate.
    + destruct (sigma_closed L 963) as (? & ? & ?); [now right|].
      repeat split; try assumption. discriminate.
  - apply List.Forall_forall. intros d Hin. now apply (lower_closed L c).
Qed.

Lemma lower_from_is_plain before t :
  Forall (fun d => is_starter d = true /\ uc_decomposition d = [d]) t ->
  Forall plain (lower_from before t).
Proof.
  intros H; revert before.
  induction H as [|c t [Hs Hd] _ IH]; intros before; [constructor|].
  cbn [lower_from]. apply Forall_app. split; [|apply IH].
  now apply lower_char_plain.
Qed.

Lemma normalize_key_plain text : Forall plain (normalize_key text).
Proof.
  unfold normalize_key. apply Forall_remove_spaces.
  apply lower_from_is_plain, strip_accents_basic.
Qed.

Lemma normalize_key_fixed text :
  normalize_key (normalize_key text) = normalize_key text.
Proof.
  pose proof (normalize_key_plain text) as H.
  unfold normalize_key at 1.
  rewrite (strip_accents_plain _ H).
  unfold str_lower. rewrite (lower_from_plain _ _ H).
  unfold normalize_key. apply remove_spaces_idempotent.
Qed.

(** A combining mark without a decomposition of its own changes no key. *)
Lemma normalize_key_mark s m t :
  is_starter m = false -> uc_decomposition m = [m] ->
  normalize_key (s ++ m :: t) = normalize_key (s ++ t).
Proof.
  intros Hm Hd. unfold normalize_key. do 2 f_equal.
  rewrite !strip_accents_app. f_equal.
  change (m :: t) with ([m] ++ t). rewrite strip_accents_app.
  rewrite (strip_accents_flat_map [m]). cbn [flat_map].
  rewrite Hd. cbn [List.filter]. now rewrite Hm.
Qed.

(** A letter with a decomposition has the key of its base letter: the
    key of a text does not change when a code point is replaced by the
    starters of its decomposition. *)
Lemma strip_accents_fixed t :
  Forall (fun d => is_starter d = true /\ uc_decomposition d = [d]) t ->
  strip_accents t = t.
Proof.
  rewrite strip_accents_flat_map.
  induction 1 as [|d t [Hs Hd] _ IH]; [reflexivity|].
  cbn [flat_map]. rewrite Hd, IH. cbn [List.filter]. now rewrite Hs.
Qed.

Lemma normalize_key_letter a c b :
  normalize_key (a ++ c :: b)
  = normalize_key (a ++ List.filter is_starter (uc_decomposition c) ++ b).
Proof.
  unfold normalize_key. do 2 f_equal.
  change (c :: b) with ([c] ++ b). rewrite !strip_accents_app. do 2 f_equal.
  assert (E : strip_accents [c] = List.filter is_starter (uc_decomposition c)).
  { rewrite strip_accents_flat_map. cbn [flat_map]. apply app_nil_r. }
  rewrite <- E. symmetry. apply strip_accents_fixed, strip_accents_basic.
Qed.

(** Away from U+03A3 [str.lower] works code point by code point. *)
Lemma lower_from_no_sigma before t :
  ~ In 931 t -> lower_from before t = flat_map uc_lower t.
Proof.
  revert before; induction t as [|c t IH]; intros before Hn; [reflexivity|].
  cbn [lower_from flat_map]. unfold lower_char.
  destruct (c =? 931) eqn:E.
  - apply Z.eqb_eq in E. exfalso. apply Hn. now left.
  - f_equal. apply IH. intros Hin. apply Hn. now right.
Qed.

Lemma normalize_key_no_sigma text :
  ~ In 931 (strip_accents text) ->
  normalize_key text = remove_spaces (flat_map uc_lower (strip_accents text)).
Proof.
  intros H. unfold normalize_key, str_lower. now rewrite lower_from_no_sigma.
Qed.

(** A space changes no key of a text without capital sigma. *)
Lemma normalize_key_space s t :
  ~ In 931 (strip_accents (s ++ t)) ->
  normalize_key (s ++ 32 :: t) = normalize_key (s ++ t).
Proof.
  intros H. destruct (space_closed L) as (Hs & Hd & Hl).
  assert (E : strip_accents (s ++ 32 :: t)
              = strip_accents s ++ 32 :: strip_accents t).
  { change (32 :: t) with ([32] ++ t). rewrite !strip_accents_app. f_equal.
    rewrite (strip_accents_flat_map [32]). cbn [flat_map].
    rewrite Hd. cbn [List.filter]. now rewrite Hs. }
  rewrite (normalize_key_no_sigma (s ++ t) H).
  rewrite strip_accents_app in H |- *.
  rewrite normalize_key_no_sigma.
  - rewrite E, !flat_map_app. cbn [flat_map]. rewrite Hl.
    unfold remove_spaces. rewrite !List.filter_app. reflexivity.
  - rewrite E. intros Hin. apply in_app_or in Hin as [Hin|[Hin|Hin]].
    + apply H, in_or_app. now left.
    + discriminate.
    + apply H, in_or_app. now right.
Qed.

(** A letter and its lowercase letter give the same key. *)
Lemma normalize_key_case s c d t :
  is_starter c = true -> uc_decomposition c = [c] -> uc_lower c = [d] ->
  c <> 931 -> ~ In 931 (strip_accents (s ++ t)) ->
  normalize_key (s ++ c :: t) = normalize_key (s ++ d :: t).
Proof.
  intros Hs Hd Hl Hc H.
  destruct (lower_closed L c d Hs Hd) as (Hs' & Hd' & Hl' & Hc');
    [rewrite Hl; now left|].
  assert (E : forall x, is_starter x = true -> uc_decomposition x = [x] ->
              strip_accents (s ++ x :: t)
              = strip_accents s ++ x :: strip_accents t).
  { intros x Hx Hdx. change (x :: t) with ([x] ++ t).
    rewrite !strip_accents_app. f_equal.
    rewrite (strip_accents_flat_map [x]). cbn [flat_map].
    rewrite Hdx. cbn [List.filter]. now rewrite Hx. }
  rewrite strip_accents_app in H.
  assert (N : forall x, x <> 931 ->
              ~ In 931 (strip_accents s ++ x :: strip_accents t)).
  { intros x Hx Hin. apply in_app_or in Hin as [Hin|[Hin|Hin]].
    - apply H, in_or_app. now left.
    - congruence.
    - apply H, in_or_app. now right. }
  rewrite !normalize_key_no_sigma by (rewrite E by assumption; now apply N).
  rewrite !E by assumption. rewrite !flat_map_app. cbn [flat_map].
  now rewrite Hl, Hl'.
Qed.
End NormalizerFacts.

(** *** The laws hold of [ucd14] *)

Lemma lookup_row_Some {A} (rows : list (Z * A)) c v :
  lookup_row rows c = Some v -> In (c, v) rows.
Proof.
  induction rows as [|[k w] rows IH]; cbn [lookup_row]; [discriminate|].
  destruct (k =? c) eqn:E.
  - intros [= ->]. apply Z.eqb_eq in E as ->. now left.
  - intros H. right. now apply IH.
Qed.

Lemma lookup_row_None {A} (rows : list (Z * A)) c :
  lookup_row rows c = None -> ~ In c (map fst rows).
Proof.
  induction rows as [|[k w] rows IH]; cbn [lookup_row map fst]; [tauto|].
  destruct (k =? c) eqn:E; [discriminate|].
  intros H [Hk|Hin]; [|now apply IH].
  apply Z.eqb_neq in E. contradiction.
Qed.

Lemma plain14_spec d : plain14 d = true -> @plain ucd14 d.
Proof.
  unfold plain14, basic14, plain. intros H.
  apply andb_prop in H as [H Hne]. apply andb_prop in H as [H Hl].
  apply andb_prop in H as [Hs Hd].
  apply bool_decide_eq_true in Hd, Hl. apply negb_true_iff, Z.eqb_neq in Hne.
  auto.
Qed.

Lemma ucd14_laws : normalizer_laws ucd14.
Proof.
  split.
  - intros c d Hin Hs. cbn [uc_decomposition ucd14] in Hin.
    destruct (lookup_row ucd_decomposition_rows c) as [v|] eqn:E; cbn in Hin.
    + apply lookup_row_Some in E.
      assert (Hall : forallb (fun r => forallb (fun d =>
                implb (@is_starter ucd14 d)
                      (bool_decide (@uc_decomposition ucd14 d = [d]))) r.2)
                ucd_decomposition_rows = true) by (vm_compute; reflexivity).
      rewrite forallb_forall in Hall. specialize (Hall _ E).
      cbn [snd] in Hall. rewrite forallb_forall in Hall.
      specialize (Hall _ Hin). rewrite Hs in Hall.
      now apply bool_decide_eq_true in Hall.
    + destruct Hin as [<-|[]]. cbn [uc_decomposition ucd14]. now rewrite E.
  - intros c d Hs Hd Hin. apply plain14_spec.
    cbn [uc_lower ucd14] in Hin.
    destruct (lookup_row ucd_lowercase_rows c) as [v|] eqn:E; cbn in Hin.
    + apply lookup_row_Some in E.
      assert (Hall : forallb (fun r => implb (basic14 r.1) (forallb plain14 r.2))
                ucd_lowercase_rows = true) by (vm_compute; reflexivity).
      rewrite forallb_forall in Hall. specialize (Hall _ E).
      cbn [fst snd] in Hall.
      assert (Hb : basic14 c = true).
      { unfold basic14. rewrite Hs. now apply bool_decide_eq_true. }
      rewrite Hb in Hall. cbn [implb] in Hall. rewrite forallb_forall in Hall.
      now apply Hall.
    + destruct Hin as [<-|[]].
      unfold plain14, basic14. rewrite Hs.
      rewrite (bool_decide_eq_true_2 _ Hd).
      assert (Hl : @uc_lower ucd14 c = [c]) by (cbn [uc_lower ucd14]; now rewrite E).
      rewrite (bool_decide_eq_true_2 _ Hl). cbn [andb].
      apply negb_true_iff, Z.eqb_neq. intros ->.
      apply lookup_row_None in E. apply E. vm_compute.
      repeat (first [left; reflexivity | right]).
  - intros d [-> | ->]; vm_compute; auto.
  - vm_compute; auto.
Qed.

(** C5, as the claim is stated, fails for texts with the Greek capital
    sigma, which [str.lower] turns into the final or the medial small sigma
    by its neighbours: ["ΑΣ Β"] and ["ΑΣΒ"] differ by a space and
    ["ΟΣ"] and ["οσ"] differ by the case of their letters, and neither
    pair has one key. *)
Lemma normalize_key_sigma_counterexample :
  @normalize_key ucd14 (py "ΑΣ Β") = py "αςβ"
  /\ @normalize_key ucd14 (py "ΑΣΒ") = py "ασβ"
  /\ @normalize_key ucd14 (py "ΟΣ") = py "ος"
  /\ @normalize_key ucd14 (py "οσ") = py "οσ"
  /\ bool_decide (@normalize_key ucd14 (py "ΑΣ Β")
                  = @normalize_key ucd14 (py "ΑΣΒ")) = false
  /\ bool_decide (@normalize_key ucd14 (py "ΟΣ")
                  = @normalize_key ucd14 (py "οσ")) = false.
Proof. repeat split; vm_compute; reflexivity. Qed.

(** C5, amended: over a character database with the closure properties of
    the Unicode database, [normalize_key] is idempotent on every string and
    ignores diacritics in every string: a combining mark changes no key,
    and a letter with a decomposition has the key of its base letter.  It
    ignores spaces and letter case in every text that has no Greek capital
    sigma; so ["Hàng Hoá"] and ["hang hoa"] have the same key. *)
Theorem normalize_key_idempotent_insensitive `{U : unicode_data}
    (L : normalizer_laws U) (s : pystr) :
  normalize_key (normalize_key s) = normalize_key s
  /\ (forall a m b, is_starter m = false -> uc_decomposition m = [m] ->
        normalize_key (a ++ m :: b) = normalize_key (a ++ b))
  /\ (forall a c b,
        normalize_key (a ++ c :: b)
        = normalize_key (a ++ List.filter is_starter (uc_decomposition c) ++ b))
  /\ (forall a b, ~ In 931 (strip_accents (a ++ b)) ->
        normalize_key (a ++ 32 :: b) = normalize_key (a ++ b))
  /\ (forall a c d b, is_starter c = true -> uc_decomposition c = [c] ->
        uc_lower c = [d] -> c <> 931 -> ~ In 931 (strip_accents (a ++ b)) ->
        normalize_key (a ++ c :: b) = normalize_key (a ++ d :: b))
  /\ @normalize_key ucd14 (py "Hàng Hoá") = @normalize_key ucd14 (py "hang hoa").
Proof.
  split; [apply (normalize_key_fixed L)|].
  split; [intros; now apply normalize_key_mark|].
  split; [intros; apply (normalize_key_letter L)|].
  split; [intros; now apply (normalize_key_space L)|].
  split; [intros; now apply (normalize_key_case L)|].
  vm_compute. reflexivity.
Qed.

Lemma normalize_key_idempotent_witness :
  @normalize_key ucd14 (@normalize_key ucd14 (py "Hàng Hoá"))
  = @normalize_key ucd14 (py "Hàng Hoá")
  /\ @normalize_key ucd14 (py "Hàng Hoá") = py "hanghoa"
  /\ @normalize_key ucd14 (py "H" ++ 224 :: py "ng")
     = @normalize_key ucd14 (py "Hang").
Proof.
  split; [|split].
  - exact (proj1 (normalize_key_idempotent_insensitive ucd14_laws (py "Hàng Hoá"))).
  - vm_compute. reflexivity.
  - rewrite (proj1 (proj2 (proj2 (normalize_key_idempotent_insensitive ucd14_laws
                                    [])))
               (py "H") 224 (py "ng")).
    vm_compute. reflexivity.
Defined.

(** ** The formatter *)

Section RoundingFacts.

Lemma round_half_even_nearest m e :
  let n := round_half_even m e in
  if 0 <=? e then n = Z.pos m * 2 ^ e
  else Z.abs (2 * Z.pos m - 2 * n * 2 ^ (- e)) <= 2 ^ (- e).
Proof.
  unfold round_half_even. destruct (0 <=? e) eqn:E; [reflexivity|].
  apply Z.leb_gt in E.
  assert (Hd : 0 < 2 ^ (- e)) by (apply Z.pow_pos_nonneg; lia).
  set (d := 2 ^ (- e)) in *.
  pose proof (Z.div_mod (Z.pos m) d ltac:(lia)) as Hdm.
  pose proof (Z.mod_pos_bound (Z.pos m) d Hd) as Hr.
  set (q := Z.pos m / d) in *. set (r := Z.pos m mod d) in *.
  clearbody q r d. generalize dependent (Z.pos m). clear m. intros M ->.
  destruct (Z.compare_spec (2 * r) d) as [C|C|C].
  - destruct (Z.even q); apply Z.abs_le; split; nia.
  - apply Z.abs_le; split; nia.
  - apply Z.abs_le; split; nia.
Qed.

Lemma py_round_nearest f n : py_round f = Ok n -> nearest_integer f n.
Proof.
  destruct f as [s|s| |s m e]; cbn [py_round nearest_integer]; try discriminate.
  - now intros [= <-].
  - intros [= <-]. pose proof (round_half_even_nearest m e) as H. cbv zeta in H.
    destruct s; [rewrite Z.opp_involutive|]; exact H.
Qed.

(** Halfway between [q] and [q + 1] the even one is taken. *)
Lemma round_half_even_tie m e q :
  e < 0 -> 2 * Z.pos m = (2 * q + 1) * 2 ^ (- e) ->
  round_half_even m e = if Z.even q then q else q + 1.
Proof.
  intros He Hm. unfold round_half_even.
  destruct (0 <=? e) eqn:E; [apply Z.leb_le in E; lia|].
  assert (Hd : 0 < 2 ^ (- e)) by (apply Z.pow_pos_nonneg; lia).
  set (d := 2 ^ (- e)) in *.
  pose proof (Z.div_mod (Z.pos m) d ltac:(lia)) as Hdm.
  pose proof (Z.mod_pos_bound (Z.pos m) d Hd) as Hr.
  set (q' := Z.pos m / d) in *. set (r := Z.pos m mod d) in *.
  clearbody q' r d. generalize dependent (Z.pos m). clear m. intros M Hm ->.
  assert (q' = q) as -> by nia.
  assert (2 * r = d) as -> by nia.
  now rewrite Z.compare_refl.
Qed.
End RoundingFacts.

Section DigitFacts.

Lemma uint_codes_digits d : Forall is_digit (uint_codes d).
Proof.
  induction d; cbn [uint_codes]; constructor; try assumption;
    unfold is_digit; lia.
Qed.

Lemma decimal_digits n : Forall is_digit (decimal n).
Proof. apply uint_codes_digits. Qed.

Lemma group3_step a b c d more :
  group3 (a :: b :: c :: d :: more) = a :: b :: c :: 44 :: group3 (d :: more).
Proof. reflexivity. Qed.

Lemma filter_no_comma l :
  ~ In 44 l -> List.filter (fun c => negb (c =? 44)) l = l.
Proof.
  induction l as [|x l IH]; [reflexivity|]. intros Hn.
  cbn [List.filter]. destruct (x =? 44) eqn:E.
  - apply Z.eqb_eq in E. exfalso. apply Hn. now left.
  - cbn [negb]. f_equal. apply IH. intros Hin. apply Hn. now right.
Qed.

Lemma group3_no_comma l :
  ~ In 44 l -> List.filter (fun c => negb (c =? 44)) (group3 l) = l.
Proof.
  induction l as [l IH] using (induction_ltof1 _ (@length Z)).
  unfold ltof in IH. intros Hn.
  destruct l as [|a [|b [|c [|d more]]]];
    try (change (group3 ?x) with x; now apply filter_no_comma).
  rewrite group3_step.
  change (a :: b :: c :: 44 :: group3 (d :: more))
    with ([a; b; c] ++ [44] ++ group3 (d :: more)).
  rewrite !List.filter_app, IH.
  - rewrite filter_no_comma; [reflexivity|].
    intros Hin. apply Hn. cbn in Hin |- *. tauto.
  - cbn [length]. lia.
  - intros Hin. apply Hn. cbn in Hin |- *. tauto.
Qed.

Lemma digits_no_comma l : Forall is_digit l -> ~ In 44 l.
Proof.
  intros H Hin. rewrite List.Forall_forall in H. specialize (H _ Hin).
  unfold is_digit in H. lia.
Qed.

(** The grouped form has the digits of the number, with a comma in some
    places. *)
Lemma grouped_no_comma sign n :
  List.filter (fun c => negb (c =? 44)) (grouped sign n)
  = (if sign then [45] else []) ++ decimal n.
Proof.
  unfold grouped. rewrite List.filter_app, filter_rev, group3_no_comma.
  - rewrite rev_involutive. now destruct sign.
  - intros Hin. apply in_rev in Hin.
    exact (digits_no_comma _ (decimal_digits n) Hin).
Qed.

Lemma comma_to_dot_no_comma s : ~ In 44 (comma_to_dot s).
Proof.
  unfold comma_to_dot. intros Hin. apply in_map_iff in Hin as (c & Hc & _).
  destruct (c =? 44) eqn:E; [discriminate|]. apply Z.eqb_neq in E. lia.
Qed.

Lemma no_dots_comma_to_dot s :
  ~ In 46 s ->
  no_dots (comma_to_dot s) = List.filter (fun c => negb (c =? 44)) s.
Proof.
  unfold no_dots, comma_to_dot. induction s as [|c s IH]; [reflexivity|].
  intros Hn. cbn [map List.filter].
  assert (Hc : (c =? 46) = false) by (apply Z.eqb_neq; intros ->; apply Hn; now left).
  destruct (c =? 44) eqn:E; cbn [negb].
  - change (46 =? 46) with true. cbn [negb]. apply IH. intros Hin. apply Hn. now right.
  - rewrite Hc. cbn [negb]. f_equal. apply IH. intros Hin. apply Hn. now right.
Qed.

Lemma group3_In x l : In x (group3 l) -> x = 44 \/ In x l.
Proof.
  induction l as [l IH] using (induction_ltof1 _ (@length Z)).
  unfold ltof in IH.
  destruct l as [|a [|b [|c [|d more]]]];
    try (change (group3 ?y) with y; tauto).
  rewrite group3_step. intros [<-|[<-|[<-|[<-|Hin]]]]; cbn; try tauto.
  apply IH in Hin; [cbn in Hin; tauto|cbn [length]; lia].
Qed.

Lemma grouped_no_dot sign n : ~ In 46 (grouped sign n).
Proof.
  unfold grouped. intros Hin. apply in_app_or in Hin as [Hin|Hin].
  - destruct sign; cbn in Hin; [destruct Hin as [H|[]]; discriminate|tauto].
  - apply in_rev, group3_In in Hin as [H|Hin]; [discriminate|].
    apply in_rev in Hin.
    pose proof (decimal_digits n) as D. rewrite List.Forall_forall in D.
    specialize (D _ Hin). unfold is_digit in D. lia.
Qed.

Lemma str_int_abs n :
  (if n <? 0 then [45] else []) ++ decimal (Z.abs n) = str_int n.
Proof.
  unfold str_int. destruct (n <? 0) eqn:E.
  - apply Z.ltb_lt in E. now rewrite Z.abs_neq by lia.
  - apply Z.ltb_ge in E. now rewrite Z.abs_eq by lia.
Qed.

(** The dotted form of an integer: no comma in it, and without its dots
    it is [str(n)]. *)
Lemma dotted_int n :
  ~ In 44 (comma_to_dot (format_int_comma n))
  /\ no_dots (comma_to_dot (format_int_comma n)) = str_int n.
Proof.
  split; [apply comma_to_dot_no_comma|].
  unfold format_int_comma.
  rewrite no_dots_comma_to_dot by apply grouped_no_dot.
  rewrite grouped_no_comma. apply str_int_abs.
Qed.
Lemma decimal_nonempty n : decimal n <> [].
Proof.
  unfold decimal.
  assert (H : N.to_uint (Z.to_N n) <> Decimal.Nil).
  { destruct (Z.to_N n) as [|p]; [discriminate|].
    apply DecimalPos.Unsigned.to_uint_nonnil. }
  destruct (N.to_uint (Z.to_N n)); [contradiction| | | | | | | | | |];
    discriminate.
Qed.

(** The groups that [group3] makes, read from the left. *)
Lemma group3_groups l :
  l <> [] ->
  exists first rest,
    rev (group3 l) = first ++ flat_map (fun g => 44 :: g) rest
    /\ (1 <= length first <= 3)%nat
    /\ Forall (fun g => length g = 3%nat) rest
    /\ first ++ concat rest = rev l.
Proof.
  induction l as [l IH] using (induction_ltof1 _ (@length Z)).
  unfold ltof in IH. intros Hne.
  destruct l as [|a [|b [|c [|d more]]]]; [contradiction| | | |].
  1-3: change (group3 ?y) with y;
    match goal with |- context [rev ?y] => exists (rev y), [] end;
    cbn; repeat split; try lia; constructor.
  rewrite group3_step.
  destruct (IH (d :: more)) as (first & rest & E & Hf & Hr & Hc);
    [cbn [length]; lia|discriminate|].
  exists first, (rest ++ [[c; b; a]]).
  split; [|split; [exact Hf|split]].
  - change (a :: b :: c :: 44 :: group3 (d :: more))
      with ([a; b; c; 44] ++ group3 (d :: more)).
    rewrite rev_app_distr, E, flat_map_app. cbn. now rewrite <- app_assoc.
  - apply Forall_app. split; [exact Hr|]. now repeat constructor.
  - change (a :: b :: c :: d :: more) with ([a; b; c] ++ d :: more).
    rewrite rev_app_distr, <- Hc, concat_app. cbn.
    now rewrite <- !app_assoc.
Qed.

Lemma comma_to_dot_digits l : Forall is_digit l -> comma_to_dot l = l.
Proof.
  unfold comma_to_dot. induction 1 as [|x l Hx _ IH]; [reflexivity|].
  cbn [map]. rewrite IH. unfold is_digit in Hx.
  replace (x =? 44) with false by (symmetry; apply Z.eqb_neq; lia).
  reflexivity.
Qed.

Lemma comma_to_dot_groups rest :
  Forall is_digit (concat rest) ->
  comma_to_dot (flat_map (fun g => 44 :: g) rest)
  = flat_map (fun g => 46 :: g) rest.
Proof.
  induction rest as [|g rest IH]; [reflexivity|]. cbn [concat flat_map].
  intros H. apply Forall_app in H as [Hg Hr].
  unfold comma_to_dot in *. rewrite map_app. cbn [map app].
  change (44 =? 44) with true. cbv iota.
  rewrite (IH Hr). f_equal. f_equal. apply (comma_to_dot_digits g Hg).
Qed.

(** The dotted form of an integer is its sign and its digits in groups
    of three. *)
Lemma format_int_comma_grouped n :
  dot_grouped (if n <? 0 then [45] else []) (decimal (Z.abs n))
              (comma_to_dot (format_int_comma n)).
Proof.
  unfold format_int_comma, grouped.
  destruct (group3_groups (rev (decimal (Z.abs n))))
    as (first & rest & E & Hf & Hr & Hc).
  { intros H. apply (f_equal (@rev Z)) in H. rewrite rev_involutive in H.
    exact (decimal_nonempty _ H). }
  rewrite rev_involutive in Hc.
  pose proof (decimal_digits (Z.abs n)) as D. rewrite <- Hc in D.
  apply Forall_app in D as [D1 D2].
  exists first, rest. split; [|split; [exact Hf|split; [exact Hr|exact Hc]]].
  rewrite E. unfold comma_to_dot. rewrite !map_app.
  fold (comma_to_dot first).
  fold (comma_to_dot (flat_map (fun g => 44 :: g) rest)).
  rewrite (comma_to_dot_digits first D1), (comma_to_dot_groups rest D2).
  f_equal. now destruct (n <? 0).
Qed.
End DigitFacts.

Section FormatterFacts.
Context `{R : runtime}.

Lemma try_except_ok {A} (body : result A) (a : A) :
  exists b, try_except body (Ok a) = Ok b.
Proof. destruct body; cbn; eauto. Qed.

Lemma format_int_ok value : exists s, format_int value = Ok s.
Proof.
  unfold format_int. destruct (isna value || is_empty_str value); [eauto|].
  apply try_except_ok.
Qed.

Lemma format_currency_ok value : exists s, format_currency value = Ok s.
Proof.
  unfold format_currency. destruct (isna value || is_empty_str value); [eauto|].
  apply try_except_ok.
Qed.

Lemma format_date_ok value fmt : exists s, format_date value fmt = Ok s.
Proof.
  unfold format_date. destruct (isna value); [eauto|].
  destruct value; try apply try_except_ok. eauto.
Qed.

Lemma is_empty_str_spec value : is_empty_str value = true <-> value = PStr [].
Proof.
  destruct value as [| | |[|c s]|]; cbn; split; intros H;
    try discriminate; try reflexivity.
Qed.

Lemma format_int_blank value :
  isna value = true \/ value = PStr [] -> format_int value = Ok [].
Proof.
  intros [H| ->]; unfold format_int; [now rewrite H|].
  reflexivity.
Qed.

Lemma format_int_unfold value :
  isna value = false -> value <> PStr [] ->
  format_int value
  = try_except (f ← float_of value; n ← py_round f;
                Ok (comma_to_dot (format_int_comma n)))
               (Ok (str value)).
Proof.
  intros Hn He. unfold format_int. rewrite Hn.
  destruct (is_empty_str value) eqn:E; [|reflexivity].
  apply is_empty_str_spec in E. contradiction.
Qed.
End FormatterFacts.

(** C6, as the claim is stated, fails: what [round] rounds is [float] of
    the value, the binary64 number nearest to it, and not the value; for
    the integer 2^53 + 1 the text has the digits of 2^53. *)
Lemma format_int_large_counterexample :
  @format_int plain_runtime (PInt 9007199254740993)
  = Ok (py "9.007.199.254.740.992")
  /\ no_dots (py "9.007.199.254.740.992") = str_int (2 ^ 53)
  /\ str_int 9007199254740993 = py "9007199254740993".
Proof. repeat split; vm_compute; reflexivity. Qed.

(** C6, amended: [format_int] never raises; it gives the empty string for a
    missing or empty value; for a value of which [float], the binary64
    number nearest to the value, is finite it gives an integer nearest to
    that number: its sign and its digits in groups of three from the
    right with a dot between two groups and no comma; for every other
    value it gives [str(value)]. *)
Theorem format_int_total `{R : runtime} (value : pyval) :
  (exists s, format_int value = Ok s)
  /\ (isna value = true \/ value = PStr [] -> format_int value = Ok [])
  /\ (forall f n, isna value = false -> value <> PStr [] ->
        float_of value = Ok f -> py_round f = Ok n ->
        format_int value = Ok (comma_to_dot (format_int_comma n))
        /\ nearest_integer f n
        /\ ~ In 44 (comma_to_dot (format_int_comma n))
        /\ no_dots (comma_to_dot (format_int_comma n)) = str_int n
        /\ dot_grouped (if n <? 0 then [45] else []) (decimal (Z.abs n))
                       (comma_to_dot (format_int_comma n)))
  /\ (isna value = false -> value <> PStr [] ->
      (forall f n, float_of value = Ok f -> py_round f <> Ok n) ->
      format_int value = Ok (str value))
  /\ format_int (PInt 1234567) = Ok (py "1.234.567")
  /\ format_int (PInt (-1234)) = Ok (py "-1.234")
  /\ format_int (PFloat (dyadic 19999 (-1))) = Ok (py "10.000").
Proof.
  split; [apply format_int_ok|].
  split; [apply format_int_blank|].
  split.
  { intros f n Hn He Hf Hr. rewrite (format_int_unfold _ Hn He), Hf.
    cbn. rewrite Hr. cbn.
    split; [reflexivity|]. split; [now apply py_round_nearest|].
    split; [apply dotted_int|]. split; [apply dotted_int|].
    apply format_int_comma_grouped. }
  split.
  { intros Hn He Hnone. rewrite (format_int_unfold _ Hn He).
    destruct (float_of value) as [f|e] eqn:Hf; cbn; [|reflexivity].
    destruct (py_round f) as [n|e] eqn:Hr; cbn; [|reflexivity].
    exfalso. exact (Hnone f n eq_refl Hr). }
  repeat split; vm_compute; reflexivity.
Qed.

(** C10: a value that [float] reads as a number exactly halfway between
    two integers is rounded to the even one of the two, so [format_int(2.5)]
    is ["2"] and [format_int(3.5)] is ["4"]. *)
Theorem format_int_half_even `{R : runtime} (value : pyval) (s : bool)
    (m : positive) (e q : Z)
    (Hv : value <> PStr [])
    (Hf : float_of value = Ok (S754_finite s m e))
    (H : halfway (S754_finite s m e) q) :
  let n := if Z.even q then q else q + 1 in
  format_int value = Ok (comma_to_dot (format_int_comma (if s then - n else n)))
  /\ Z.even n = true
  /\ format_int (PFloat (dyadic 5 (-1))) = Ok (py "2")
  /\ format_int (PFloat (dyadic 7 (-1))) = Ok (py "4")
  /\ format_int (PFloat (dyadic (-5) (-1))) = Ok (py "-2").
Proof.
  destruct H as [He Hm]. cbv zeta.
  split.
  { rewrite format_int_unfold; [|destruct value as [| |[]| |]; cbn in *; congruence|exact Hv].
    rewrite Hf. cbn. now rewrite (round_half_even_tie m e q He Hm). }
  split.
  { destruct (Z.even q) eqn:E; [exact E|].
    rewrite Z.even_add, E. reflexivity. }
  repeat split; vm_compute; reflexivity.
Qed.

Lemma format_int_half_even_witness :
  halfway (S754_finite false 5 (-1)) 2
  /\ @format_int plain_runtime (PFloat (S754_finite false 5 (-1))) = Ok (py "2").
Proof.
  assert (H : halfway (S754_finite false 5 (-1)) 2) by (split; [lia|reflexivity]).
  split; [exact H|].
  refine (proj1 (@format_int_half_even plain_runtime
                   (PFloat (S754_finite false 5 (-1))) false 5%positive (-1) 2
                   _ eq_refl H)).
  discriminate.
Defined.

(** ** Column resolution *)

Section PickColFacts.
Context `{U : unicode_data}.

Lemma fold_available_lookup (columns : list label) (m : gmap pystr pystr)
    (k : pystr) :
  fold_left
    (fun m c =>
       match c with
       | LStr s => <[normalize_key s := s]> m
       | LNum _ => m
       end) columns m !! k
  = match last_with_key k columns with
    | Some s => Some s
    | None => m !! k
    end.
Proof.
  revert m; induction columns as [|c rest IH]; intros m; [reflexivity|].
  cbn [fold_left last_with_key]. rewrite IH.
  destruct (last_with_key k rest); [reflexivity|].
  destruct c as [s|z]; [|reflexivity].
  rewrite lookup_insert. destruct (decide (normalize_key s = k)); reflexivity.
Qed.

Lemma available_columns_lookup (columns : list label) (k : pystr) :
  available_columns columns !! k = last_with_key k columns.
Proof.
  unfold available_columns. rewrite fold_available_lookup, lookup_empty.
  now destruct (last_with_key k columns).
Qed.

Lemma last_with_key_Some k columns c :
  last_with_key k columns = Some c ->
  exists l1 l2, columns = l1 ++ LStr c :: l2 /\ normalize_key c = k
    /\ forall c', In (LStr c') l2 -> normalize_key c' <> k.
Proof.
  revert c; induction columns as [|x rest IH]; intros c; [discriminate|].
  cbn [last_with_key].
  destruct (last_with_key k rest) as [s|] eqn:E.
  - intros [= ->]. destruct (IH c eq_refl) as (l1 & l2 & -> & Hk & Hl).
    exists (x :: l1), l2. auto.
  - destruct x as [s|z]; [|discriminate].
    destruct (decide (normalize_key s = k)) as [Hk|]; [|discriminate].
    intros [= ->]. exists [], rest. repeat split; try assumption.
    intros c' Hin Hc'. clear IH.
    induction rest as [|y rest IH]; [contradiction|].
    cbn [last_with_key] in E.
    destruct (last_with_key k rest); [discriminate|].
    destruct Hin as [->|Hin]; [|now apply IH].
    destruct (decide (normalize_key c' = k)); [discriminate|contradiction].
Qed.

Lemma last_with_key_None k columns :
  last_with_key k columns = None ->
  forall c', In (LStr c') columns -> normalize_key c' <> k.
Proof.
  induction columns as [|x rest IH]; [intros _ c' []|].
  cbn [last_with_key]. destruct (last_with_key k rest); [discriminate|].
  intros E c' [->|Hin]; [|now apply IH].
  destruct (decide (normalize_key c' = k)); [discriminate|assumption].
Qed.

Lemma first_available_Some available candidates c :
  first_available available candidates = Some c ->
  exists pre cand post, candidates = pre ++ cand :: post
    /\ (forall p, In p pre -> available !! normalize_key p = None)
    /\ available !! normalize_key cand = Some c.
Proof.
  induction candidates as [|x rest IH]; [discriminate|].
  cbn [first_available].
  destruct (available !! normalize_key x) as [y|] eqn:E.
  - intros [= ->]. exists [], x, rest. repeat split; [intros p []|exact E].
  - intros H. destruct (IH H) as (pre & cand & post & -> & Hpre & Hc).
    exists (x :: pre), cand, post. repeat split; [|exact Hc].
    intros p [<-|Hin]; [exact E|now apply Hpre].
Qed.

Lemma first_available_None available candidates :
  first_available available candidates = None ->
  forall cand, In cand candidates -> available !! normalize_key cand = None.
Proof.
  induction candidates as [|x rest IH]; [intros _ cand []|].
  cbn [first_available].
  destruct (available !! normalize_key x) eqn:E; [discriminate|].
  intros H cand [<-|Hin]; [exact E|now apply IH].
Qed.

(** A column that [pick_col] returns is a text column of the frame. *)
Lemma pick_col_column df candidates c :
  pick_col df candidates = Some c -> In (LStr c) (df_columns df).
Proof.
  unfold pick_col. intros H.
  apply first_available_Some in H as (_ & cand & _ & _ & _ & H).
  rewrite available_columns_lookup in H.
  apply last_with_key_Some in H as (l1 & l2 & -> & _).
  apply in_or_app. right. now left.
Qed.

(** When a column has the key of a candidate, [pick_col] finds a column. *)
Lemma pick_col_found df candidates cand c :
  In cand candidates -> In (LStr c) (df_columns df) ->
  normalize_key c = normalize_key cand ->
  pick_col df candidates <> None.
Proof.
  intros Hc Hin Hk H. unfold pick_col in H.
  pose proof (first_available_None _ _ H cand Hc) as E.
  rewrite available_columns_lookup in E.
  exact (last_with_key_None _ _ E c Hin Hk).
Qed.
End PickColFacts.

(** C4: [pick_col] returns the column matched by the first candidate, in the
    order of the candidates, whose normalized name is the normalized name
    of some text column (the last such column, when several have that key),
    and returns nothing when no candidate matches a column; with columns
    ["SoLuong"], ["Tên hàng"] and candidates ["Tên hàng"], ["Ten hang"] it
    returns ["Tên hàng"]. *)
Theorem pick_col_earliest_candidate `{U : unicode_data}
    (df : dataframe) (candidates : list pystr) :
  match pick_col df candidates with
  | Some c =>
      exists pre cand post l1 l2,
        candidates = pre ++ cand :: post
        /\ (forall p c', In p pre -> In (LStr c') (df_columns df) ->
              normalize_key c' <> normalize_key p)
        /\ df_columns df = l1 ++ LStr c :: l2
        /\ normalize_key c = normalize_key cand
        /\ (forall c', In (LStr c') l2 -> normalize_key c' <> normalize_key cand)
  | None =>
      forall cand c', In cand candidates -> In (LStr c') (df_columns df) ->
        normalize_key c' <> normalize_key cand
  end
  /\ @pick_col ucd14
       {| df_columns := [LStr (py "SoLuong"); LStr (py "Tên hàng")]; df_rows := [] |}
       [py "Tên hàng"; py "Ten hang"]
     = Some (py "Tên hàng").
Proof.
  split; [|vm_compute; reflexivity].
  destruct (pick_col df candidates) as [c|] eqn:E; unfold pick_col in E.
  - apply first_available_Some in E as (pre & cand & post & -> & Hpre & Hc).
    rewrite available_columns_lookup in Hc.
    apply last_with_key_Some in Hc as (l1 & l2 & Hcols & Hk & Hlast).
    exists pre, cand, post, l1, l2. repeat split; try assumption.
    intros p c' Hp Hin. specialize (Hpre p Hp).
    rewrite available_columns_lookup in Hpre.
    exact (last_with_key_None _ _ Hpre c' Hin).
  - intros cand c' Hc Hin.
    pose proof (first_available_None _ _ E cand Hc) as H.
    rewrite available_columns_lookup in H.
    exact (last_with_key_None _ _ H c' Hin).
Qed.

(** ** The goods table *)

(** C9: for no goods lines (no frame, or a frame without rows) the fragment
    is one paragraph with the empty-state text, and no table. *)
Theorem build_goods_table_empty `{U : unicode_data} `{R : runtime}
    (doc : docx_template) (columns : list label) :
  build_goods_table_subdoc doc None
  = Ok {| sd_doc := doc; sd_blocks := [Paragraph (py "Không có hàng hoá.")] |}
  /\ build_goods_table_subdoc doc (Some {| df_columns := columns; df_rows := [] |})
     = Ok {| sd_doc := doc; sd_blocks := [Paragraph (py "Không có hàng hoá.")] |}
  /\ build_goods_table_subdoc doc (Some empty_frame)
     = Ok {| sd_doc := doc; sd_blocks := [Paragraph (py "Không có hàng hoá.")] |}.
Proof.
  repeat split; try reflexivity.
  unfold build_goods_table_subdoc, df_empty. cbn [df_columns df_rows].
  now destruct columns.
Qed.

(** ** Sheet resolution *)

Section SheetFacts.
Context `{U : unicode_data} `{R : runtime}.

Lemma normalize_key_nil : normalize_key [] = [].
Proof. reflexivity. Qed.

Lemma scan_sheet_hoso w s :
  hoso (scan_sheet w s)
  = match hoso w with
    | Some x => Some x
    | None => if matches_profile (normalize_key s) then Some s else None
    end.
Proof.
  unfold scan_sheet, matches_profile.
  generalize (str_contains (py "hoso") (normalize_key s)).
  generalize (str_contains (py "hanghoa") (normalize_key s)).
  generalize (str_contains (py "hanghoá") (normalize_key s)).
  generalize (str_contains (py "hanghoà") (normalize_key s)).
  generalize (str_contains (py "hang") (normalize_key s)).
  generalize (str_contains (py "hoa") (normalize_key s)).
  intros b1 b2 b3 b4 b5 b6.
  destruct w as [[h|] [g|]], b1, b2, b3, b4, b5, b6; reflexivity.
Qed.

Lemma scan_sheet_hanghoa w s :
  hanghoa (scan_sheet w s)
  = match hanghoa w with
    | Some x => Some x
    | None => if matches_goods (normalize_key s) then Some s else None
    end.
Proof.
  unfold scan_sheet, matches_goods.
  generalize (str_contains (py "hoso") (normalize_key s)).
  generalize (str_contains (py "hanghoa") (normalize_key s)).
  generalize (str_contains (py "hanghoá") (normalize_key s)).
  generalize (str_contains (py "hanghoà") (normalize_key s)).
  generalize (str_contains (py "hang") (normalize_key s)).
  generalize (str_contains (py "hoa") (normalize_key s)).
  intros b1 b2 b3 b4 b5 b6.
  destruct w as [[h|] [g|]], b1, b2, b3, b4, b5, b6; reflexivity.
Qed.

(** Each category goes to the first sheet, in workbook order, that passes
    its test. *)
Lemma fold_scan_hoso names w :
  hoso (fold_left scan_sheet names w)
  = match hoso w with
    | Some x => Some x
    | None => List.find (fun s => matches_profile (normalize_key s)) names
    end.
Proof.
  revert w; induction names as [|s names IH]; intros w; cbn [fold_left List.find].
  - now destruct (hoso w).
  - rewrite IH, scan_sheet_hoso. destruct (hoso w); [reflexivity|].
    now destruct (matches_profile (normalize_key s)).
Qed.

Lemma fold_scan_hanghoa names w :
  hanghoa (fold_left scan_sheet names w)
  = match hanghoa w with
    | Some x => Some x
    | None => List.find (fun s => matches_goods (normalize_key s)) names
    end.
Proof.
  revert w; induction names as [|s names IH]; intros w; cbn [fold_left List.find].
  - now destruct (hanghoa w).
  - rewrite IH, scan_sheet_hanghoa. destruct (hanghoa w); [reflexivity|].
    now destruct (matches_goods (normalize_key s)).
Qed.

Lemma find_none {A} (p : A -> bool) l :
  (forall x, In x l -> p x = false) -> List.find p l = None.
Proof.
  induction l as [|x l IH]; [reflexivity|]. intros H. cbn [List.find].
  rewrite (H x) by now left. apply IH. intros y Hy. apply H. now right.
Qed.

Lemma find_sheet_names_unresolved names :
  (forall s, In s names -> matches_profile (normalize_key s) = false)
  \/ (forall s, In s names -> matches_goods (normalize_key s) = false) ->
  find_sheet_names names = Raise (Exn ValueError (missing_sheets_message names)).
Proof.
  intros H. unfold find_sheet_names.
  rewrite fold_scan_hoso, fold_scan_hanghoa. cbn [hoso hanghoa].
  destruct H as [H|H]; rewrite (find_none _ _ H); cbn [falsy orb].
  - reflexivity.
  - now rewrite orb_true_r.
Qed.

Lemma str_join_In sep parts x :
  In x parts -> exists a b, str_join sep parts = a ++ x ++ b.
Proof.
  induction parts as [|p rest IH]; [intros []|].
  intros [->|Hin].
  - destruct rest as [|q rest].
    + exists [], []. cbn [str_join]. now rewrite app_nil_r.
    + exists [], (sep ++ str_join sep (q :: rest)). reflexivity.
  - destruct rest as [|q rest]; [destruct Hin|].
    destruct (IH Hin) as (a & b & E).
    exists (p ++ sep ++ a), b.
    change (str_join sep (p :: q :: rest)) with (p ++ sep ++ str_join sep (q :: rest)).
    rewrite E. now rewrite <- !app_assoc.
Qed.

(** The message names every sheet of the workbook. *)
Lemma missing_sheets_message_lists names s :
  In s names ->
  exists a b, missing_sheets_message names = a ++ repr_str s ++ b.
Proof.
  intros Hin. unfold missing_sheets_message, repr_list.
  destruct (str_join_In (py ", ") (map repr_str names) (repr_str s)) as (a & b & E).
  { now apply in_map. }
  rewrite E.
  exists (py "Không tìm thấy đủ 2 sheet trong file Excel: " ++ py "[" ++ a), (b ++ py "]").
  now rewrite <- !app_assoc.
Qed.

Lemma length_insert_sorted p l :
  length (insert_sorted p l) = S (length l).
Proof.
  induction l as [|q l IH]; [reflexivity|]. cbn [insert_sorted].
  destruct (path_leb q p); cbn [length]; [now rewrite IH|reflexivity].
Qed.

Lemma length_sorted l : length (sorted l) = length l.
Proof.
  unfold sorted.
  assert (H : forall acc, length (fold_left (fun acc p => insert_sorted p acc) l acc)
                          = (length l + length acc)%nat).
  { induction l as [|p l IH]; intros acc; cbn [fold_left length]; [reflexivity|].
    rewrite IH, length_insert_sorted. lia. }
  rewrite H. cbn [length]. lia.
Qed.

Lemma saved_files_app w1 w2 :
  saved_files (w1 ++ w2) = saved_files w1 ++ saved_files w2.
Proof. unfold saved_files. apply bind_app. Qed.

(** When the sheets are not found [main] raises, and saves no document. *)
Lemma main_unresolved env w :
  find_sheet_names (sheet_names (excel env))
  = Raise (Exn ValueError (missing_sheets_message (sheet_names (excel env)))) ->
  exists e, (main env w).2 = Raise e
    /\ saved_files (main env w).1 = saved_files w
    /\ (excel_exists env = true -> template_dir_exists env = true ->
        template_files env <> [] ->
        e = Exn ValueError (missing_sheets_message (sheet_names (excel env)))).
Proof.
  intros Hf. unfold main.
  cbv [mbind io_mbind io_bind io_ret io_raise io_emit io_lift].
  destruct (excel_exists env); cbn [negb].
  2:{ eexists. split; [reflexivity|]. split; [reflexivity|]. discriminate. }
  destruct (template_dir_exists env); cbn [negb].
  2:{ eexists. split; [reflexivity|]. split; [reflexivity|]. discriminate. }
  destruct (length (sorted (template_files env)) =? 0)%nat eqn:El.
  { eexists. split; [reflexivity|]. split.
    - cbn [fst]. rewrite saved_files_app. cbn. now rewrite app_nil_r.
    - intros _ _ Hne. apply Nat.eqb_eq in El. rewrite length_sorted in El.
      destruct (template_files env); [contradiction|discriminate]. }
  unfold read_excel_data. rewrite Hf. cbn.
  eexists. split; [reflexivity|]. split; [|reflexivity].
  rewrite !saved_files_app. cbn. now rewrite !app_nil_r.
Qed.
End SheetFacts.

(** C7: when no sheet name passes the test of the profile sheet, or none
    passes the test of the goods sheet, [find_sheet_names] raises an error
    whose message holds the [repr] of every sheet name, and [main] stops
    with an error without saving any document. *)
Theorem find_sheet_names_missing `{U : unicode_data} `{R : runtime}
    (names : list pystr)
    (H : (forall s, In s names -> matches_profile (normalize_key s) = false)
         \/ (forall s, In s names -> matches_goods (normalize_key s) = false)) :
  find_sheet_names names = Raise (Exn ValueError (missing_sheets_message names))
  /\ (forall s, In s names ->
        exists a b, missing_sheets_message names = a ++ repr_str s ++ b)
  /\ (forall env w, sheet_names (excel env) = names ->
        exists e, (main env w).2 = Raise e
          /\ saved_files (main env w).1 = saved_files w
          /\ (excel_exists env = true -> template_dir_exists env = true ->
              template_files env <> [] ->
              e = Exn ValueError (missing_sheets_message names))).
Proof.
  split; [now apply find_sheet_names_unresolved|].
  split; [intros s; apply missing_sheets_message_lists|].
  intros env w <-. apply main_unresolved.
  now apply find_sheet_names_unresolved.
Qed.

Lemma find_sheet_names_missing_witness :
  @find_sheet_names ucd14 plain_runtime [py "Sheet1"; py "Sheet2"]
  = Raise (Exn ValueError
             (py "Không tìm thấy đủ 2 sheet trong file Excel: ['Sheet1', 'Sheet2']")).
Proof.
  refine (proj1 (@find_sheet_names_missing ucd14 plain_runtime
                   [py "Sheet1"; py "Sheet2"] _)).
  left. intros s [<-|[<-|[]]]; vm_compute; reflexivity.
Defined.

(** ** The table fragment and the rendering of one customer *)

Section BuilderFacts.
Context `{U : unicode_data} `{R : runtime}.

Lemma text_of_ok (r : result pystr) : (exists s, r = Ok s) -> r = Ok (text_of r).
Proof. intros [s ->]. reflexivity. Qed.

Lemma mapM_ok {A B} (f : A -> result B) (g : A -> B) l :
  (forall x, f x = Ok (g x)) -> mapM f l = Ok (map g l).
Proof.
  intros H. induction l as [|x l IH]; [reflexivity|].
  cbn [mapM map]. rewrite H. cbn. rewrite IH. reflexivity.
Qed.

Lemma goods_row_ok cm r : goods_row cm r = Ok (goods_row_cells cm r).
Proof.
  unfold goods_row, goods_row_cells.
  rewrite (text_of_ok _ (format_int_ok (row_field r (soluong cm)))).
  rewrite (text_of_ok _ (format_currency_ok (row_field r (dongia cm)))).
  rewrite (text_of_ok _ (format_currency_ok (row_field r (thanhtien cm)))).
  reflexivity.
Qed.

Lemma fold_add_row rows t :
  fold_left add_row rows t
  = {| tbl_style := tbl_style t; tbl_rows := tbl_rows t ++ rows |}.
Proof.
  revert t; induction rows as [|r rows IH]; intros [style trows]; cbn [fold_left].
  - cbn. now rewrite app_nil_r.
  - rewrite IH. cbn. now rewrite <- app_assoc.
Qed.

Lemma header_table_rows :
  header_table = {| tbl_style := py "Table Grid"; tbl_rows := [headers] |}.
Proof. reflexivity. Qed.

(** The fragment never fails to build, and its blocks do not depend on
    the template it is built for. *)
Lemma build_goods_table_subdoc_blocks doc items_df :
  build_goods_table_subdoc doc items_df
  = Ok {| sd_doc := doc; sd_blocks := goods_blocks items_df |}.
Proof.
  unfold build_goods_table_subdoc, goods_blocks, goods_table.
  destruct items_df as [items|]; [|reflexivity].
  destruct (df_empty items); [reflexivity|].
  destruct (derive_total items (pick_columns items)) as [working cm].
  rewrite (mapM_ok _ _ _ (goods_row_ok cm)). cbn [mbind result_bind].
  rewrite fold_add_row, header_table_rows. reflexivity.
Qed.

Lemma build_context_ok doc customer_row items_df :
  build_context_for_customer doc customer_row items_df
  = Ok (context_of doc customer_row items_df).
Proof.
  unfold build_context_for_customer, context_of.
  rewrite (text_of_ok _ (format_date_ok (val customer_row (py "Ngày sinh"))
                                        (py "%d/%m/%Y"))).
  cbn. rewrite build_goods_table_subdoc_blocks. reflexivity.
Qed.

Lemma io_for_effects {A} (l : list A) (body : A -> io unit)
    (effects : A -> list effect) w :
  (forall x w', body x w' = (w' ++ effects x, Ok tt)) ->
  io_for l body w = (w ++ flat_map effects l, Ok tt).
Proof.
  intros H. revert w; induction l as [|x l IH]; intros w; cbn [io_for flat_map].
  - unfold io_ret. now rewrite app_nil_r.
  - cbv [mbind io_mbind io_bind]. rewrite H, IH. now rewrite <- app_assoc.
Qed.

(** The effects of [render_templates_for_customer]: the folder, then a
    saved document and a printed line for every template, in order. *)
Lemma render_templates_effects templates output_root customer_row items_all w :
  render_templates_for_customer templates output_root customer_row items_all w
  = (w ++ Mkdir (path_div output_root
                   (folder_name (row_get_default customer_row (py "Mã KH"))
                                (row_get_default customer_row (py "Họ tên"))))
       :: flat_map (template_effects output_root customer_row items_all) templates,
     Ok tt).
Proof.
  unfold render_templates_for_customer.
  cbv [mbind io_mbind io_bind io_emit].
  erewrite io_for_effects.
  - rewrite <- app_assoc. reflexivity.
  - intros tpl w'. cbv [mbind io_mbind io_bind io_emit io_lift].
    rewrite build_context_ok. unfold template_effects.
    rewrite <- app_assoc. reflexivity.
Qed.

Lemma render_build_once_effects maker templates output_root customer_row
    items_all w :
  render_customer_build_once maker templates output_root customer_row items_all w
  = (w ++ Mkdir (path_div output_root
                   (folder_name (row_get_default customer_row (py "Mã KH"))
                                (row_get_default customer_row (py "Họ tên"))))
       :: flat_map (template_effects_owned maker output_root customer_row items_all)
                   templates,
     Ok tt).
Proof.
  unfold render_customer_build_once.
  cbv [mbind io_mbind io_bind io_emit io_lift].
  rewrite build_goods_table_subdoc_blocks.
  erewrite io_for_effects.
  - rewrite <- app_assoc. reflexivity.
  - intros tpl w'. cbv [mbind io_mbind io_bind io_emit io_lift].
    unfold context_with_fragment.
    rewrite (text_of_ok _ (format_date_ok (val customer_row (py "Ngày sinh"))
                                          (py "%d/%m/%Y"))).
    cbn [mbind result_bind]. unfold template_effects_owned.
    rewrite <- app_assoc. reflexivity.
Qed.

(** The owner of the fragment does not show. *)
Lemma show_template_effects_owned owner owner' output_root customer_row
    items_all tpl :
  map show (template_effects_owned owner output_root customer_row items_all tpl)
  = map show (template_effects_owned owner' output_root customer_row items_all tpl).
Proof. reflexivity. Qed.
End BuilderFacts.

(** C1: for a customer row with distinct labels and a goods frame with
    distinct column names (a field of a row is then one cell), the blocks
    of the table fragment do not depend on the template it is built for;
    every document saved for a customer holds the same blocks; and
    rebuilding the fragment for every template, as
    [render_templates_for_customer] does, shows the same as building it
    once and reusing it. *)
Theorem render_templates_build_once `{U : unicode_data} `{R : runtime}
    (maker : docx_template) (templates : list path) (output_root : path)
    (customer_row : series_row) (items_all : option dataframe)
    (w : list effect)
    (Hrow : NoDup (map fst customer_row))
    (Hcols : forall all, items_all = Some all -> NoDup (df_columns all)) :
  let run := render_templates_for_customer templates output_root customer_row
               items_all w in
  let once := render_customer_build_once maker templates output_root
                customer_row items_all w in
  let items_df := filter_items items_all
                    (row_get_default customer_row (py "Mã KH")) in
  (forall doc items,
      (forall df, items = Some df -> NoDup (df_columns df)) ->
      build_goods_table_subdoc doc items
      = Ok {| sd_doc := doc; sd_blocks := goods_blocks items |})
  /\ (forall file doc ctx, In (Save file doc ctx) (drop (length w) run.1) ->
        In (py "BảngHàngHoá", inr (goods_blocks (Some items_df)))
           (map (fun kv => (kv.1, shown_value kv.2)) ctx))
  /\ map show run.1 = map show once.1
  /\ run.2 = once.2.
Proof.
  cbv zeta. split; [intros doc items _; apply build_goods_table_subdoc_blocks|].
  rewrite render_templates_effects, render_build_once_effects. cbn [fst snd].
  split; [|split; [|reflexivity]].
  - intros file doc ctx Hin. rewrite drop_app_length in Hin.
    destruct Hin as [Hin|Hin]; [discriminate|].
    apply in_flat_map in Hin as (tpl & _ & Hin).
    destruct Hin as [Hin|[Hin|[]]]; [|discriminate].
    injection Hin as _ _ <-. cbn. tauto.
  - rewrite !map_app. f_equal. cbn [map]. f_equal.
    induction templates as [|t ts IH]; [reflexivity|].
    cbn [flat_map]. rewrite !map_app, IH. f_equal.
Qed.

Lemma render_templates_build_once_witness :
  map show
    (@render_templates_for_customer ucd14 plain_runtime
       [path_of_str (py "/t/A.docx"); path_of_str (py "/t/B.docx")]
       (path_of_str (py "/out"))
       [(LStr (py "Mã KH"), PStr (py "001"));
        (LStr (py "Họ tên"), PStr (py "Nguyễn Văn A"))]
       (Some scenario_goods) []).1
  = map show
      (@render_customer_build_once ucd14 plain_runtime
         {| tpl_file := py "/t/A.docx" |}
         [path_of_str (py "/t/A.docx"); path_of_str (py "/t/B.docx")]
         (path_of_str (py "/out"))
         [(LStr (py "Mã KH"), PStr (py "001"));
          (LStr (py "Họ tên"), PStr (py "Nguyễn Văn A"))]
         (Some scenario_goods) []).1.
Proof.
  pose proof (@render_templates_build_once ucd14 plain_runtime
                {| tpl_file := py "/t/A.docx" |}
                [path_of_str (py "/t/A.docx"); path_of_str (py "/t/B.docx")]
                (path_of_str (py "/out"))
                [(LStr (py "Mã KH"), PStr (py "001"));
                 (LStr (py "Họ tên"), PStr (py "Nguyễn Văn A"))]
                (Some scenario_goods) []) as H.
  cbv zeta in H. apply H.
  - apply (bool_decide_unpack _). vm_compute. exact I.
  - intros all [= <-]. apply (bool_decide_unpack _). vm_compute. exact I.
Defined.

(** ** File names *)

Lemma lookup_map {A B} (f : A -> B) (l : list A) (i : nat) :
  map f l !! i = f <$> (l !! i).
Proof. revert i; induction l as [|x l IH]; intros [|i]; cbn; auto. Qed.

Section SafeFilenameFacts.
Context `{U : unicode_data}.

Lemma safe_char_spec ch :
  safe_char ch = if uc_isalnum ch || bool_decide (In ch keep) then ch else 95.
Proof.
  unfold safe_char. destruct (uc_isalnum ch); [reflexivity|]. cbn [orb].
  destruct (existsb (Z.eqb ch) keep) eqn:E.
  - apply existsb_exists in E as (x & Hx & Ex). apply Z.eqb_eq in Ex as <-.
    now rewrite bool_decide_eq_true_2.
  - rewrite bool_decide_eq_false_2; [reflexivity|].
    intros Hin. apply not_true_iff_false in E. apply E.
    apply existsb_exists. exists ch. split; [exact Hin|apply Z.eqb_refl].
Qed.

Lemma safe_char_allowed ch :
  uc_isalnum (safe_char ch) = true \/ In (safe_char ch) keep.
Proof.
  rewrite safe_char_spec.
  destruct (uc_isalnum ch) eqn:E; [now left|]. cbn [orb].
  destruct (bool_decide (In ch keep)) eqn:K.
  - right. now apply bool_decide_eq_true in K.
  - right. vm_compute. tauto.
Qed.
End SafeFilenameFacts.

(** C8: [safe_filename] keeps a character that is alphanumeric or one of
    [-_.() []] and puts an underscore for any other, so ["A/B:C"] becomes
    ["A_B_C"] and ["Nguyễn Văn A"] stays as it is; the folder of a customer
    and the name of every saved file are made of [safe_filename] of the
    customer id and [safe_filename] of the customer name. *)
Theorem safe_filename_sanitizes `{U : unicode_data} `{R : runtime}
    (text : pystr) (templates : list path) (output_root : path)
    (customer_row : series_row) (items_all : option dataframe)
    (w : list effect) :
  let id := str (row_get_default customer_row (py "Mã KH")) in
  let name := str (row_get_default customer_row (py "Họ tên")) in
  let folder :=
    path_div output_root
      (strip_by (Z.eqb 95) (safe_filename id ++ py "_" ++ safe_filename name)) in
  length (safe_filename text) = length text
  /\ (forall i ch, text !! i = Some ch ->
        safe_filename text !! i
        = Some (if uc_isalnum ch || bool_decide (In ch (py "-_.() []"))
                then ch else 95))
  /\ Forall (fun ch => uc_isalnum ch = true \/ In ch (py "-_.() []"))
            (safe_filename text)
  /\ @safe_filename ucd14 (py "A/B:C") = py "A_B_C"
  /\ @safe_filename ucd14 (py "Nguyễn Văn A") = py "Nguyễn Văn A"
  /\ (forall e,
        In e (drop (length w)
                (render_templates_for_customer templates output_root
                   customer_row items_all w).1) ->
        match e with
        | Mkdir dir => dir = folder
        | Save file _ _ =>
            exists tpl, In tpl templates
              /\ file = path_div folder
                          (path_stem tpl ++ py "__" ++ safe_filename id ++ py ".docx")
        | Print _ => True
        end).
Proof.
  cbv zeta. split; [apply length_map|].
  split.
  { intros i ch Hi. unfold safe_filename, pystr in *.
    rewrite lookup_map, Hi. cbn. f_equal. apply safe_char_spec. }
  split.
  { unfold safe_filename. apply List.Forall_forall. intros ch Hin.
    apply in_map_iff in Hin as (c & <- & _). apply safe_char_allowed. }
  split; [vm_compute; reflexivity|].
  split; [vm_compute; reflexivity|].
  intros e Hin. rewrite render_templates_effects in Hin. cbn [fst] in Hin.
  rewrite drop_app_length in Hin. destruct Hin as [<-|Hin]; [reflexivity|].
  apply in_flat_map in Hin as (tpl & Ht & [<-|[<-|[]]]); [|exact I].
  exists tpl. split; [exact Ht|reflexivity].
Qed.

(** ** The derived line total *)

Section FloatFacts.







End FloatFacts.

Section SeriesFacts.
Context `{R : runtime}.

Lemma mapM_as_int64 cells :
  mapM as_int64 (map cell_number cells)
  = if int_column cells
    then Some (map (fun v => default 0 (int_operand v)) cells)
    else None.
Proof.
  induction cells as [|v cells IH]; [reflexivity|].
  cbn [map mapM int_column forallb]. fold (int_column cells).
  destruct (int_operand v) as [z|] eqn:Ez; unfold int_operand in Ez;
    rewrite Ez; cbn; [|reflexivity].
  rewrite IH. now destruct (int_column cells).
Qed.







Lemma length_series_cells_numeric cells :
  length (series_cells (fillna0 (to_numeric_coerce cells))) = length cells.
Proof.
  unfold to_numeric_coerce. rewrite mapM_as_int64.
  destruct (int_column cells); cbn; now rewrite !length_map.
Qed.
End SeriesFacts.

Section FrameFacts.

Lemma index_of_Some key ls i :
  index_of key ls = Some i -> (i < length ls)%nat /\ ls !! i = Some key.
Proof.
  revert i; induction ls as [|l ls IH]; intros i; cbn [index_of]; [discriminate|].
  destruct (decide (l = key)) as [->|].
  - intros [= <-]. cbn. split; [lia|reflexivity].
  - destruct (index_of key ls) as [j|]; [|discriminate].
    intros [= <-]. destruct (IH j eq_refl). cbn. split; [lia|assumption].
Qed.

Lemma index_of_In key ls : In key ls -> exists i, index_of key ls = Some i.
Proof.
  induction ls as [|l ls IH]; [intros []|]. cbn [index_of].
  destruct (decide (l = key)); [eauto|].
  intros [?|Hin]; [contradiction|]. destruct (IH Hin) as [i ->]. cbn. eauto.
Qed.



(** A cell of a row, found by its label. *)
Lemma row_get_zip key ls cells more i :
  index_of key ls = Some i -> length cells = length ls ->
  row_get (zip ls cells ++ more) key = cells !! i
  /\ row_has (zip ls cells ++ more) key = true
  /\ is_Some (cells !! i).
Proof.
  revert cells i; induction ls as [|l ls IH]; intros cells i; [discriminate|].
  destruct cells as [|c cells]; [discriminate|].
  cbn [index_of zip zip_with app row_get row_has existsb fst length].
  destruct (decide (l = key)) as [->|Hne].
  - intros [= <-] _. rewrite bool_decide_eq_true_2 by reflexivity.
    cbn. eauto.
  - destruct (index_of key ls) as [j|] eqn:E; [|discriminate].
    intros [= <-] [= Hlen].
    destruct (IH cells j eq_refl Hlen) as (Hg & Hh & Hs).
    rewrite bool_decide_eq_false_2 by exact Hne. cbn [orb].
    auto.
Qed.






Lemma length_df_column df key :
  In key (df_columns df) -> length (df_column df key) = length (df_rows df).
Proof.
  intros Hin. unfold df_column. destruct (index_of_In _ _ Hin) as [i ->].
  apply length_map.
Qed.

End FrameFacts.

Section DerivedTotal.
Context `{U : unicode_data} `{R : runtime}.






End DerivedTotal.





(** ** Required columns *)

Section RequiredColumns.
Context `{U : unicode_data} `{R : runtime}.

Lemma has_column_In df key :
  has_column df key = true <-> In key (df_columns df).
Proof.
  unfold has_column. rewrite bool_decide_eq_true. apply list_elem_of_In.
Qed.

Lemma check_required_cases df w :
  check_required df w
  = if has_column df (LStr (py "Mã KH")) then
      if has_column df (LStr (py "Họ tên")) then (w, Ok tt)
      else (w, Raise (Exn ValueError
                        (py "Sheet 'Hồ sơ' thiếu cột bắt buộc: " ++ py "Họ tên")))
    else (w, Raise (Exn ValueError
                      (py "Sheet 'Hồ sơ' thiếu cột bắt buộc: " ++ py "Mã KH"))).
Proof.
  unfold check_required, required_cols. cbn [io_for].
  cbv [mbind io_mbind io_bind io_ret io_raise].
  destruct (has_column df (LStr (py "Mã KH"))); cbn [negb]; [|reflexivity].
  destruct (has_column df (LStr (py "Họ tên"))); reflexivity.
Qed.
End RequiredColumns.

(** C2, as the claim is stated, fails: the headers ["Ma KH"] and ["Ho ten"]
    have the keys of ["Mã KH"] and ["Họ tên"], and yet [main] stops because
    the column ["Mã KH"] is missing; and goods lines under a header
    ["Ma KH"] are not joined to their customer. *)
Lemma required_columns_counterexample :
  @normalize_key ucd14 (py "Ma KH") = @normalize_key ucd14 (py "Mã KH")
  /\ @normalize_key ucd14 (py "Ho ten") = @normalize_key ucd14 (py "Họ tên")
  /\ (@main ucd14 plain_runtime unaccented_environment []).2
     = Raise (Exn ValueError (py "Sheet 'Hồ sơ' thiếu cột bắt buộc: Mã KH"))
  /\ saved_files (@main ucd14 plain_runtime unaccented_environment []).1 = []
  /\ @filter_items plain_runtime (Some unaccented_goods) (PStr (py "001"))
     = empty_frame.
Proof. repeat split; vm_compute; reflexivity. Qed.

(** C2, amended: only the four columns of the goods table are found by
    normalized name ([pick_col] finds a column whenever its key is the key
    of a candidate).  The required columns of the profile sheet and the
    customer-id column of the goods sheet are looked up by their exact
    names ["Mã KH"] and ["Họ tên"], after white space around each header was
    stripped: [main] goes on exactly when both names are headers of the
    profile sheet and raises otherwise, and without a goods column named
    ["Mã KH"] a customer gets no goods lines. *)
Theorem required_columns_literal `{U : unicode_data} `{R : runtime} :
  (forall df w,
      (check_required df w = (w, Ok tt)
       <-> In (LStr (py "Mã KH")) (df_columns df)
           /\ In (LStr (py "Họ tên")) (df_columns df))
      /\ (check_required df w = (w, Ok tt)
          \/ exists col, In col required_cols
               /\ check_required df w
                  = (w, Raise (Exn ValueError
                                 (py "Sheet 'Hồ sơ' thiếu cột bắt buộc: " ++ col)))))
  /\ (forall df, df_columns (strip_columns df)
                 = map (fun c => match c with
                                 | LStr s => LStr (str_strip s)
                                 | LNum z => LNum z
                                 end) (df_columns df))
  /\ (forall all id, ~ In (LStr (py "Mã KH")) (df_columns all) ->
        filter_items (Some all) id = empty_frame)
  /\ (forall all id, In (LStr (py "Mã KH")) (df_columns all) ->
        filter_items (Some all) id
        = df_filter_rows all
            (map (fun v => bool_decide (str v = str id))
                 (df_column all (LStr (py "Mã KH")))))
  /\ (forall df candidates cand c,
        In cand candidates -> In (LStr c) (df_columns df) ->
        normalize_key c = normalize_key cand ->
        pick_col df candidates <> None).
Proof.
  split.
  { intros df w. rewrite check_required_cases.
    destruct (has_column df (LStr (py "Mã KH"))) eqn:E1;
      destruct (has_column df (LStr (py "Họ tên"))) eqn:E2.
    - apply has_column_In in E1, E2. split; [tauto|]. now left.
    - split.
      + split; [discriminate|]. intros [_ H]. apply has_column_In in H. congruence.
      + right. exists (py "Họ tên"). split; [right; now left|reflexivity].
    - split.
      + split; [discriminate|]. intros [H _]. apply has_column_In in H. congruence.
      + right. exists (py "Mã KH"). split; [now left|reflexivity].
    - split.
      + split; [discriminate|]. intros [H _]. apply has_column_In in H. congruence.
      + right. exists (py "Mã KH"). split; [now left|reflexivity]. }
  split; [reflexivity|].
  split.
  { intros all id Hn. unfold filter_items.
    destruct (has_column all (LStr (py "Mã KH"))) eqn:E; [|reflexivity].
    apply has_column_In in E. contradiction. }
  split.
  { intros all id Hin. unfold filter_items.
    rewrite (proj2 (has_column_In all _) Hin).
    unfold column_as_str. now rewrite map_map. }
  intros df candidates cand c. apply pick_col_found.
Qed.

(** ** A run from end to end *)

Example main_scenario :
  (@main ucd14 plain_runtime scenario []).2 = Ok tt
  /\ map path_str (saved_files (@main ucd14 plain_runtime scenario []).1)
     = [ py "/absolute/path/to/output/001_Nguyễn Văn A/T1__001.docx";
         py "/absolute/path/to/output/001_Nguyễn Văn A/T2__001.docx" ]
  /\ @goods_blocks ucd14 plain_runtime
       (Some (@filter_items plain_runtime (Some scenario_goods) (PStr (py "001"))))
     = [ Table
           {| tbl_style := py "Table Grid";
              tbl_rows :=
                [ [py "Tên hàng"; py "Số lượng"; py "Đơn giá"; py "Thành tiền"];
                  [py "Bút"; py "2"; py "500"; py ""];
                  [py "Vở"; py "1"; py "1.000"; py "1.200"] ] |} ].
Proof. repeat split; vm_compute; reflexivity. Qed.

(** ** More on the string helpers *)

Section StringFacts.
Context `{U : unicode_data}.

Lemma strip_accents_starters text :
  Forall (fun c => uc_combining c = 0) (strip_accents text).
Proof.
  unfold strip_accents. apply List.Forall_forall. intros c Hin.
  apply filter_In in Hin as [_ Hs]. unfold is_starter in Hs.
  now apply Z.eqb_eq in Hs.
Qed.

Lemma flat_map_singletons {A} (f : A -> list A) (l : list A) :
  Forall (fun x => f x = [x]) l -> flat_map f l = l.
Proof.
  induction 1 as [|x l Hx _ IH]; [reflexivity|].
  cbn [flat_map]. now rewrite Hx, IH.
Qed.

Lemma str_startswith_app needle hay more :
  str_startswith needle hay = true -> str_startswith needle (hay ++ more) = true.
Proof.
  revert hay; induction needle as [|a needle IH]; intros [|b hay]; cbn;
    try reflexivity; try discriminate.
  intros H. apply andb_true_iff in H as [-> H]. now apply IH.
Qed.

Lemma str_contains_app_r needle hay more :
  str_contains needle hay = true -> str_contains needle (hay ++ more) = true.
Proof.
  induction hay as [|b hay IH]; cbn [str_contains app].
  - rewrite orb_false_r. intros H.
    destruct needle; [|discriminate]. now destruct more.
  - intros H. apply orb_true_iff in H as [H|H].
    + change (b :: hay ++ more) with ((b :: hay) ++ more).
      rewrite (str_startswith_app _ _ _ H). reflexivity.
    + rewrite (IH H). apply orb_true_r.
Qed.

Lemma str_contains_app_l needle before hay :
  str_contains needle hay = true -> str_contains needle (before ++ hay) = true.
Proof.
  intros H. induction before as [|b before IH]; [exact H|].
  cbn [app str_contains]. rewrite IH. apply orb_true_r.
Qed.

Lemma str_startswith_prefix needle hay :
  str_startswith needle hay = true <-> exists rest, hay = needle ++ rest.
Proof.
  revert hay; induction needle as [|a needle IH]; intros hay.
  - split; [intros _; now exists hay|reflexivity].
  - destruct hay as [|b hay]; cbn [str_startswith].
    + split; [discriminate|intros [rest H]; discriminate].
    + rewrite andb_true_iff, Z.eqb_eq, IH. split.
      * intros [-> [rest ->]]. now exists rest.
      * intros [rest H]. injection H as -> ->. split; [reflexivity|now exists rest].
Qed.

Lemma str_contains_infix needle hay :
  str_contains needle hay = true
  <-> exists before rest, hay = before ++ needle ++ rest.
Proof.
  induction hay as [|b hay IH]; cbn [str_contains].
  - rewrite orb_false_r, str_startswith_prefix. split.
    + intros [rest H]. now exists [], rest.
    + intros (before & rest & H). destruct before; [now exists rest|discriminate].
  - rewrite orb_true_iff, str_startswith_prefix, IH. split.
    + intros [[rest H]|(before & rest & H)].
      * now exists [], rest.
      * exists (b :: before), rest. now rewrite H.
    + intros (before & rest & H). destruct before as [|c before].
      * left. now exists rest.
      * right. injection H as _ H. now exists before, rest.
Qed.

Lemma remove_spaces_app s t :
  remove_spaces (s ++ t) = remove_spaces s ++ remove_spaces t.
Proof. unfold remove_spaces. apply List.filter_app. Qed.

Lemma safe_char_idempotent ch : safe_char (safe_char ch) = safe_char ch.
Proof.
  unfold safe_char at 2.
  destruct (uc_isalnum ch || existsb (Z.eqb ch) keep) eqn:E.
  - unfold safe_char. now rewrite E.
  - unfold safe_char. rewrite E.
    now destruct (uc_isalnum 95 || existsb (Z.eqb 95) keep).
Qed.
End StringFacts.

(** X1: [strip_accents] works code point by code point: the result is the
    concatenation, over the code points of the text, of the starters of
    each one's decomposition, so the reordering of marks that NFD does
    leaves no trace; the function distributes over concatenation, and no
    code point of its result is a combining mark. *)
Theorem strip_accents_pointwise `{U : unicode_data} (s t : pystr) :
  strip_accents s
  = flat_map (fun c => List.filter (fun d => uc_combining d =? 0)
                         (uc_decomposition c)) s
  /\ strip_accents (s ++ t) = strip_accents s ++ strip_accents t
  /\ Forall (fun c => uc_combining c = 0) (strip_accents s).
Proof.
  split; [apply strip_accents_flat_map|].
  split; [apply strip_accents_app|apply strip_accents_starters].
Qed.

(** X2: over a character database whose decompositions are full (a starter
    of a decomposition has no decomposition of its own), stripping the
    accents twice is the same as stripping them once. *)
Theorem strip_accents_idempotent `{U : unicode_data} (text : pystr)
    (H : forall c d, In d (uc_decomposition c) -> is_starter d = true ->
                     uc_decomposition d = [d]) :
  strip_accents (strip_accents text) = strip_accents text.
Proof.
  rewrite (strip_accents_flat_map (strip_accents text)).
  apply flat_map_singletons. apply List.Forall_forall. intros d Hin.
  rewrite strip_accents_flat_map in Hin.
  apply in_flat_map in Hin as (c & _ & Hd).
  apply filter_In in Hd as [Hd Hs].
  rewrite (H c d Hd Hs). cbn [List.filter]. now rewrite Hs.
Qed.

Lemma strip_accents_idempotent_witness :
  @strip_accents ucd14 (@strip_accents ucd14 (py "Thành tiền"))
  = @strip_accents ucd14 (py "Thành tiền")
  /\ @strip_accents ucd14 (py "Thành tiền") = py "Thanh tien".
Proof.
  split.
  - exact (@strip_accents_idempotent ucd14 (py "Thành tiền")
             (decomposition_closed ucd14_laws)).
  - vm_compute. reflexivity.
Defined.

(** X3: away from the Greek capital sigma, the key of a concatenation is
    the concatenation of the keys, so a text that contains another contains
    its key: whatever key test a text passes, every text around it
    passes too.  No key holds a space. *)
Theorem normalize_key_compositional `{U : unicode_data} (s t : pystr)
    (Hs : ~ In 931 (strip_accents s)) (Ht : ~ In 931 (strip_accents t)) :
  normalize_key (s ++ t) = normalize_key s ++ normalize_key t
  /\ (forall needle before,
        ~ In 931 (strip_accents before) ->
        str_contains needle (normalize_key s) = true ->
        str_contains needle (normalize_key (before ++ s ++ t)) = true)
  /\ ~ In 32 (normalize_key s).
Proof.
  assert (A : forall a b, ~ In 931 (strip_accents a) -> ~ In 931 (strip_accents b) ->
                normalize_key (a ++ b) = normalize_key a ++ normalize_key b).
  { intros a b Ha Hb. rewrite !normalize_key_no_sigma; trivial.
    - now rewrite strip_accents_app, flat_map_app, remove_spaces_app.
    - rewrite strip_accents_app, in_app_iff. tauto. }
  split; [now apply A|]. split.
  - intros needle before Hb Hc. rewrite A, A; trivial.
    + apply str_contains_app_l, str_contains_app_r, Hc.
    + rewrite strip_accents_app, in_app_iff. tauto.
  - unfold normalize_key, remove_spaces. intros Hin.
    apply filter_In in Hin as [_ Hin]. discriminate.
Qed.

Lemma normalize_key_compositional_witness :
  @normalize_key ucd14 (py "Hồ sơ" ++ py " KH")
  = @normalize_key ucd14 (py "Hồ sơ") ++ @normalize_key ucd14 (py " KH").
Proof.
  refine (proj1 (@normalize_key_compositional ucd14 (py "Hồ sơ") (py " KH") _ _));
    vm_compute; intuition discriminate.
Defined.

(** X4: [safe_filename] changes nothing in a name it produced; it leaves a
    text as it is exactly when every character is alphanumeric or one of
    [-_.() []]; and it works character by character. *)
Theorem safe_filename_idempotent `{U : unicode_data} (s t : pystr) :
  safe_filename (safe_filename s) = safe_filename s
  /\ (safe_filename s = s
      <-> Forall (fun ch => uc_isalnum ch = true \/ In ch (py "-_.() []")) s)
  /\ safe_filename (s ++ t) = safe_filename s ++ safe_filename t.
Proof.
  split; [|split].
  - unfold safe_filename. rewrite map_map. apply map_ext.
    intros ch. apply safe_char_idempotent.
  - unfold safe_filename. induction s as [|ch s IH]; cbn [map].
    + split; [constructor|reflexivity].
    + split.
      * intros E. injection E as E1 E2. constructor; [|now apply IH].
        pose proof (safe_char_allowed ch) as A. now rewrite E1 in A.
      * intros E. apply Forall_cons in E as [E1 E2]. f_equal; [|now apply IH].
        rewrite safe_char_spec. destruct E1 as [->|E1]; [reflexivity|].
        unfold keep. rewrite (bool_decide_eq_true_2 _ E1). now rewrite orb_true_r.
  - apply map_app.
Qed.

(** ** More on the formatters *)

Section CurrencyFacts.
Context `{R : runtime}.

Lemma format_currency_blank value :
  isna value = true \/ value = PStr [] -> format_currency value = Ok [].
Proof.
  intros [H| ->]; unfold format_currency; [now rewrite H|].
  reflexivity.
Qed.

Lemma format_currency_unfold value :
  isna value = false -> value <> PStr [] ->
  format_currency value
  = try_except (f ← float_of value; Ok (comma_to_dot (format_float_comma f)))
               (Ok (str value)).
Proof.
  intros Hn He. unfold format_currency. rewrite Hn.
  destruct (is_empty_str value) eqn:E; [|reflexivity].
  apply is_empty_str_spec in E. contradiction.
Qed.

(** The dotted form of a grouped number: no comma in it, and without its
    dots it is the sign and the digits. *)
Lemma dotted_grouped sign n :
  ~ In 44 (comma_to_dot (grouped sign n))
  /\ no_dots (comma_to_dot (grouped sign n))
     = (if sign then [45] else []) ++ decimal n.
Proof.
  split; [apply comma_to_dot_no_comma|].
  rewrite no_dots_comma_to_dot by apply grouped_no_dot.
  apply grouped_no_comma.
Qed.

Lemma round_half_even_nonneg m e : 0 <= round_half_even m e.
Proof.
  unfold round_half_even. destruct (0 <=? e) eqn:E.
  - apply Z.leb_le in E. pose proof (Z.pow_pos_nonneg 2 e). lia.
  - apply Z.leb_gt in E.
    assert (Hd : 0 < 2 ^ (- e)) by (apply Z.pow_pos_nonneg; lia).
    pose proof (Z.div_pos (Z.pos m) (2 ^ (- e)) ltac:(lia) Hd).
    destruct (2 * (Z.pos m mod 2 ^ (- e)) ?= 2 ^ (- e)); [destruct (Z.even _)| |]; lia.
Qed.

(** Where [round] gives an integer, the two formats differ in the sign
    of zero only. *)
Lemma float_comma_int_comma f n :
  py_round f = Ok n ->
  format_float_comma f
  = if (n =? 0) && float_negative f then 45 :: format_int_comma n
    else format_int_comma n.
Proof.
  destruct f as [s|s| |s m e]; cbn [py_round]; try discriminate.
  - intros [= <-]. cbn. now destruct s.
  - intros [= <-]. cbn [format_float_comma float_negative].
    pose proof (round_half_even_nonneg m e) as Hn.
    unfold format_int_comma.
    destruct (Z.eq_dec (round_half_even m e) 0) as [E|E].
    + rewrite E. destruct s; reflexivity.
    + destruct s.
      * replace (- round_half_even m e =? 0) with false
          by (symmetry; apply Z.eqb_neq; lia).
        cbn [andb]. rewrite Z.abs_neq by lia. rewrite Z.opp_involutive.
        replace (- round_half_even m e <? 0) with true
          by (symmetry; apply Z.ltb_lt; lia).
        reflexivity.
      * replace (round_half_even m e =? 0) with false
          by (symmetry; apply Z.eqb_neq; lia).
        cbn [andb]. rewrite Z.abs_eq by lia.
        replace (round_half_even m e <? 0) with false
          by (symmetry; apply Z.ltb_ge; lia).
        reflexivity.
Qed.
End CurrencyFacts.

(** X5: [format_currency] never raises.  It gives the empty string for a
    missing or empty value; for a value that [float] reads as a finite
    number, the sign and the digits of the integer nearest to it (the even
    one at a tie), with a dot after every group of three digits and no
    comma; ["inf"], ["-inf"] or ["nan"] when [float] reads that; and
    [str(value)] when [float] raises. *)
Theorem format_currency_total `{R : runtime} (value : pyval) :
  (exists s, format_currency value = Ok s)
  /\ (isna value = true \/ value = PStr [] -> format_currency value = Ok [])
  /\ (forall s m e, isna value = false -> value <> PStr [] ->
        float_of value = Ok (S754_finite s m e) ->
        let n := round_half_even m e in
        format_currency value = Ok (comma_to_dot (grouped s n))
        /\ nearest_integer (S754_finite s m e) (if s then - n else n)
        /\ ~ In 44 (comma_to_dot (grouped s n))
        /\ no_dots (comma_to_dot (grouped s n))
           = (if s then [45] else []) ++ decimal n)
  /\ (forall s, isna value = false -> value <> PStr [] ->
        float_of value = Ok (S754_zero s) ->
        format_currency value = Ok (if s then py "-0" else py "0"))
  /\ (forall s, isna value = false -> value <> PStr [] ->
        float_of value = Ok (S754_infinity s) ->
        format_currency value = Ok (if s then py "-inf" else py "inf"))
  /\ (isna value = false -> value <> PStr [] -> float_of value = Ok S754_nan ->
      format_currency value = Ok (py "nan"))
  /\ (forall e, isna value = false -> value <> PStr [] ->
        float_of value = Raise e -> format_currency value = Ok (str value))
  /\ format_currency (PInt 1234567) = Ok (py "1.234.567")
  /\ format_currency (PFloat (dyadic 5 (-1))) = Ok (py "2")
  /\ format_currency (PFloat (SFopp (dyadic 1 (-2)))) = Ok (py "-0").
Proof.
  split; [apply format_currency_ok|].
  split; [apply format_currency_blank|].
  split.
  { intros s m e Hn He Hf. cbv zeta.
    rewrite (format_currency_unfold _ Hn He), Hf. cbn.
    split; [reflexivity|]. split.
    - apply (py_round_nearest (S754_finite s m e)). reflexivity.
    - apply dotted_grouped. }
  split.
  { intros s Hn He Hf. rewrite (format_currency_unfold _ Hn He), Hf.
    now destruct s. }
  split.
  { intros s Hn He Hf. rewrite (format_currency_unfold _ Hn He), Hf.
    now destruct s. }
  split.
  { intros Hn He Hf. now rewrite (format_currency_unfold _ Hn He), Hf. }
  split.
  { intros e Hn He Hf. now rewrite (format_currency_unfold _ Hn He), Hf. }
  repeat split; vm_compute; reflexivity.
Qed.

(** X6: on a value that [float] reads as a finite number, [format_currency]
    and [format_int] give the same text, except for a negative number that
    rounds to zero: there [format_int] gives ["0"] and [format_currency]
    gives ["-0"]. *)
Theorem format_currency_format_int `{R : runtime} (value : pyval) (f : float)
    (n : Z) (Hf : float_of value = Ok f) (Hr : py_round f = Ok n) :
  (n <> 0 \/ float_negative f = false ->
   format_currency value = format_int value)
  /\ (n = 0 -> float_negative f = true -> value <> PStr [] ->
      format_int value = Ok (py "0") /\ format_currency value = Ok (py "-0")).
Proof.
  assert (Hnan : isna value = false).
  { destruct value as [|z|g|s|d]; try reflexivity; try discriminate.
    cbn in Hf. injection Hf as ->. now destruct f. }
  pose proof (float_comma_int_comma f n Hr) as E.
  split.
  - intros Hc. unfold format_currency, format_int. rewrite Hnan. cbn [orb].
    destruct (is_empty_str value); [reflexivity|].
    rewrite Hf. cbn [mbind result_bind]. rewrite Hr. cbn [mbind result_bind].
    rewrite E. destruct Hc as [Hc|Hc].
    + apply Z.eqb_neq in Hc. now rewrite Hc.
    + now rewrite Hc, andb_false_r.
  - intros -> Hneg He.
    rewrite (format_int_unfold _ Hnan He), (format_currency_unfold _ Hnan He), Hf.
    cbn [mbind result_bind]. rewrite Hr. cbn [mbind result_bind].
    rewrite E, Hneg. split; reflexivity.
Qed.

Lemma format_currency_format_int_witness :
  @format_currency plain_runtime (PFloat (SFopp (dyadic 5 (-1))))
  = @format_int plain_runtime (PFloat (SFopp (dyadic 5 (-1))))
  /\ @format_int plain_runtime (PFloat (SFopp (dyadic 1 (-2)))) = Ok (py "0")
  /\ @format_currency plain_runtime (PFloat (SFopp (dyadic 1 (-2)))) = Ok (py "-0").
Proof.
  split.
  - apply (proj1 (@format_currency_format_int plain_runtime
                    (PFloat (SFopp (dyadic 5 (-1)))) (SFopp (dyadic 5 (-1))) (-2)
                    eq_refl eq_refl)).
    left. discriminate.
  - apply (proj2 (@format_currency_format_int plain_runtime
                    (PFloat (SFopp (dyadic 1 (-2)))) (SFopp (dyadic 1 (-2))) 0
                    eq_refl eq_refl)); [reflexivity|reflexivity|discriminate].
Defined.

(** X7: [format_date] never raises.  It gives the empty string for a missing
    value and [strftime] of a date; for any other value it gives
    [strftime] of the date that [pd.to_datetime] reads in it, and
    [str(value)] when [pd.to_datetime] raises or reads no date. *)
Theorem format_date_total `{R : runtime} (value : pyval) (fmt : pystr) :
  (exists s, format_date value fmt = Ok s)
  /\ (isna value = true -> format_date value fmt = Ok [])
  /\ (forall d, value = PDatetime d -> format_date value fmt = Ok (strftime d fmt))
  /\ (forall dt, isna value = false -> (forall d, value <> PDatetime d) ->
        to_datetime value = Some (Some dt) ->
        format_date value fmt = Ok (strftime dt fmt))
  /\ (isna value = false -> (forall d, value <> PDatetime d) ->
      to_datetime value = None \/ to_datetime value = Some None ->
      format_date value fmt = Ok (str value)).
Proof.
  split; [apply format_date_ok|].
  split; [intros H; unfold format_date; now rewrite H|].
  split; [intros d ->; reflexivity|].
  split.
  - intros dt Hn Hd Ht. unfold format_date. rewrite Hn, Ht.
    destruct value; try reflexivity. now destruct (Hd d).
  - intros Hn Hd Ht. unfold format_date. rewrite Hn.
    destruct value; try (destruct Ht as [-> | ->]; reflexivity).
    now destruct (Hd d).
Qed.

(** ** More on the sheets *)

Section StripFacts.
Variable p : Z -> bool.

Lemma dropwhile_split s :
  exists a, s = a ++ dropwhile p s /\ Forall (fun c => p c = true) a.
Proof.
  induction s as [|c s (a & E & F)]; [now exists []|].
  cbn [dropwhile]. destruct (p c) eqn:Pc.
  - exists (c :: a). split; [cbn; now f_equal|now constructor].
  - now exists [].
Qed.

Lemma dropwhile_head s c rest : dropwhile p s = c :: rest -> p c = false.
Proof.
  induction s as [|d s IH]; [discriminate|]. cbn [dropwhile].
  destruct (p d) eqn:Pd; [exact IH|]. now intros [= <- _].
Qed.

Lemma dropwhile_fixed s :
  (forall c rest, s = c :: rest -> p c = false) -> dropwhile p s = s.
Proof.
  destruct s as [|c s]; [reflexivity|]. intros H. cbn [dropwhile].
  now rewrite (H c s eq_refl).
Qed.

(** Dropping from the left keeps the last character. *)
Lemma dropwhile_last s init c :
  s = init ++ [c] -> p c = false -> exists init', dropwhile p s = init' ++ [c].
Proof.
  revert s; induction init as [|d init IH]; intros s -> Pc.
  - cbn. rewrite Pc. now exists [].
  - cbn [app dropwhile]. destruct (p d).
    + now apply IH.
    + now exists (d :: init).
Qed.

(** [strip] takes characters of the set from both ends and leaves a text
    that neither starts nor ends with one. *)
Lemma strip_by_split s :
  exists a b, s = a ++ strip_by p s ++ b
    /\ Forall (fun c => p c = true) a /\ Forall (fun c => p c = true) b.
Proof.
  unfold strip_by, rstrip_by, lstrip_by.
  destruct (dropwhile_split s) as (a & Ea & Fa).
  destruct (dropwhile_split (rev (dropwhile p s))) as (b & Eb & Fb).
  exists a, (rev b). split; [|split; [exact Fa|]].
  - rewrite <- rev_app_distr, <- Eb, rev_involutive. exact Ea.
  - apply List.Forall_forall. intros c Hc. apply in_rev in Hc.
    rewrite List.Forall_forall in Fb. now apply Fb.
Qed.

Lemma strip_by_last s init c : strip_by p s = init ++ [c] -> p c = false.
Proof.
  unfold strip_by, rstrip_by. intros H.
  apply (f_equal (@rev Z)) in H. rewrite rev_involutive, rev_app_distr in H.
  cbn in H. exact (dropwhile_head _ _ _ H).
Qed.

Lemma strip_by_head s c rest : strip_by p s = c :: rest -> p c = false.
Proof.
  unfold strip_by, rstrip_by, lstrip_by. intros H.
  destruct (dropwhile p s) as [|d t] eqn:E; [discriminate|].
  pose proof (dropwhile_head _ _ _ E) as Pd.
  destruct (dropwhile_split (rev (d :: t))) as (b & Eb & _).
  apply (f_equal (@rev Z)) in Eb.
  rewrite rev_involutive, rev_app_distr, H in Eb.
  injection Eb as -> _. exact Pd.
Qed.

Lemma strip_by_fixed s :
  (forall c rest, s = c :: rest -> p c = false) ->
  (forall init c, s = init ++ [c] -> p c = false) ->
  strip_by p s = s.
Proof.
  intros Hh Hl. unfold strip_by, rstrip_by, lstrip_by.
  rewrite (dropwhile_fixed s Hh). rewrite dropwhile_fixed; [apply rev_involutive|].
  intros c rest E. apply (f_equal (@rev Z)) in E. rewrite rev_involutive in E.
  cbn in E. exact (Hl _ _ E).
Qed.

Lemma strip_by_idempotent s : strip_by p (strip_by p s) = strip_by p s.
Proof.
  apply strip_by_fixed.
  - intros c rest. apply strip_by_head.
  - intros init c. apply strip_by_last.
Qed.
End StripFacts.

Section SheetChoice.
Context `{U : unicode_data} `{R : runtime}.

Lemma find_first {A} (q : A -> bool) l x :
  List.find q l = Some x ->
  exists l1 l2, l = l1 ++ x :: l2 /\ q x = true
    /\ forall y, In y l1 -> q y = false.
Proof.
  induction l as [|y l IH]; [discriminate|]. cbn [List.find].
  destruct (q y) eqn:Qy.
  - intros [= ->]. exists [], l. split; [reflexivity|]. split; [exact Qy|].
    intros ? [].
  - intros H. destruct (IH H) as (l1 & l2 & -> & Qx & Hl).
    exists (y :: l1), l2. split; [reflexivity|]. split; [exact Qx|].
    intros z [<-|Hz]; [exact Qy|now apply Hl].
Qed.

Lemma find_exists {A} (q : A -> bool) l :
  (exists x, In x l /\ q x = true) -> exists x, List.find q l = Some x.
Proof.
  intros (x & Hin & Qx). destruct (List.find q l) as [y|] eqn:E; [now exists y|].
  pose proof (List.find_none _ _ E x Hin) as F. congruence.
Qed.

Lemma matches_profile_nonempty s :
  matches_profile (normalize_key s) = true -> s <> [].
Proof. intros H ->. discriminate. Qed.

Lemma matches_goods_nonempty s :
  matches_goods (normalize_key s) = true -> s <> [].
Proof. intros H ->. discriminate. Qed.

Lemma str_contains_In needle hay c :
  str_contains needle hay = true -> In c needle -> In c hay.
Proof.
  intros H Hc. apply str_contains_infix in H as (a & b & ->).
  rewrite !in_app_iff. tauto.
Qed.
End SheetChoice.

(** X8: when some sheet name passes the test of the profile sheet and some
    sheet name passes the test of the goods sheet, [find_sheet_names]
    returns, for each of the two, the first name in workbook order that
    passes the test; the two may be the same sheet. *)
Theorem find_sheet_names_first_match `{U : unicode_data} `{R : runtime}
    (names : list pystr)
    (Hp : exists s, In s names /\ matches_profile (normalize_key s) = true)
    (Hg : exists s, In s names /\ matches_goods (normalize_key s) = true) :
  exists p g,
    find_sheet_names names = Ok {| hoso := Some p; hanghoa := Some g |}
    /\ (exists before after, names = before ++ p :: after
          /\ matches_profile (normalize_key p) = true
          /\ forall s, In s before -> matches_profile (normalize_key s) = false)
    /\ (exists before after, names = before ++ g :: after
          /\ matches_goods (normalize_key g) = true
          /\ forall s, In s before -> matches_goods (normalize_key s) = false).
Proof.
  destruct (find_exists _ _ Hp) as (p & Fp).
  destruct (find_exists _ _ Hg) as (g & Fg).
  exists p, g.
  pose proof (find_first _ _ _ Fp) as Sp.
  pose proof (find_first _ _ _ Fg) as Sg.
  split; [|split; assumption].
  unfold find_sheet_names.
  pose proof (fold_scan_hoso names {| hoso := None; hanghoa := None |}) as Eh.
  pose proof (fold_scan_hanghoa names {| hoso := None; hanghoa := None |}) as Eg.
  cbn [hoso hanghoa] in Eh, Eg. rewrite Fp in Eh. rewrite Fg in Eg.
  destruct (fold_left scan_sheet names _) as [h k]. cbn [hoso hanghoa] in *.
  subst h k.
  destruct Sp as (_ & _ & _ & Mp & _). destruct Sg as (_ & _ & _ & Mg & _).
  apply matches_profile_nonempty in Mp. apply matches_goods_nonempty in Mg.
  destruct p; [contradiction|]. destruct g; [contradiction|]. reflexivity.
Qed.

Lemma find_sheet_names_first_match_witness :
  exists p g,
    @find_sheet_names ucd14 plain_runtime
      [py "Sheet1"; py "HỒ SƠ hàng hoá"; py "Hàng hoá"]
    = Ok {| hoso := Some p; hanghoa := Some g |}
    /\ p = py "HỒ SƠ hàng hoá" /\ g = py "HỒ SƠ hàng hoá".
Proof.
  destruct (@find_sheet_names_first_match ucd14 plain_runtime
              [py "Sheet1"; py "HỒ SƠ hàng hoá"; py "Hàng hoá"])
    as (p & g & E & _).
  - exists (py "HỒ SƠ hàng hoá"). split; [cbn; tauto|vm_compute; reflexivity].
  - exists (py "Hàng hoá"). split; [cbn; tauto|vm_compute; reflexivity].
  - exists p, g. split; [exact E|].
    assert (K : @find_sheet_names ucd14 plain_runtime
                  [py "Sheet1"; py "HỒ SƠ hàng hoá"; py "Hàng hoá"]
                = Ok {| hoso := Some (py "HỒ SƠ hàng hoá");
                        hanghoa := Some (py "HỒ SƠ hàng hoá") |})
      by (vm_compute; reflexivity).
    rewrite K in E. injection E as <- <-. split; reflexivity.
Defined.

(** X9: over a character database with the closure properties of the
    Unicode database, in which U+00E1 and U+00E0 have a decomposition, the
    tests of [find_sheet_names] for the accented spellings never fire, and a
    sheet is taken for the goods sheet exactly when its key contains both
    ["hang"] and ["hoa"], wherever and in whichever order. *)
Theorem goods_sheet_test `{U : unicode_data} `{R : runtime}
    (L : normalizer_laws U)
    (Ha : uc_decomposition 225 <> [225]) (Hb : uc_decomposition 224 <> [224])
    (h : option pystr) (s : pystr) :
  str_contains (py "hanghoá") (normalize_key s) = false
  /\ str_contains (py "hanghoà") (normalize_key s) = false
  /\ hanghoa (scan_sheet {| hoso := h; hanghoa := None |} s)
     = if str_contains (py "hang") (normalize_key s)
          && str_contains (py "hoa") (normalize_key s)
       then Some s else None.
Proof.
  pose proof (normalize_key_plain L s) as P. rewrite List.Forall_forall in P.
  assert (A : str_contains (py "hanghoá") (normalize_key s) = false).
  { apply not_true_iff_false. intros H.
    apply (str_contains_In _ _ 225) in H; [|vm_compute; tauto].
    apply P in H as (_ & H & _). contradiction. }
  assert (B : str_contains (py "hanghoà") (normalize_key s) = false).
  { apply not_true_iff_false. intros H.
    apply (str_contains_In _ _ 224) in H; [|vm_compute; tauto].
    apply P in H as (_ & H & _). contradiction. }
  split; [exact A|]. split; [exact B|].
  rewrite scan_sheet_hanghoa. cbn [hanghoa]. unfold matches_goods.
  rewrite A, B, !orb_false_r.
  destruct (str_contains (py "hanghoa") (normalize_key s)) eqn:C; [|reflexivity].
  apply str_contains_infix in C as (a & b & C).
  assert (C1 : str_contains (py "hang") (normalize_key s) = true).
  { apply str_contains_infix. exists a, (py "hoa" ++ b). rewrite C. reflexivity. }
  assert (C2 : str_contains (py "hoa") (normalize_key s) = true).
  { apply str_contains_infix. exists (a ++ py "hang"), b.
    rewrite C, <- app_assoc. reflexivity. }
  now rewrite C1, C2.
Qed.

Lemma goods_sheet_test_witness :
  hanghoa (@scan_sheet ucd14 {| hoso := None; hanghoa := None |} (py "Khoa hàng"))
  = Some (py "Khoa hàng").
Proof.
  rewrite (proj2 (proj2 (@goods_sheet_test ucd14 plain_runtime ucd14_laws
                           ltac:(vm_compute; discriminate)
                           ltac:(vm_compute; discriminate)
                           None (py "Khoa hàng")))).
  vm_compute. reflexivity.
Defined.

(** X10: [read_excel_data] raises what [find_sheet_names] raises; otherwise
    it returns the two sheets read with their rows as they are and their
    text headers stripped: a header loses white space at its two ends and
    nothing else, the stripped header neither starts nor ends with white
    space, a header that is no text stays as it is, and a header that is a
    name up to white space around it becomes that name. *)
Theorem read_excel_data_headers `{U : unicode_data} `{R : runtime}
    (wb : workbook) :
  (forall e, find_sheet_names (sheet_names wb) = Raise e ->
     read_excel_data wb = Raise e)
  /\ (forall w, find_sheet_names (sheet_names wb) = Ok w ->
        read_excel_data wb
        = Ok (strip_columns (read_excel wb (hoso w)),
              strip_columns (read_excel wb (hanghoa w))))
  /\ (forall df,
        df_rows (strip_columns df) = df_rows df
        /\ length (df_columns (strip_columns df)) = length (df_columns df)
        /\ strip_columns (strip_columns df) = strip_columns df
        /\ (forall i z, df_columns df !! i = Some (LNum z) ->
              df_columns (strip_columns df) !! i = Some (LNum z))
        /\ (forall i s, df_columns df !! i = Some (LStr s) ->
              df_columns (strip_columns df) !! i = Some (LStr (str_strip s)))
        /\ (forall s name, In (LStr s) (df_columns df) -> str_strip s = name ->
              In (LStr name) (df_columns (strip_columns df))))
  /\ (forall s,
        (exists a b, s = a ++ str_strip s ++ b
           /\ Forall (fun c => uc_isspace c = true) a
           /\ Forall (fun c => uc_isspace c = true) b)
        /\ (forall c rest, str_strip s = c :: rest -> uc_isspace c = false)
        /\ (forall init c, str_strip s = init ++ [c] -> uc_isspace c = false)).
Proof.
  split; [|split; [|split]].
  - intros e H. unfold read_excel_data. now rewrite H.
  - intros w H. unfold read_excel_data. now rewrite H.
  - intros df. unfold strip_columns. cbn [df_rows df_columns].
    split; [reflexivity|]. split; [apply length_map|]. split.
    { f_equal. rewrite map_map. apply map_ext. intros [s|z]; [|reflexivity].
      cbn [strip_label]. f_equal. apply strip_by_idempotent. }
    split; [|split].
    + intros i z H. rewrite lookup_map, H. reflexivity.
    + intros i s H. rewrite lookup_map, H. reflexivity.
    + intros s name Hin <-. apply in_map_iff. now exists (LStr s).
  - intros s. split; [apply strip_by_split|]. split.
    + apply strip_by_head.
    + apply strip_by_last.
Qed.

(** ** More on the table fragment and the context *)

Section TableFacts.
Context `{U : unicode_data} `{R : runtime}.

Lemma length_rows_set_column df key cells :
  length cells = length (df_rows df) ->
  length (df_rows (df_set_column df key cells)) = length (df_rows df).
Proof.
  intros H. unfold df_set_column.
  destruct (index_of key (df_columns df)); cbn [df_rows];
    rewrite length_zip_with; lia.
Qed.

Lemma In_columns_set_column df key cells k :
  In k (df_columns df) -> In k (df_columns (df_set_column df key cells)).
Proof.
  intros H. unfold df_set_column.
  destruct (index_of key (df_columns df)); cbn [df_columns]; [exact H|].
  apply in_or_app. now left.
Qed.

Lemma length_numeric_column df key :
  In (LStr key) (df_columns df) ->
  length (series_cells (numeric_column df key)) = length (df_rows df).
Proof.
  intros H. unfold numeric_column.
  now rewrite length_series_cells_numeric, length_df_column.
Qed.

Lemma length_series_mul a b :
  length (series_cells a) = length (series_cells b) ->
  length (series_cells (series_mul a b)) = length (series_cells a).
Proof.
  destruct a as [x|x], b as [y|y]; cbn; rewrite !length_map; intros H;
    rewrite length_zip_with, ?length_map; lia.
Qed.

(** The derivation adds columns and no row. *)
Lemma derive_total_rows items cm :
  (forall q, soluong cm = Some q -> In (LStr q) (df_columns items)) ->
  (forall p, dongia cm = Some p -> In (LStr p) (df_columns items)) ->
  length (df_rows (derive_total items cm).1) = length (df_rows items).
Proof.
  intros Hq Hp. unfold derive_total.
  destruct (is_none (thanhtien cm) && negb (falsy (soluong cm))
            && negb (falsy (dongia cm))) eqn:E; [|reflexivity].
  destruct (soluong cm) as [q|]; [|now rewrite andb_false_r in E].
  destruct (dongia cm) as [p|]; [|now rewrite andb_false_r in E].
  specialize (Hq q eq_refl). specialize (Hp p eq_refl).
  cbn [default from_option id fst].
  set (sl := numeric_column items q).
  set (w1 := df_set_column items _ (series_cells sl)).
  set (dg := numeric_column w1 p).
  set (w2 := df_set_column w1 _ (series_cells dg)).
  assert (L1 : length (series_cells sl) = length (df_rows items))
    by now apply length_numeric_column.
  assert (R1 : length (df_rows w1) = length (df_rows items))
    by now apply length_rows_set_column.
  assert (L2 : length (series_cells dg) = length (df_rows w1))
    by now apply length_numeric_column, In_columns_set_column.
  assert (R2 : length (df_rows w2) = length (df_rows w1))
    by now apply length_rows_set_column.
  rewrite length_rows_set_column; [lia|].
  rewrite length_series_mul; lia.
Qed.

Lemma pick_columns_in items :
  let cm := pick_columns items in
  (forall k, ten cm = Some k -> In (LStr k) (df_columns items))
  /\ (forall k, soluong cm = Some k -> In (LStr k) (df_columns items))
  /\ (forall k, dongia cm = Some k -> In (LStr k) (df_columns items))
  /\ (forall k, thanhtien cm = Some k -> In (LStr k) (df_columns items)).
Proof.
  cbv zeta. unfold pick_columns. cbn [ten soluong dongia thanhtien].
  repeat split; intros k H; exact (pick_col_column _ _ _ H).
Qed.

Lemma goods_table_explicit items t :
  thanhtien (pick_columns items) = Some t ->
  goods_table items
  = {| tbl_style := py "Table Grid";
       tbl_rows := headers :: map (goods_row_cells (pick_columns items))
                                  (iterrows items) |}.
Proof.
  intros H. unfold goods_table, derive_total. now rewrite H.
Qed.

(** A field of a row that has one cell per label. *)
Lemma row_field_cell ls cells k i :
  index_of (LStr k) ls = Some i -> length cells = length ls ->
  row_field (zip ls cells) (Some k) = default PNone (cells !! i).
Proof.
  intros Hi Hlen.
  destruct (row_get_zip _ _ _ [] _ Hi Hlen) as (Hg & Hh & [v Hv]).
  rewrite app_nil_r in Hg, Hh. unfold row_field. now rewrite Hg, Hh, Hv.
Qed.

Lemma row_has_get r key :
  row_has r key = true <-> is_Some (row_get r key).
Proof.
  induction r as [|[l v] r IH]; cbn [row_has existsb row_get fst].
  - split; [discriminate|intros [? ?]; discriminate].
  - destruct (decide (l = key)) as [->|Hne].
    + rewrite bool_decide_eq_true_2 by reflexivity. cbn. split; eauto.
    + rewrite bool_decide_eq_false_2 by exact Hne. cbn [orb]. exact IH.
Qed.

Lemma val_not_missing customer_row col : isna (val customer_row col) = false.
Proof.
  unfold val. destruct (negb (row_has customer_row (LStr col))); [reflexivity|].
  cbn [orb].
  destruct (isna (default PNone (row_get customer_row (LStr col)))) eqn:E;
    [reflexivity|exact E].
Qed.

Lemma val_absent customer_row col :
  row_has customer_row (LStr col) = false -> val customer_row col = PStr [].
Proof. intros H. unfold val. now rewrite H. Qed.

Lemma val_present customer_row col v :
  row_get customer_row (LStr col) = Some v ->
  val customer_row col = if isna v then PStr [] else v.
Proof.
  intros H. unfold val.
  assert (Hh : row_has customer_row (LStr col) = true)
    by (apply row_has_get; rewrite H; eauto).
  rewrite Hh, H. reflexivity.
Qed.

Lemma filter_zip_map {A} (f : A -> bool) (l : list A) :
  map fst (List.filter snd (zip l (map f l))) = List.filter f l.
Proof.
  induction l as [|x l IH]; [reflexivity|].
  cbn [map zip zip_with List.filter snd]. destruct (f x); cbn [map fst]; now rewrite IH.
Qed.
End TableFacts.

(** X11: for a goods frame that is not empty and has distinct column names
    (so that a field of a row is one cell), the fragment is built without
    an error and is one table in the style ["Table Grid"]: the header row,
    then one row for every line of the frame, each of four cells. *)
Theorem goods_table_shape `{U : unicode_data} `{R : runtime}
    (doc : docx_template) (items : dataframe)
    (Hne : df_empty items = false) (Hd : NoDup (df_columns items)) :
  exists body,
    build_goods_table_subdoc doc (Some items)
    = Ok {| sd_doc := doc;
            sd_blocks := [Table {| tbl_style := py "Table Grid";
                                   tbl_rows := headers :: body |}] |}
    /\ length body = length (df_rows items)
    /\ Forall (fun row => length row = 4%nat) body.
Proof.
  rewrite build_goods_table_subdoc_blocks. unfold goods_blocks. rewrite Hne.
  unfold goods_table.
  pose proof (derive_total_rows items (pick_columns items)
                (proj1 (proj2 (pick_columns_in items)))
                (proj1 (proj2 (proj2 (pick_columns_in items))))) as Hlen.
  destruct (derive_total items (pick_columns items)) as [working cm].
  cbn [fst] in Hlen.
  exists (map (goods_row_cells cm) (iterrows working)).
  split; [reflexivity|]. split.
  - unfold iterrows. now rewrite !length_map.
  - apply Forall_map. apply List.Forall_forall. intros r _. reflexivity.
Qed.

Lemma goods_table_shape_witness :
  exists body,
    @build_goods_table_subdoc ucd14 plain_runtime {| tpl_file := py "T1.docx" |}
      (Some example_goods)
    = Ok {| sd_doc := {| tpl_file := py "T1.docx" |};
            sd_blocks := [Table {| tbl_style := py "Table Grid";
                                   tbl_rows := headers :: body |}] |}
    /\ length body = 2%nat.
Proof.
  destruct (@goods_table_shape ucd14 plain_runtime {| tpl_file := py "T1.docx" |}
              example_goods eq_refl) as (body & E & L & _).
  - apply (bool_decide_unpack _). vm_compute. exact I.
  - exists body. split; [exact E|exact L].
Defined.

(** X12: when the goods frame has a total column of its own, the total of a
    line is never computed: the fourth cell of every table row is
    [format_currency] of the line's cell in that column, and it is empty
    where that cell is missing, whatever the quantity and the price are. *)
Theorem explicit_total_shown `{U : unicode_data} `{R : runtime}
    (doc : docx_template) (items : dataframe) (t : pystr)
    (Hne : df_empty items = false) (Hwf : wf_frame items)
    (Hd : NoDup (df_columns items))
    (Ht : thanhtien (pick_columns items) = Some t) :
  exists i tbl,
    df_columns items !! i = Some (LStr t)
    /\ build_goods_table_subdoc doc (Some items)
       = Ok {| sd_doc := doc; sd_blocks := [Table tbl] |}
    /\ forall k cells, df_rows items !! k = Some cells ->
         exists name quantity price,
           tbl_rows tbl !! S k
           = Some [name; quantity; price;
                   text_of (format_currency (default PNone (cells !! i)))]
           /\ (isna (default PNone (cells !! i)) = true ->
               tbl_rows tbl !! S k = Some [name; quantity; price; []]).
Proof.
  pose proof (proj2 (proj2 (proj2 (pick_columns_in items))) t Ht) as Hin.
  destruct (index_of_In _ _ Hin) as [i Hi].
  exists i, (goods_table items).
  split; [exact (proj2 (index_of_Some _ _ _ Hi))|].
  split.
  { rewrite build_goods_table_subdoc_blocks. unfold goods_blocks. now rewrite Hne. }
  intros k cells Hk. rewrite (goods_table_explicit items t Ht).
  cbn [tbl_rows]. change ((headers :: ?l) !! S k) with (l !! k).
  unfold iterrows. rewrite !lookup_map, Hk. cbn [fmap option_fmap option_map].
  assert (Hlen : length cells = length (df_columns items)).
  { unfold wf_frame in Hwf. rewrite List.Forall_forall in Hwf. apply Hwf.
    apply list_elem_of_In. now apply list_elem_of_lookup_2 in Hk. }
  unfold goods_row_cells. rewrite Ht.
  rewrite (row_field_cell _ _ _ _ Hi Hlen).
  do 3 eexists. split; [reflexivity|].
  intros Hna. rewrite (format_currency_blank _ (or_introl Hna)). reflexivity.
Qed.

Lemma explicit_total_shown_witness :
  exists i tbl,
    df_columns scenario_goods !! i = Some (LStr (py "Thành tiền"))
    /\ @build_goods_table_subdoc ucd14 plain_runtime {| tpl_file := py "T1.docx" |}
         (Some scenario_goods)
       = Ok {| sd_doc := {| tpl_file := py "T1.docx" |};
               sd_blocks := [Table tbl] |}
    /\ exists name quantity price,
         tbl_rows tbl !! 1%nat = Some [name; quantity; price; []].
Proof.
  destruct (@explicit_total_shown ucd14 plain_runtime {| tpl_file := py "T1.docx" |}
              scenario_goods (py "Thành tiền") eq_refl)
    as (i & tbl & Hi & Hb & Hrows).
  - repeat constructor.
  - apply (bool_decide_unpack _). vm_compute. exact I.
  - vm_compute. reflexivity.
  - exists i, tbl. split; [exact Hi|]. split; [exact Hb|].
    destruct (Hrows 0%nat _ eq_refl) as (name & quantity & price & _ & E).
    exists name, quantity, price. apply E.
    destruct i as [|[|[|[|[|i]]]]]; try discriminate Hi.
    reflexivity.
Defined.

(** X13: for a customer row with distinct labels, the context is built
    without an error; it has the six placeholders in the order of the
    source; no scalar in it is a missing value ([None] or NaN): a field
    whose column is absent or whose cell is missing is the empty string,
    and any other field is the cell as it is; and the table placeholder
    holds the fragment built from the goods lines. *)
Theorem build_context_fields `{U : unicode_data} `{R : runtime}
    (doc : docx_template) (customer_row : series_row)
    (items_df : option dataframe)
    (Hd : NoDup (map fst customer_row))
    (Hi : forall items, items_df = Some items -> NoDup (df_columns items)) :
  exists ctx,
    build_context_for_customer doc customer_row items_df = Ok ctx
    /\ map fst ctx = [py "TênKH"; py "NgàySinh"; py "ĐịaChỉ"; py "SốĐiệnThoại";
                      py "MãKH"; py "BảngHàngHoá"]
    /\ (forall key v, In (key, CVal v) ctx -> isna v = false)
    /\ (forall key col,
          In (key, col) [(py "TênKH", py "Họ tên"); (py "ĐịaChỉ", py "Địa chỉ");
                         (py "SốĐiệnThoại", py "Số điện thoại");
                         (py "MãKH", py "Mã KH")] ->
          (row_has customer_row (LStr col) = false ->
           In (key, CVal (PStr [])) ctx)
          /\ (forall v, row_get customer_row (LStr col) = Some v ->
                In (key, CVal (if isna v then PStr [] else v)) ctx))
    /\ In (py "NgàySinh",
           CVal (PStr (text_of (format_date (val customer_row (py "Ngày sinh"))
                                            (py "%d/%m/%Y"))))) ctx
    /\ In (py "BảngHàngHoá",
           CSubdoc {| sd_doc := doc; sd_blocks := goods_blocks items_df |}) ctx.
Proof.
  exists (context_of doc customer_row items_df).
  split; [apply build_context_ok|]. split; [reflexivity|]. split.
  { intros key v Hin. unfold context_of in Hin. cbn [In] in Hin.
    destruct Hin as [H|[H|[H|[H|[H|[H|[]]]]]]]; try discriminate H;
      injection H as _ <-; try apply val_not_missing. reflexivity. }
  split.
  { intros key col Hin. cbn [In] in Hin.
    destruct Hin as [H|[H|[H|[H|[]]]]]; injection H as <- <-; split.
    all: try (intros Ha; rewrite <- (val_absent _ _ Ha); unfold context_of;
              cbn [In]; tauto).
    all: intros v Hv; rewrite <- (val_present _ _ _ Hv); unfold context_of;
      cbn [In]; tauto. }
  split; unfold context_of; cbn [In]; tauto.
Qed.

Lemma build_context_fields_witness :
  exists ctx,
    @build_context_for_customer ucd14 plain_runtime {| tpl_file := py "T1.docx" |}
      [(LStr (py "Mã KH"), PStr (py "001")); (LStr (py "Họ tên"), PFloat S754_nan)]
      None = Ok ctx
    /\ In (py "TênKH", CVal (PStr [])) ctx
    /\ In (py "ĐịaChỉ", CVal (PStr [])) ctx
    /\ In (py "MãKH", CVal (PStr (py "001"))) ctx.
Proof.
  destruct (@build_context_fields ucd14 plain_runtime {| tpl_file := py "T1.docx" |}
              [(LStr (py "Mã KH"), PStr (py "001"));
               (LStr (py "Họ tên"), PFloat S754_nan)] None)
    as (ctx & E & _ & _ & F & _).
  - apply (bool_decide_unpack _). vm_compute. exact I.
  - discriminate.
  - exists ctx. split; [exact E|]. split; [|split].
    + apply (proj2 (F (py "TênKH") (py "Họ tên") ltac:(cbn; tauto))
               (PFloat S754_nan)). reflexivity.
    + apply (proj1 (F (py "ĐịaChỉ") (py "Địa chỉ") ltac:(cbn; tauto))).
      reflexivity.
    + apply (proj2 (F (py "MãKH") (py "Mã KH") ltac:(cbn; tauto))
               (PStr (py "001"))). reflexivity.
Defined.

(** X14: when the goods frame has a column ["Mã KH"] (and distinct column
    names) and no cell of that column is missing, the goods lines of a
    customer are the rows whose cell in that column has the same [str] as
    the customer id, in the order of the frame and with all its columns;
    values are compared as text, so the number 1 and the text ["1"] are the
    same id. *)
Theorem filter_items_rows `{R : runtime} (all : dataframe) (customer_id : pyval)
    (Hin : In (LStr (py "Mã KH")) (df_columns all))
    (Hd : NoDup (df_columns all))
    (Hm : Forall (fun v => isna v = false) (df_column all (LStr (py "Mã KH")))) :
  exists i,
    df_columns all !! i = Some (LStr (py "Mã KH"))
    /\ filter_items (Some all) customer_id
       = {| df_columns := df_columns all;
            df_rows :=
              List.filter
                (fun cells => bool_decide (str (default PNone (cells !! i))
                                           = str customer_id))
                (df_rows all) |}
    /\ (forall cells,
          In cells (df_rows (filter_items (Some all) customer_id))
          <-> In cells (df_rows all)
              /\ str (default PNone (cells !! i)) = str customer_id)
    /\ (wf_frame all -> wf_frame (filter_items (Some all) customer_id))
    /\ filter_items (Some all) (PInt 1) = filter_items (Some all) (PStr (py "1")).
Proof.
  destruct (index_of_In _ _ Hin) as [i Hi]. exists i.
  split; [exact (proj2 (index_of_Some _ _ _ Hi))|].
  assert (E : forall id, filter_items (Some all) id
              = {| df_columns := df_columns all;
                   df_rows :=
                     List.filter
                       (fun cells => bool_decide (str (default PNone (cells !! i))
                                                  = str id))
                       (df_rows all) |}).
  { intros id. unfold filter_items.
    rewrite (proj2 (has_column_In all _) Hin).
    unfold df_filter_rows, column_as_str, df_column. rewrite Hi.
    f_equal. rewrite !map_map. apply filter_zip_map. }
  split; [apply E|]. split; [|split].
  - intros cells. rewrite E. cbn [df_rows]. rewrite filter_In.
    now rewrite bool_decide_eq_true.
  - intros Hwf. rewrite E. unfold wf_frame in *. cbn [df_rows df_columns].
    rewrite List.Forall_forall in *. intros cells Hc.
    apply filter_In in Hc as [Hc _]. now apply Hwf.
  - rewrite !E. reflexivity.
Qed.

Lemma filter_items_rows_witness :
  df_rows (@filter_items plain_runtime (Some scenario_goods) (PStr (py "001")))
  = [ [PStr (py "001"); PStr (py "Bút"); PInt 2; PInt 500; PFloat S754_nan];
      [PStr (py "001"); PStr (py "Vở"); PInt 1; PInt 1000;
       PFloat (float_of_Z 1200)] ].
Proof.
  destruct (@filter_items_rows plain_runtime scenario_goods (PStr (py "001")))
    as (i & Hi & E & _).
  - cbn. tauto.
  - apply (bool_decide_unpack _). vm_compute. exact I.
  - replace (df_column scenario_goods (LStr (py "Mã KH")))
      with [PStr (py "001"); PStr (py "001"); PStr (py "002")]
      by (vm_compute; reflexivity).
    repeat constructor.
  - rewrite E. destruct i as [|i]; [|destruct i as [|[|[|[|i]]]]; discriminate Hi].
    vm_compute. reflexivity.
Defined.

(** ** More on the rendering of one customer *)

Section RenderFacts.
Context `{U : unicode_data} `{R : runtime}.

Lemma saved_files_template_effects output_root customer_row items_all templates :
  saved_files (flat_map (template_effects output_root customer_row items_all)
                        templates)
  = map (fun tpl =>
           path_div
             (path_div output_root
                (folder_name (row_get_default customer_row (py "Mã KH"))
                             (row_get_default customer_row (py "Họ tên"))))
             (out_name tpl (row_get_default customer_row (py "Mã KH"))))
        templates.
Proof.
  induction templates as [|t ts IH]; [reflexivity|].
  cbn [flat_map map]. rewrite saved_files_app, IH. reflexivity.
Qed.

Lemma length_template_effects output_root customer_row items_all templates :
  length (flat_map (template_effects output_root customer_row items_all)
                   templates)
  = (2 * length templates)%nat.
Proof.
  induction templates as [|t ts IH]; [reflexivity|].
  cbn [flat_map length]. rewrite length_app, IH.
  unfold template_effects, template_effects_owned. cbn [length]. lia.
Qed.

Lemma filter_all_false {A} (rows : list A) (mask : list bool) :
  Forall (fun b => b = false) mask ->
  map fst (List.filter snd (zip rows mask)) = [].
Proof.
  intros H; revert rows. induction H as [|b mask -> _ IH]; intros [|r rows];
    try reflexivity.
  cbn [zip zip_with List.filter snd]. apply IH.
Qed.

(** The conditions under which a customer has no goods line. *)
Lemma filter_items_none items_all customer_id :
  items_all = None
  \/ (exists all, items_all = Some all
        /\ (~ In (LStr (py "Mã KH")) (df_columns all)
            \/ forall v, In v (df_column all (LStr (py "Mã KH"))) ->
                         str v <> str customer_id)) ->
  df_empty (filter_items items_all customer_id) = true.
Proof.
  intros [->|(all & -> & H)]; [reflexivity|]. unfold filter_items.
  destruct (has_column all (LStr (py "Mã KH"))) eqn:Hc; [|reflexivity].
  apply has_column_In in Hc. destruct H as [H|H]; [contradiction|].
  unfold df_filter_rows, df_empty. cbn [df_columns df_rows].
  rewrite filter_all_false; [now destruct (df_columns all)|].
  unfold column_as_str. rewrite map_map. apply Forall_map.
  apply List.Forall_forall. intros v Hv. cbn.
  apply bool_decide_eq_false_2. now apply H.
Qed.
End RenderFacts.

(** X15: for a customer row with distinct labels and a goods frame with
    distinct column names, [render_templates_for_customer] returns without
    an error; it makes the customer's folder first and then saves one
    document for every template, in the order of the templates, each
    followed by one printed line; with no template it only makes the
    folder. *)
Theorem render_templates_saves `{U : unicode_data} `{R : runtime}
    (templates : list path) (output_root : path) (customer_row : series_row)
    (items_all : option dataframe) (w : list effect)
    (Hd : NoDup (map fst customer_row))
    (Hi : forall all, items_all = Some all -> NoDup (df_columns all)) :
  let id := row_get_default customer_row (py "Mã KH") in
  let folder :=
    path_div output_root
      (folder_name id (row_get_default customer_row (py "Họ tên"))) in
  let run := render_templates_for_customer templates output_root customer_row
               items_all w in
  run.2 = Ok tt
  /\ saved_files run.1
     = saved_files w ++ map (fun tpl => path_div folder (out_name tpl id)) templates
  /\ length run.1 = (length w + 1 + 2 * length templates)%nat
  /\ run.1 !! length w = Some (Mkdir folder)
  /\ (templates = [] -> run.1 = w ++ [Mkdir folder]).
Proof.
  cbv zeta. rewrite render_templates_effects. cbn [fst snd].
  split; [reflexivity|]. split; [|split; [|split]].
  - rewrite saved_files_app. f_equal.
    change (Mkdir ?d :: ?l) with ([Mkdir d] ++ l).
    rewrite saved_files_app. apply saved_files_template_effects.
  - rewrite length_app. cbn [length]. rewrite length_template_effects. lia.
  - rewrite lookup_app_r by lia. now rewrite Nat.sub_diag.
  - intros ->. reflexivity.
Qed.

Lemma render_templates_saves_witness :
  map path_str
    (saved_files
       (@render_templates_for_customer ucd14 plain_runtime
          [path_of_str (py "/t/A.docx"); path_of_str (py "/t/B.docx")]
          (path_of_str (py "/out"))
          [(LStr (py "Mã KH"), PStr (py "001"));
           (LStr (py "Họ tên"), PStr (py "Nguyễn Văn A"))]
          None []).1)
  = [py "/out/001_Nguyễn Văn A/A__001.docx";
     py "/out/001_Nguyễn Văn A/B__001.docx"].
Proof.
  rewrite (proj1 (proj2 (@render_templates_saves ucd14 plain_runtime
             [path_of_str (py "/t/A.docx"); path_of_str (py "/t/B.docx")]
             (path_of_str (py "/out"))
             [(LStr (py "Mã KH"), PStr (py "001"));
              (LStr (py "Họ tên"), PStr (py "Nguyễn Văn A"))]
             None []
             ltac:(apply (bool_decide_unpack _); vm_compute; exact I)
             ltac:(discriminate)))).
  vm_compute. reflexivity.
Defined.

(** X16: a customer without goods lines (no goods frame, no column
    ["Mã KH"] in it, or no row whose id has the [str] of the customer id)
    gets, in every document saved for it, a fragment that is the one
    paragraph ["Không có hàng hoá."] and no table. *)
Theorem render_without_goods `{U : unicode_data} `{R : runtime}
    (templates : list path) (output_root : path) (customer_row : series_row)
    (items_all : option dataframe) (w : list effect)
    (H : items_all = None
         \/ exists all, items_all = Some all
              /\ (~ In (LStr (py "Mã KH")) (df_columns all)
                  \/ forall v, In v (df_column all (LStr (py "Mã KH"))) ->
                       str v <> str (row_get_default customer_row (py "Mã KH")))) :
  forall file doc ctx,
    In (Save file doc ctx)
       (drop (length w)
          (render_templates_for_customer templates output_root customer_row
             items_all w).1) ->
    In (py "BảngHàngHoá",
        CSubdoc {| sd_doc := doc;
                   sd_blocks := [Paragraph (py "Không có hàng hoá.")] |}) ctx.
Proof.
  intros file doc ctx Hin. rewrite render_templates_effects in Hin.
  cbn [fst] in Hin. rewrite drop_app_length in Hin.
  destruct Hin as [Hin|Hin]; [discriminate|].
  apply in_flat_map in Hin as (tpl & _ & Hin).
  destruct Hin as [Hin|[Hin|[]]]; [|discriminate].
  injection Hin as _ <- <-. unfold context_of, goods_blocks.
  rewrite (filter_items_none _ _ H). cbn [In]. tauto.
Qed.

Lemma render_without_goods_witness :
  exists file doc ctx,
    (@render_templates_for_customer ucd14 plain_runtime
       [path_of_str (py "/t/A.docx")] (path_of_str (py "/out"))
       [(LStr (py "Mã KH"), PStr (py "003"))]
       (Some scenario_goods) []).1 !! 1%nat
    = Some (Save file doc ctx)
    /\ In (py "BảngHàngHoá",
           CSubdoc {| sd_doc := doc;
                      sd_blocks := [Paragraph (py "Không có hàng hoá.")] |}) ctx.
Proof.
  eexists _, _, _. split; [vm_compute; reflexivity|].
  eapply (@render_without_goods ucd14 plain_runtime
            [path_of_str (py "/t/A.docx")] (path_of_str (py "/out"))
            [(LStr (py "Mã KH"), PStr (py "003"))] (Some scenario_goods) []).
  - right. exists scenario_goods. split; [reflexivity|]. right.
    intros v Hv. vm_compute in Hv.
    destruct Hv as [<-|[<-|[<-|[]]]]; vm_compute; discriminate.
  - vm_compute. right. left. reflexivity.
Defined.

(** ** More on the driver *)

Section MainFacts.
Context `{U : unicode_data} `{R : runtime}.

Lemma saved_files_flat_map {A} (effects : A -> list effect) (l : list A) :
  saved_files (flat_map effects l)
  = flat_map (fun x => saved_files (effects x)) l.
Proof.
  induction l as [|x l IH]; [reflexivity|].
  cbn [flat_map]. now rewrite saved_files_app, IH.
Qed.

Lemma length_flat_map_const {A B} (f : A -> list B) (l : list A) n :
  (forall x, length (f x) = n) -> length (flat_map f l) = (length l * n)%nat.
Proof.
  intros H. induction l as [|x l IH]; [reflexivity|].
  cbn [flat_map length]. rewrite length_app, H, IH. lia.
Qed.

Lemma sorted_nonempty l : l <> [] -> (length (sorted l) =? 0)%nat = false.
Proof.
  intros H. apply Nat.eqb_neq. rewrite length_sorted.
  destruct l; [contradiction|discriminate].
Qed.

(** The effects of a run in which every check passes. *)
Lemma main_effects env w profile goods :
  excel_exists env = true -> template_dir_exists env = true ->
  template_files env <> [] ->
  read_excel_data (excel env) = Ok (profile, goods) ->
  In (LStr (py "Mã KH")) (df_columns profile) ->
  In (LStr (py "Họ tên")) (df_columns profile) ->
  main env w
  = (w ++ [Mkdir (path_of_str OUTPUT_DIR);
           Print (py "Tìm thấy "
                  ++ str_int (Z.of_nat (length (sorted (template_files env))))
                  ++ py " template(s).")]
       ++ flat_map
            (fun row =>
               Mkdir (path_div (path_of_str OUTPUT_DIR)
                        (folder_name (row_get_default row (py "Mã KH"))
                                     (row_get_default row (py "Họ tên"))))
               :: flat_map (template_effects (path_of_str OUTPUT_DIR) row
                                             (Some goods))
                           (sorted (template_files env)))
            (iterrows profile)
       ++ [Print (py "Hoàn thành tất cả.")],
     Ok tt).
Proof.
  intros He Ht Hf Hr H1 H2. unfold main.
  cbv [mbind io_mbind io_bind io_ret io_raise io_emit io_lift].
  rewrite He, Ht. cbn [negb]. rewrite (sorted_nonempty _ Hf), Hr.
  cbn [fst snd]. rewrite check_required_cases.
  rewrite (proj2 (has_column_In _ _) H1), (proj2 (has_column_In _ _) H2).
  erewrite io_for_effects.
  - rewrite <- !app_assoc. reflexivity.
  - intros row w'. apply render_templates_effects.
Qed.
End MainFacts.

(** X17: when the workbook and the template folder exist, there is a
    template, both sheets are found and the profile sheet has the columns
    ["Mã KH"] and ["Họ tên"] (the column names of each sheet distinct),
    [main] returns without an error and saves one document for every
    customer and every template: customers in the order of the profile
    sheet, and for each of them the templates in sorted order; its last
    effect is the line ["Hoàn thành tất cả."]. *)
Theorem main_renders_all `{U : unicode_data} `{R : runtime}
    (env : environment) (w : list effect) (profile goods : dataframe)
    (He : excel_exists env = true) (Ht : template_dir_exists env = true)
    (Hf : template_files env <> [])
    (Hr : read_excel_data (excel env) = Ok (profile, goods))
    (H1 : In (LStr (py "Mã KH")) (df_columns profile))
    (H2 : In (LStr (py "Họ tên")) (df_columns profile))
    (Hd1 : NoDup (df_columns profile)) (Hd2 : NoDup (df_columns goods)) :
  (main env w).2 = Ok tt
  /\ saved_files (main env w).1
     = saved_files w
       ++ flat_map (customer_files (sorted (template_files env))
                                   (path_of_str OUTPUT_DIR))
                   (iterrows profile)
  /\ length (saved_files (main env w).1)
     = (length (saved_files w)
        + length (df_rows profile) * length (template_files env))%nat
  /\ last (main env w).1 = Some (Print (py "Hoàn thành tất cả.")).
Proof.
  rewrite (main_effects env w profile goods He Ht Hf Hr H1 H2). cbn [fst snd].
  assert (S : saved_files
                (w ++ [Mkdir (path_of_str OUTPUT_DIR);
                       Print (py "Tìm thấy "
                              ++ str_int (Z.of_nat
                                   (length (sorted (template_files env))))
                              ++ py " template(s).")]
                   ++ flat_map
                        (fun row =>
                           Mkdir (path_div (path_of_str OUTPUT_DIR)
                                    (folder_name
                                       (row_get_default row (py "Mã KH"))
                                       (row_get_default row (py "Họ tên"))))
                           :: flat_map (template_effects (path_of_str OUTPUT_DIR)
                                          row (Some goods))
                                       (sorted (template_files env)))
                        (iterrows profile)
                   ++ [Print (py "Hoàn thành tất cả.")])
              = saved_files w
                ++ flat_map (customer_files (sorted (template_files env))
                                            (path_of_str OUTPUT_DIR))
                            (iterrows profile)).
  { rewrite !saved_files_app, saved_files_flat_map.
    change (saved_files [Mkdir _; Print _]) with (@nil path).
    change (saved_files [Print _]) with (@nil path).
    rewrite app_nil_r. cbn [app]. f_equal.
    apply flat_map_ext. intros row.
    change (Mkdir ?d :: ?l) with ([Mkdir d] ++ l).
    rewrite saved_files_app. apply saved_files_template_effects. }
  split; [reflexivity|]. split; [exact S|]. split.
  - rewrite S, length_app. f_equal.
    rewrite (length_flat_map_const _ _ (length (template_files env))).
    + unfold iterrows. now rewrite length_map.
    + intros row. unfold customer_files. now rewrite length_map, length_sorted.
  - rewrite !app_assoc. apply last_snoc.
Qed.

Lemma main_renders_all_witness :
  (@main ucd14 plain_runtime scenario []).2 = Ok tt
  /\ map path_str (saved_files (@main ucd14 plain_runtime scenario []).1)
     = [ py "/absolute/path/to/output/001_Nguyễn Văn A/T1__001.docx";
         py "/absolute/path/to/output/001_Nguyễn Văn A/T2__001.docx" ].
Proof.
  destruct (@main_renders_all ucd14 plain_runtime scenario []
              scenario_profile scenario_goods eq_refl eq_refl)
    as (E & S & _).
  - discriminate.
  - vm_compute. reflexivity.
  - vm_compute. tauto.
  - vm_compute. tauto.
  - apply (bool_decide_unpack _). vm_compute. exact I.
  - apply (bool_decide_unpack _). vm_compute. exact I.
  - split; [exact E|]. rewrite S. vm_compute. reflexivity.
Defined.

(** X18: the checks of [main] come in this order, each with an error of
    its own, and all of them before the first customer is rendered: a
    missing workbook and a missing template folder raise
    [FileNotFoundError] before anything is done; a folder without
    templates raises it after the output folder was made; a profile sheet
    without the column ["Mã KH"], or with it and without ["Họ tên"], raises
    [ValueError] naming the first missing column after the template count
    was printed. *)
Theorem main_preflight `{U : unicode_data} `{R : runtime}
    (env : environment) (w : list effect) :
  (excel_exists env = false ->
   main env w
   = (w, Raise (Exn FileNotFoundError
                  (py "Không thấy file Excel: /absolute/path/to/input.xlsx"))))
  /\ (excel_exists env = true -> template_dir_exists env = false ->
      main env w
      = (w, Raise (Exn FileNotFoundError
                     (py "Không thấy thư mục template: /absolute/path/to/templates"))))
  /\ (excel_exists env = true -> template_dir_exists env = true ->
      template_files env = [] ->
      main env w
      = (w ++ [Mkdir (path_of_str (py "/absolute/path/to/output"))],
         Raise (Exn FileNotFoundError
                  (py "Không tìm thấy template .docx trong /absolute/path/to/templates"))))
  /\ (forall profile goods,
        excel_exists env = true -> template_dir_exists env = true ->
        template_files env <> [] ->
        read_excel_data (excel env) = Ok (profile, goods) ->
        ~ (In (LStr (py "Mã KH")) (df_columns profile)
           /\ In (LStr (py "Họ tên")) (df_columns profile)) ->
        main env w
        = (w ++ [Mkdir (path_of_str (py "/absolute/path/to/output"));
                 Print (py "Tìm thấy "
                        ++ str_int (Z.of_nat (length (template_files env)))
                        ++ py " template(s).")],
           Raise (Exn ValueError
                    (py "Sheet 'Hồ sơ' thiếu cột bắt buộc: "
                     ++ (if has_column profile (LStr (py "Mã KH"))
                         then py "Họ tên" else py "Mã KH"))))).
Proof.
  split; [|split; [|split]].
  - intros He. unfold main. cbv [mbind io_mbind io_bind io_ret io_raise].
    rewrite He. reflexivity.
  - intros He Ht. unfold main. cbv [mbind io_mbind io_bind io_ret io_raise].
    rewrite He, Ht. reflexivity.
  - intros He Ht Hf. unfold main.
    cbv [mbind io_mbind io_bind io_ret io_raise io_emit].
    rewrite He, Ht, Hf. reflexivity.
  - intros profile goods He Ht Hf Hr Hc. unfold main.
    cbv [mbind io_mbind io_bind io_ret io_raise io_emit io_lift].
    rewrite He, Ht. cbn [negb]. rewrite (sorted_nonempty _ Hf), Hr.
    cbn [fst snd]. rewrite check_required_cases, length_sorted.
    destruct (has_column profile (LStr (py "Mã KH"))) eqn:E1.
    + destruct (has_column profile (LStr (py "Họ tên"))) eqn:E2.
      * exfalso. apply Hc. split; now apply has_column_In.
      * rewrite <- app_assoc. reflexivity.
    + rewrite <- app_assoc. reflexivity.
Qed.

(** ** The order of the templates and the paths of the output *)

Section OrderFacts.

Lemma pystr_leb_refl a : pystr_leb a a = true.
Proof.
  induction a as [|x a IH]; [reflexivity|]. cbn [pystr_leb].
  rewrite Z.eqb_refl, IH. apply orb_true_r.
Qed.

Lemma pystr_leb_total a b : pystr_leb a b = false -> pystr_leb b a = true.
Proof.
  revert b; induction a as [|x a IH]; intros [|y b]; cbn [pystr_leb];
    try discriminate; try reflexivity.
  intros H. apply orb_false_iff in H as [H1 H2]. apply Z.ltb_ge in H1.
  destruct (Z.eq_dec x y) as [->|Hne].
  - rewrite Z.eqb_refl in *. cbn [andb] in H2. rewrite (IH _ H2).
    apply orb_true_r.
  - replace (y <? x) with true by (symmetry; apply Z.ltb_lt; lia).
    reflexivity.
Qed.

Lemma pystr_leb_trans a b c :
  pystr_leb a b = true -> pystr_leb b c = true -> pystr_leb a c = true.
Proof.
  revert b c; induction a as [|x a IH]; intros [|y b] [|z c];
    cbn [pystr_leb]; try discriminate; try reflexivity.
  intros H1 H2.
  apply orb_true_iff in H1 as [H1|H1]; apply orb_true_iff in H2 as [H2|H2].
  - apply Z.ltb_lt in H1, H2.
    replace (x <? z) with true by (symmetry; apply Z.ltb_lt; lia). reflexivity.
  - apply Z.ltb_lt in H1. apply andb_true_iff in H2 as [H2 _].
    apply Z.eqb_eq in H2 as <-.
    replace (x <? y) with true by (symmetry; apply Z.ltb_lt; lia). reflexivity.
  - apply andb_true_iff in H1 as [H1 _]. apply Z.eqb_eq in H1 as ->.
    now rewrite H2.
  - apply andb_true_iff in H1 as [E1 H1]. apply andb_true_iff in H2 as [E2 H2].
    apply Z.eqb_eq in E1 as ->. apply Z.eqb_eq in E2 as ->.
    rewrite Z.eqb_refl, (IH _ _ H1 H2). apply orb_true_r.
Qed.

Lemma pystr_leb_antisym a b :
  pystr_leb a b = true -> pystr_leb b a = true -> a = b.
Proof.
  revert b; induction a as [|x a IH]; intros [|y b]; cbn [pystr_leb];
    try discriminate; try reflexivity.
  intros H1 H2.
  apply orb_true_iff in H1 as [H1|H1]; apply orb_true_iff in H2 as [H2|H2].
  - apply Z.ltb_lt in H1, H2. lia.
  - apply Z.ltb_lt in H1. apply andb_true_iff in H2 as [H2 _].
    apply Z.eqb_eq in H2. lia.
  - apply Z.ltb_lt in H2. apply andb_true_iff in H1 as [H1 _].
    apply Z.eqb_eq in H1. lia.
  - apply andb_true_iff in H1 as [E1 H1]. apply andb_true_iff in H2 as [_ H2].
    apply Z.eqb_eq in E1 as ->. f_equal. now apply IH.
Qed.

Lemma parts_leb_total a b : parts_leb a b = false -> parts_leb b a = true.
Proof.
  revert b; induction a as [|x a IH]; intros [|y b]; cbn [parts_leb];
    try discriminate; try reflexivity.
  destruct (decide (x = y)) as [->|Hne].
  - rewrite !bool_decide_eq_true_2 by reflexivity. apply IH.
  - rewrite bool_decide_eq_false_2 by exact Hne.
    rewrite bool_decide_eq_false_2 by (intros E; now apply Hne).
    apply pystr_leb_total.
Qed.

Lemma parts_leb_trans a b c :
  parts_leb a b = true -> parts_leb b c = true -> parts_leb a c = true.
Proof.
  revert b c; induction a as [|x a IH]; intros [|y b] [|z c];
    cbn [parts_leb]; try discriminate; try reflexivity.
  destruct (decide (x = y)) as [->|Hxy].
  - rewrite (bool_decide_eq_true_2 (y = y)) by reflexivity.
    destruct (bool_decide (y = z)); [apply IH|trivial].
  - rewrite (bool_decide_eq_false_2 (x = y)) by exact Hxy.
    destruct (decide (y = z)) as [->|Hyz].
    + rewrite (bool_decide_eq_true_2 (z = z)) by reflexivity.
      rewrite (bool_decide_eq_false_2 (x = z)) by exact Hxy. trivial.
    + rewrite (bool_decide_eq_false_2 (y = z)) by exact Hyz.
      intros H1 H2. destruct (decide (x = z)) as [->|Hxz].
      * exfalso. apply Hxy. now apply pystr_leb_antisym.
      * rewrite (bool_decide_eq_false_2 (x = z)) by exact Hxz.
        exact (pystr_leb_trans _ _ _ H1 H2).
Qed.

Lemma path_leb_total p q : path_leb p q = false -> path_leb q p = true.
Proof. apply parts_leb_total. Qed.

Lemma path_leb_trans p q r :
  path_leb p q = true -> path_leb q r = true -> path_leb p r = true.
Proof. apply parts_leb_trans. Qed.

Lemma insert_sorted_perm p l : insert_sorted p l ≡ₚ p :: l.
Proof.
  induction l as [|q l IH]; [reflexivity|]. cbn [insert_sorted].
  destruct (path_leb q p); [|reflexivity].
  rewrite IH. apply Permutation_swap.
Qed.

Lemma insert_sorted_ascending p l :
  ascending l -> ascending (insert_sorted p l).
Proof.
  induction l as [|q l IH]; [cbn; auto|]. intros [Hq Hl].
  cbn [insert_sorted]. destruct (path_leb q p) eqn:E.
  - cbn [ascending]. split; [|now apply IH].
    rewrite (insert_sorted_perm p l). now constructor.
  - apply path_leb_total in E. cbn [ascending]. split; [|now split].
    constructor; [exact E|].
    eapply Forall_impl; [exact Hq|]. intros r Hr. cbn beta in Hr.
    exact (path_leb_trans _ _ _ E Hr).
Qed.

Lemma fold_insert_sorted l acc :
  fold_left (fun acc p => insert_sorted p acc) l acc ≡ₚ l ++ acc
  /\ (ascending acc ->
      ascending (fold_left (fun acc p => insert_sorted p acc) l acc)).
Proof.
  revert acc; induction l as [|p l IH]; intros acc; cbn [fold_left app].
  - split; [reflexivity|trivial].
  - destruct (IH (insert_sorted p acc)) as [P A]. split.
    + rewrite P, insert_sorted_perm. symmetry. apply Permutation_middle.
    + intros H. now apply A, insert_sorted_ascending.
Qed.

Lemma ascending_lookup l i j p q :
  ascending l -> (i < j)%nat -> l !! i = Some p -> l !! j = Some q ->
  path_leb p q = true.
Proof.
  revert i j; induction l as [|x l IH]; intros i j A Hij Hi Hj; [discriminate|].
  destruct A as [Hx Hl]. destruct j as [|j]; [lia|]. cbn in Hj.
  destruct i as [|i].
  - injection Hi as <-. rewrite List.Forall_forall in Hx. apply Hx.
    apply list_elem_of_In. now apply list_elem_of_lookup_2 in Hj.
  - cbn in Hi. apply (IH i j); trivial. lia.
Qed.
End OrderFacts.

(** X19: [sorted] rearranges the templates without losing or adding one,
    and puts them in ascending order of their paths (component by
    component, by code point), whatever order [glob] yields: a template
    that comes earlier in the result is not greater than one that comes
    later.  The order is total and transitive. *)
Theorem sorted_templates (l : list path) :
  sorted l ≡ₚ l
  /\ (forall i j p q, (i < j)%nat ->
        sorted l !! i = Some p -> sorted l !! j = Some q -> path_leb p q = true)
  /\ (forall p q, path_leb p q = true \/ path_leb q p = true)
  /\ (forall p q r, path_leb p q = true -> path_leb q r = true ->
        path_leb p r = true).
Proof.
  destruct (fold_insert_sorted l []) as [P A]. split; [|split; [|split]].
  - unfold sorted. rewrite P. now rewrite app_nil_r.
  - intros i j p q. apply ascending_lookup. apply A. exact I.
  - intros p q. destruct (path_leb p q) eqn:E; [now left|].
    right. now apply path_leb_total.
  - apply path_leb_trans.
Qed.

Section PathFacts.
Context `{U : unicode_data} `{R : runtime}.

Lemma split_slash_plain s cur :
  ~ In 47 s -> split_slash s cur = [rev cur ++ s].
Proof.
  revert cur; induction s as [|c s IH]; intros cur Hn; cbn [split_slash].
  - now rewrite app_nil_r.
  - assert (Hc : (c =? 47) = false)
      by (apply Z.eqb_neq; intros ->; apply Hn; now left).
    rewrite Hc, IH by (intros Hin; apply Hn; now right).
    cbn [rev]. now rewrite <- app_assoc.
Qed.

Lemma path_of_str_plain s :
  ~ In 47 s ->
  path_of_str s
  = {| path_absolute := false;
       path_parts := if is_dir_part s then [s] else [] |}.
Proof.
  intros Hn. unfold path_of_str. rewrite (split_slash_plain s [] Hn).
  cbn [rev app List.filter]. f_equal.
  destruct s as [|c s]; [reflexivity|]. cbn [str_startswith].
  replace (47 =? c) with false; [reflexivity|].
  symmetry. apply Z.eqb_neq. intros <-. apply Hn. now left.
Qed.

Lemma path_div_plain p s :
  ~ In 47 s ->
  path_div p s
  = {| path_absolute := path_absolute p;
       path_parts := path_parts p ++ (if is_dir_part s then [s] else []) |}.
Proof.
  intros Hn. unfold path_div. now rewrite (path_of_str_plain s Hn).
Qed.

Lemma safe_filename_no_slash t :
  uc_isalnum 47 = false -> ~ In 47 (safe_filename t).
Proof.
  intros Hs Hin. unfold safe_filename in Hin.
  apply in_map_iff in Hin as (ch & E & _).
  pose proof (safe_char_allowed ch) as A. rewrite E in A.
  destruct A as [A|A]; [congruence|].
  vm_compute in A. intuition discriminate.
Qed.

Lemma strip_by_In p s c : In c (strip_by p s) -> In c s.
Proof.
  intros H. destruct (strip_by_split p s) as (a & b & E & _).
  rewrite E, !in_app_iff. tauto.
Qed.

Lemma folder_name_no_slash customer_id customer_name :
  uc_isalnum 47 = false -> ~ In 47 (folder_name customer_id customer_name).
Proof.
  intros Hs Hin. unfold folder_name in Hin. apply strip_by_In in Hin.
  rewrite !in_app_iff in Hin. destruct Hin as [Hin|[Hin|Hin]].
  - exact (safe_filename_no_slash _ Hs Hin).
  - vm_compute in Hin. intuition discriminate.
  - exact (safe_filename_no_slash _ Hs Hin).
Qed.

Lemma last_In {A} (l : list A) d : l <> [] -> In (List.last l d) l.
Proof.
  induction l as [|x [|y l] IH]; [contradiction| |]; intros _.
  - now left.
  - right. apply IH. discriminate.
Qed.

Lemma path_stem_In p c :
  In c (path_stem p) -> exists part, In part (path_parts p) /\ In c part.
Proof.
  unfold path_stem. destruct (path_parts p) as [|x l] eqn:E.
  - cbn. tauto.
  - set (name := List.last (x :: l) []).
    assert (Hl : In name (x :: l)) by (apply last_In; discriminate).
    intros Hin. exists name. split; [exact Hl|].
    destruct (rfind_dot name 0) as [i|]; [|exact Hin].
    destruct ((0 <? i)%nat && (i <? length name - 1)%nat); [|exact Hin].
    apply list_elem_of_In. apply list_elem_of_In in Hin.
    apply (subseteq_take i name). exact Hin.
Qed.

Lemma out_name_no_slash tpl customer_id :
  uc_isalnum 47 = false -> plain_parts tpl ->
  ~ In 47 (out_name tpl customer_id).
Proof.
  intros Hs Hp Hin. unfold out_name in Hin. rewrite !in_app_iff in Hin.
  destruct Hin as [Hin|[Hin|[Hin|Hin]]].
  - apply path_stem_In in Hin as (part & Hpart & Hc).
    unfold plain_parts in Hp. rewrite List.Forall_forall in Hp.
    exact (Hp _ Hpart Hc).
  - vm_compute in Hin. intuition discriminate.
  - exact (safe_filename_no_slash _ Hs Hin).
  - vm_compute in Hin. intuition discriminate.
Qed.

Lemma out_name_is_part tpl customer_id :
  is_dir_part (out_name tpl customer_id) = true.
Proof.
  assert (L : (7 <= length (out_name tpl customer_id))%nat).
  { unfold out_name. rewrite !length_app.
    change (length (py "__")) with 2%nat.
    change (length (py ".docx")) with 5%nat. lia. }
  unfold is_dir_part.
  rewrite !bool_decide_eq_false_2; [reflexivity| |]; intros E; rewrite E in L;
    cbn in L; lia.
Qed.

Lemma out_name_stem tpl tpl' customer_id :
  out_name tpl' customer_id = out_name tpl customer_id ->
  path_stem tpl' = path_stem tpl.
Proof. unfold out_name. apply app_inv_tail. Qed.
End PathFacts.

(** X20: where ["/"] is not alphanumeric and the template path has no
    slash inside a component, the folder of a customer is the output root
    itself (when the folder name is empty or ["."]) or one component under
    it, and the document of a template is the file [stem__id.docx]
    directly in that folder, so that templates with different stems never
    write the same file.  The folder name holds no slash and neither
    starts nor ends with an underscore; it can be [".."]. *)
Theorem output_paths `{U : unicode_data} `{R : runtime}
    (output_root tpl : path) (customer_id customer_name : pyval)
    (Hslash : uc_isalnum 47 = false) (Htpl : plain_parts tpl) :
  let folder_text := folder_name customer_id customer_name in
  let folder := path_div output_root folder_text in
  let file := path_div folder (out_name tpl customer_id) in
  ~ In 47 folder_text
  /\ (forall c rest, folder_text = c :: rest -> c <> 95)
  /\ (forall init c, folder_text = init ++ [c] -> c <> 95)
  /\ path_absolute folder = path_absolute output_root
  /\ path_parts folder
     = path_parts output_root
       ++ (if is_dir_part folder_text then [folder_text] else [])
  /\ path_absolute file = path_absolute output_root
  /\ path_parts file = path_parts folder ++ [out_name tpl customer_id]
  /\ (forall tpl', plain_parts tpl' -> path_stem tpl' <> path_stem tpl ->
        path_div folder (out_name tpl' customer_id) <> file)
  /\ folder_name (PStr (py "..")) (PStr []) = py "..".
Proof.
  cbv zeta.
  pose proof (folder_name_no_slash customer_id customer_name Hslash) as Hf.
  pose proof (out_name_no_slash tpl customer_id Hslash Htpl) as Ho.
  rewrite (path_div_plain output_root _ Hf).
  rewrite !(path_div_plain _ _ Ho), !out_name_is_part. cbn [path_absolute path_parts].
  split; [exact Hf|]. split; [|split].
  { intros c rest E. unfold folder_name in E. apply strip_by_head in E.
    apply Z.eqb_neq in E. congruence. }
  { intros init c E. unfold folder_name in E. apply strip_by_last in E.
    apply Z.eqb_neq in E. congruence. }
  repeat (split; [reflexivity|]). split.
  - intros tpl' Hp' Hne E.
    rewrite (path_div_plain _ _ (out_name_no_slash tpl' customer_id Hslash Hp')),
      out_name_is_part in E.
    cbn [path_absolute path_parts] in E. injection E as E.
    apply app_inv_head in E. injection E as E.
    exact (Hne (out_name_stem _ _ _ E)).
  - assert (E : safe_filename [46; 46] = [46; 46]).
    { unfold safe_filename, safe_char. cbn [map].
      change (existsb (Z.eqb 46) keep) with true. now rewrite orb_true_r. }
    unfold folder_name. cbn [str]. change (py "..") with [46; 46].
    rewrite E. reflexivity.
Qed.

Lemma output_paths_witness :
  map (@path_str)
    [ path_div (path_of_str (py "/out"))
        (@folder_name ucd14 plain_runtime (PStr (py "A/B")) (PStr (py "C:D"))) ]
  = [py "/out/A_B_C_D"]
  /\ path_parts
       (path_div
          (path_div (path_of_str (py "/out"))
             (@folder_name ucd14 plain_runtime (PStr (py "A/B")) (PStr (py "C:D"))))
          (@out_name ucd14 plain_runtime (path_of_str (py "/t/T1.docx"))
             (PStr (py "A/B"))))
     = [py "out"; py "A_B_C_D"; py "T1__A_B.docx"].
Proof.
  split; [vm_compute; reflexivity|].
  destruct (@output_paths ucd14 plain_runtime (path_of_str (py "/out"))
              (path_of_str (py "/t/T1.docx")) (PStr (py "A/B")) (PStr (py "C:D"))
              eq_refl)
    as (_ & _ & _ & _ & _ & _ & E & _).
  - vm_compute. repeat constructor; intuition discriminate.
  - rewrite E. vm_compute. reflexivity.
Defined.
